(** * Wasatch.PY: the EEPROM codec, the balancing loop and the device wrapper

    A shallow embedding of three modules of the Wasatch.PY spectrometer
    driver (Python 2: [import Queue], implicit relative imports):

    - [wasatch/EEPROM.py]: the six 64-byte pages of non-volatile
      configuration, their decoder ([parse], [read_eeprom], [unpack]) and
      their encoder ([generate_write_buffers], [pack]);
    - [wasatch/BalanceAcquisition.py]: the closed loop that drives the peak
      of a spectrum towards a target intensity;
    - [wasatch/WasatchDeviceWrapper.py]: the queues between the controlling
      process and the worker ([dedupe], [acquire_data], [get_final_item]).

    Part I holds the definitions, one module per Python module; Part II the
    statements proved about them. *)

From Stdlib Require Import ZArith Lia List Bool String Ascii Sorted.
From Stdlib Require Import Strings.Byte.
From Stdlib Require Import Floats.PrimFloat.
From stdpp Require Import base option list gmap strings.

Local Open Scope Z_scope.

(* ===================================================================== *)
(** * Part I.  Definitions                                                *)
(* ===================================================================== *)

(** ** Python exceptions and results *)

Module Py.

(** The exceptions the modelled code can raise. *)
Inductive exn : Type :=
| IndexError
| TypeError
| ValueError
| NameError (name : string)
| ZeroDivisionError
| OverflowError
| AttributeError
| StructError
| PackError.        (* the bare [Exception] raised by [EEPROM.pack] *)

(** A computation returns a value or raises. *)
Inductive result (A : Type) : Type :=
| Ok (a : A)
| Raise (e : exn).
Arguments Ok {A} a.
Arguments Raise {A} e.

Definition bind {A B} (m : result A) (k : A -> result B) : result B :=
  match m with
  | Ok a => k a
  | Raise e => Raise e
  end.

Definition succeeds {A} (m : result A) : Prop := exists a, m = Ok a.

End Py.

Import Py.

(** [result] with stdpp's monad notation: [x ← m; k] runs [k] on the value
    of [m] and passes an exception of [m] on. *)
#[global] Instance result_ret : MRet Py.result := @Py.Ok.
#[global] Instance result_bind : MBind Py.result :=
  fun A B (k : A -> Py.result B) (m : Py.result A) => Py.bind m k.

(** ** Collaborators: [Reading] and [ControlObject] *)

(** Modelled from the spec: [Reading.py] is not part of the three modules.
    A reading is one acquisition result: a sample vector or its absence, a
    session counter, the flag that marks the final member of an averaged
    series, and an optional failure.  Samples are integers here. *)
Record Reading : Type := mkReading {
  session_count : Z;
  averaged : bool;
  spectrum : option (list Z);
  failure : option string
}.

(** Modelled from the spec: [ControlObject.py] is not part of the three
    modules.  A command is a (setting-name, value) record; the payload's
    Python type depends on the setting and the queue code never inspects
    it, so an integer stands for it. *)
Record ControlObject : Type := mkControl {
  setting : string;
  value : Z
}.

(* ===================================================================== *)
(** ** WasatchDeviceWrapper.py                                            *)
(* ===================================================================== *)

Module Wrapper.

(** What travels on the command queue: a control object or the poison
    pill [None]. *)
Definition command : Type := option ControlObject.

(** The dictionary key [dedupe] files a command under: its setting, or
    [None] for the poison pill. *)
Definition key_of (c : command) : option string :=
  match c with
  | None => None
  | Some co => Some (setting co)
  end.

(** [del keep[index]]: Python raises [IndexError] out of range. *)
Definition del_index {A} (keep : list A) (index : nat) : result (list A) :=
  if (index <? length keep)%nat then Ok (delete index keep) else Raise IndexError.

(** One turn of the [while True] loop of [dedupe], for the command that
    [q.get_nowait()] returned. *)
Definition dedupe_step (st : list command * gmap (option string) nat)
           (control_object : command)
  : result (list command * gmap (option string) nat) :=
  let '(keep, indices) := st in
  let setting := key_of control_object in
  (* remove previous setting if duplicate *)
  st' ← match indices !! setting with
        | Some index =>
            keep' ← del_index keep index;
            Ok (keep', delete setting indices)
        | None => Ok (keep, indices)
        end;
  let '(keep, indices) := st' in
  (* append the setting to the de-dupped list and track index *)
  let keep := keep ++ [control_object] in
  Ok (keep, <[setting := (length keep - 1)%nat]> indices).

(** The loop runs until the queue raises [Queue.Empty]: it consumes the
    queued commands oldest first. *)
Fixpoint dedupe_loop (st : list command * gmap (option string) nat)
         (q : list command)
  : result (list command * gmap (option string) nat) :=
  match q with
  | [] => Ok st
  | control_object :: q' =>
      st' ← dedupe_step st control_object; dedupe_loop st' q' 
  end.

Definition dedupe (q : list command) : result (list command) :=
  st ← dedupe_loop ([], ∅) q; Ok (fst st).

(** *** What the de-duplication is meant to compute

    The most recent command of every setting, in the order of those most
    recent commands: a command is dropped when a later one has its key. *)
Definition same_key (a b : command) : bool :=
  bool_decide (key_of a = key_of b).

Fixpoint latest_commands (q : list command) : list command :=
  match q with
  | [] => []
  | c :: q' =>
      if existsb (same_key c) q' then latest_commands q'
      else c :: latest_commands q'
  end.

(** Runs of one setting collapsed to one key each. *)
Fixpoint runs (ks : list (option string)) : list (option string) :=
  match ks with
  | [] => []
  | k :: ks' =>
      match ks' with
      | k' :: _ => if bool_decide (k = k') then runs ks' else k :: runs ks'
      | [] => [k]
      end
  end.

(** A queue in which a setting that comes back comes back at once: the
    commands of one setting are consecutive. *)
Definition consecutive_repeats (q : list command) : Prop :=
  NoDup (runs (key_of <$> q)).

(** [keep] without the command filed under [k]. *)
Definition remove_key (k : option string) (keep : list command) : list command :=
  filter (fun c => key_of c <> k) keep.

(** The indices are accurate: the settings in [keep] are distinct, and the
    dictionary maps each one to the position of its command. *)
Definition accurate (keep : list command) (indices : gmap (option string) nat)
  : Prop :=
  NoDup (key_of <$> keep) /\
  forall k i, indices !! k = Some i <-> (key_of <$> keep) !! i = Some k.

(** *** The response queue *)

Definition ACQUISITION_MODE_KEEP_ALL : Z := 0.
Definition ACQUISITION_MODE_LATEST : Z := 1.
Definition ACQUISITION_MODE_KEEP_COMPLETE : Z := 2.

(** The part of the wrapper that [acquire_data] reads and changes. *)
Record WasatchDeviceWrapper : Type := mkWrapper {
  closing : bool;
  response_queue : list (option Reading)
}.

(** The local variables of [get_final_item]. *)
Record final_item_state : Type := mkFinal {
  reading : option Reading;
  dequeue_count : nat;
  last_averaged : option Reading
}.

(** The [while True] loop of [get_final_item]; returns the locals and what
    is left on the queue. *)
Fixpoint get_final_loop (keep_averaged : bool) (st : final_item_state)
         (q : list (option Reading)) : final_item_state * list (option Reading) :=
  match q with
  | [] => (st, [])                                   (* Queue.Empty: break *)
  | None :: q' =>                                    (* reading is None: break *)
      (mkFinal None (dequeue_count st) (last_averaged st), q')
  | Some r :: q' =>
      let st := mkFinal (Some r) (S (dequeue_count st))
                  (if keep_averaged && averaged r then Some r
                   else last_averaged st) in
      get_final_loop keep_averaged st q'
  end.

Definition get_final_item (keep_averaged : bool) (w : WasatchDeviceWrapper)
  : option Reading * WasatchDeviceWrapper :=
  let '(st, q) := get_final_loop keep_averaged (mkFinal None 0 None)
                    (response_queue w) in
  (* if we're doing averaging, take the latest of those *)
  let reading := match last_averaged st with
                 | Some r => Some r
                 | None => reading st
                 end in
  (reading, mkWrapper (closing w) q).

Definition acquire_data (mode : option Z) (w : WasatchDeviceWrapper)
  : option Reading * WasatchDeviceWrapper :=
  if closing w then (None, w)
  else match mode with
       | None => get_final_item true w
       | Some m =>
           if m =? ACQUISITION_MODE_KEEP_COMPLETE then get_final_item true w
           else if m =? ACQUISITION_MODE_LATEST then get_final_item false w
           else (* presumably mode == ACQUISITION_MODE_KEEP_ALL *)
             match response_queue w with
             | [] => (None, w)
             | r :: q => (r, mkWrapper (closing w) q)
             end
       end.

(** The reading KEEP_COMPLETE is meant to return for a queue of readings:
    the newest completed average if there is one, the newest reading
    otherwise. *)
Definition newest_complete (rs : list Reading) : option Reading :=
  match last (filter (fun r => averaged r = true) rs) with
  | Some r => Some r
  | None => last rs
  end.

End Wrapper.

(* ===================================================================== *)
(** ** BalanceAcquisition.py                                              *)
(* ===================================================================== *)

Module Balance.

Definition INTEGRATION : Z := 0.
Definition LASER : Z := 1.
Definition LASER_THEN_INTEGRATION : Z := 2.

(** A call of a setter of [device.hardware]. *)
Inductive hardware_call : Type :=
| set_integration_time_ms_call (n : Z)
| set_laser_power_perc_call (n : Z).

(** Modelled from the spec: the device ([WasatchDevice]) is a collaborator
    outside the three modules.  The balancer reads
    [device.settings.state], calls the setters of [device.hardware], which
    apply the new value, and calls [device.acquire_data()].  [applied]
    records the setter calls, oldest first.  The readings that
    [acquire_data] returns are passed to the loop as a list, in the order
    they are returned: whatever the backend does with the settings, it
    returns some such sequence. *)
Record Device : Type := mkDevice {
  integration_time_ms : Z;
  laser_power : Z;
  applied : list hardware_call
}.

Definition set_integration_time_ms (n : Z) (d : Device) : Device :=
  mkDevice n (laser_power d) (applied d ++ [set_integration_time_ms_call n]).

Definition set_laser_power_perc (n : Z) (d : Device) : Device :=
  mkDevice (integration_time_ms d) n (applied d ++ [set_laser_power_perc_call n]).

(** The attributes of a [BalanceAcquisition]. *)
Record BalanceAcquisition : Type := mkBalance {
  mode : Z;
  intensity : Z;
  threshold : Z;
  pixel : option Z;
  device : option Device;
  overshoot_count : Z
}.

Definition with_device (d : Device) (b : BalanceAcquisition) : BalanceAcquisition :=
  mkBalance (mode b) (intensity b) (threshold b) (pixel b) (Some d)
            (overshoot_count b).

Definition with_overshoot_count (n : Z) (b : BalanceAcquisition) : BalanceAcquisition :=
  mkBalance (mode b) (intensity b) (threshold b) (pixel b) (device b) n.

(** [spectrum[i]]: a negative index counts from the end. *)
Definition py_index (l : list Z) (i : Z) : result Z :=
  let n := Z.of_nat (length l) in
  let j := if i <? 0 then i + n else i in
  if (0 <=? j) && (j <? n) then Ok (nth (Z.to_nat j) l 0) else Raise IndexError.

(** [max(spectrum)]: an empty sequence raises [ValueError]. *)
Definition py_max (l : list Z) : result Z :=
  match l with
  | [] => Raise ValueError
  | x :: l' => Ok (fold_left Z.max l' x)
  end.

(** [int(1.0 * a * b / c)]: a float division truncated towards zero.  The
    product and the quotient are exact as long as the product stays below
    2^53 in magnitude, which integration times, laser powers and
    intensities do. *)
Definition float_scale (a b c : Z) : result Z :=
  if c =? 0 then Raise ZeroDivisionError else Ok (Z.quot (a * b) c).

(** What an adjust function returns: its Boolean and the balancer with its
    counter and its device updated. *)
Definition adjust_func : Type := BalanceAcquisition -> Z -> result (bool * BalanceAcquisition).

Definition adjust_integration : adjust_func := fun self peak =>
  match device self with
  | None => Raise AttributeError
  | Some state =>
      if peak >? intensity self then
        let n := integration_time_ms state / 2 in
        let self := with_overshoot_count (overshoot_count self + 1) self in
        if overshoot_count self >? 5 then
          Ok (false, self)                       (* too many overshoots *)
        else
          let n := Z.max 10 (Z.min 5000 n) in
          Ok (true, with_device (set_integration_time_ms n state) self)
      else
        n ← float_scale (integration_time_ms state) (intensity self) peak;
        let n := Z.max 10 (Z.min 5000 n) in
        Ok (true, with_device (set_integration_time_ms n state) self)
  end.

Definition adjust_laser : adjust_func := fun self peak =>
  match device self with
  | None => Raise AttributeError
  | Some state =>
      if peak >? intensity self then
        let n := laser_power state / 2 in
        let self := with_overshoot_count (overshoot_count self + 1) self in
        if overshoot_count self >? 5 then
          Ok (false, self)
        else
          let n := Z.max 1 (Z.min 100 n) in
          Ok (true, with_device (set_laser_power_perc n state) self)
      else
        n ← float_scale (laser_power state) (intensity self) peak;
        let n := Z.max 1 (Z.min 100 n) in
        Ok (true, with_device (set_laser_power_perc n state) self)
  end.

(** How a pass ends on a given sequence of readings: it returns ([None]
    when there is no device), it raises, or it has consumed every reading
    and is waiting in [acquire_data] for the next one. *)
Inductive outcome : Type :=
| Returned (r : option bool)
| Raised (e : exn)
| Waiting.

(** The peak of a reading's spectrum. *)
Definition peak_of (self : BalanceAcquisition) (spectrum : list Z) : result Z :=
  match pixel self with
  | Some i => py_index spectrum i
  | None => py_max spectrum
  end.

(** The [while True] loop of [balance_pass] over the readings that
    [acquire_data] returns; yields the outcome, the balancer and the
    readings not consumed. *)
Fixpoint balance_loop (adjust : adjust_func) (self : BalanceAcquisition)
         (readings : list (option Reading))
  : outcome * BalanceAcquisition * list (option Reading) :=
  match readings with
  | [] => (Waiting, self, [])
  | reading :: rest =>
      match reading with
      | None => (Returned (Some false), self, rest)
      | Some r =>
          match spectrum r with
          | None => (Returned (Some false), self, rest)
          | Some spectrum =>
              match peak_of self spectrum with
              | Raise e => (Raised e, self, rest)
              | Ok peak =>
                  let delta := intensity self - peak in
                  (* exit case *)
                  if Z.abs delta <=? threshold self then
                    (Returned (Some true), self, rest)
                  else
                    (* adjust *)
                    match adjust self peak with
                    | Raise e => (Raised e, self, rest)
                    | Ok (false, self) => (Returned (Some false), self, rest)
                    | Ok (true, self) => balance_loop adjust self rest
                    end
              end
          end
      end
  end.

Definition balance_pass (adjust : adjust_func) (self : BalanceAcquisition)
           (readings : list (option Reading))
  : outcome * BalanceAcquisition * list (option Reading) :=
  match device self with
  | None => (Returned None, self, readings)            (* missing device *)
  | Some _ => balance_loop adjust (with_overshoot_count 0 self) readings
  end.

Definition balance (self : BalanceAcquisition) (readings : list (option Reading))
  : outcome * BalanceAcquisition * list (option Reading) :=
  if mode self =? INTEGRATION then balance_pass adjust_integration self readings
  else if mode self =? LASER then balance_pass adjust_laser self readings
  else
    match balance_pass adjust_laser self readings with
    | (Returned (Some true), self, rest) => balance_pass adjust_integration self rest
    | (Returned _, self, rest) => (Returned (Some false), self, rest)
    | other => other
    end.

(** The peak of a reading that has one. *)
Definition reading_peak (self : BalanceAcquisition) (reading : option Reading) : option Z :=
  match reading with
  | Some r => match spectrum r with
              | Some sp => match peak_of self sp with
                           | Ok p => Some p
                           | Raise _ => None
                           end
              | None => None
              end
  | None => None
  end.

(** An iteration that overshoots: its peak exceeds the target by more than
    the threshold. *)
Definition overshoots (self : BalanceAcquisition) (reading : option Reading) : bool :=
  match reading_peak self reading with
  | Some p => (p >? intensity self) && (threshold self <? Z.abs (intensity self - p))
  | None => false
  end.

(** An iteration that undershoots: its peak is below the target by more
    than the threshold, and not zero (a zero peak divides by zero). *)
Definition undershoots (self : BalanceAcquisition) (reading : option Reading) : bool :=
  match reading_peak self reading with
  | Some p => (p <=? intensity self) && (threshold self <? Z.abs (intensity self - p))
              && negb (p =? 0)
  | None => false
  end.

(** An iteration that reaches the adjustment and comes back from it. *)
Definition adjusts (self : BalanceAcquisition) (reading : option Reading) : Prop :=
  overshoots self reading || undershoots self reading = true.

(** The overshoots among the readings. *)
Fixpoint overshoot_total (self : BalanceAcquisition)
         (readings : list (option Reading)) : Z :=
  match readings with
  | [] => 0
  | r :: readings' =>
      (if overshoots self r then 1 else 0) + overshoot_total self readings'
  end.

(** The number of setter calls made on the device so far. *)
Definition applied_total (self : BalanceAcquisition) : nat :=
  match device self with
  | Some d => length (applied d)
  | None => 0
  end.

(** What an adjustment leaves alone. *)
Definition same_target (self self' : BalanceAcquisition) : Prop :=
  intensity self' = intensity self /\ threshold self' = threshold self
  /\ pixel self' = pixel self.

(** The two adjust functions a pass is run with. *)
Definition is_adjust (adjust : adjust_func) : Prop :=
  adjust = adjust_integration \/ adjust = adjust_laser.

End Balance.

(* ===================================================================== *)
(** ** EEPROM.py                                                          *)
(* ===================================================================== *)

Module EEPROM.

(** *** Bytes and little-endian integers

    A page is an [array.array('B')]: a sequence of integers 0..255.  The
    struct formats carry no byte-order prefix, so they use the host's
    order; the hosts of the driver are little-endian. *)

Definition Z_of_byte (b : byte) : Z := Z.of_N (Byte.to_N b).

Definition byte_of_Z (z : Z) : byte :=
  match Byte.of_N (Z.to_N (z mod 256)) with
  | Some b => b
  | None => x00
  end.

Fixpoint le_decode (bs : list byte) : Z :=
  match bs with
  | [] => 0
  | b :: bs' => Z_of_byte b + 256 * le_decode bs'
  end.

Fixpoint le_encode (n : nat) (z : Z) : list byte :=
  match n with
  | O => []
  | S n' => byte_of_Z z :: le_encode n' (z / 256)
  end.

(** [buf[start:stop]] for [0 <= start <= stop]. *)
Definition slice {A} (buf : list A) (start stop : nat) : list A :=
  take (stop - start) (drop start buf).

(** *** Python values

    What the attributes of an [EEPROM] hold.  A [str] of Python 2 is a
    sequence of 8-bit characters, as Rocq's [string] is.

    A float is a C double in Python.  Every float that the codec reads is
    the exact widening of a binary32 number, and narrowing it again gives
    that binary32 number back; so a float is represented here by its
    binary32 bit pattern, all NaNs being one value.  A double that is not
    a binary32 number (the [1.9] of the constructor, a coefficient typed
    in by a user) is rounded by [struct.pack]; such doubles are outside
    this representation. *)

Record float32 : Type := F32 { f32_bits : Z }.

Definition f32_nan : float32 := F32 0x7FC00000.

Definition f32_exponent (b : Z) : Z := (b / 2 ^ 23) mod 256.
Definition f32_fraction (b : Z) : Z := b mod 2 ^ 23.
Definition f32_negative (b : Z) : bool := Z.testbit b 31.

Definition f32_is_nan (b : Z) : bool :=
  (f32_exponent b =? 255) && negb (f32_fraction b =? 0).

(** The float that four bytes denote. *)
Definition f32_of_bits (b : Z) : float32 :=
  if f32_is_nan b then f32_nan else F32 b.

Inductive value : Type :=
| VNone
| VBool (b : bool)
| VInt (z : Z)
| VFloat (x : float32)
| VStr (s : string).

(** *** Numbers and the ordering of Python 2

    A number is NaN, an infinity or [m * 2^e]. *)
Inductive num : Type :=
| NNaN
| NInf (negative : bool)
| NFin (m e : Z).

Definition num_of_f32 (x : float32) : num :=
  let b := f32_bits x in
  let sign := if f32_negative b then -1 else 1 in
  if f32_exponent b =? 255 then
    if f32_fraction b =? 0 then NInf (f32_negative b) else NNaN
  else if f32_exponent b =? 0 then NFin (sign * f32_fraction b) (-149)
  else NFin (sign * (f32_fraction b + 2 ^ 23)) (f32_exponent b - 150).

Definition num_of_value (v : value) : option num :=
  match v with
  | VBool b => Some (NFin (if b then 1 else 0) 0)
  | VInt z => Some (NFin z 0)
  | VFloat x => Some (num_of_f32 x)
  | VNone | VStr _ => None
  end.

Definition num_compare (a b : num) : option comparison :=
  match a, b with
  | NNaN, _ | _, NNaN => None
  | NInf na, NInf nb =>
      Some (if eqb na nb then Eq else if na then Lt else Gt)
  | NInf na, NFin _ _ => Some (if na then Lt else Gt)
  | NFin _ _, NInf nb => Some (if nb then Gt else Lt)
  | NFin m1 e1, NFin m2 e2 =>
      let k := Z.min e1 e2 in
      Some (m1 * 2 ^ (e1 - k) ?= m2 * 2 ^ (e2 - k))
  end.

(** Python 2 orders values of different kinds: [None] is below every
    number, and every number is below every string.  A comparison with
    NaN has no outcome, so that every [<], [<=], [>], [>=] on it is
    false. *)
Definition py_compare (a b : value) : option comparison :=
  match a, b with
  | VNone, VNone => Some Eq
  | VNone, _ => Some Lt
  | _, VNone => Some Gt
  | VStr x, VStr y => Some (String.compare x y)
  | VStr _, _ => Some Gt
  | _, VStr _ => Some Lt
  | _, _ =>
      match num_of_value a, num_of_value b with
      | Some x, Some y => num_compare x y
      | _, _ => None
      end
  end.

Definition py_lt (a b : value) : bool :=
  match py_compare a b with Some Lt => true | _ => false end.
Definition py_le (a b : value) : bool :=
  match py_compare a b with Some Lt | Some Eq => true | _ => false end.
Definition py_gt (a b : value) : bool := py_lt b a.
Definition py_ge (a b : value) : bool := py_le b a.
Definition py_ne (a b : value) : bool :=
  match py_compare a b with Some Eq => false | _ => true end.

Definition py_max (a b : value) : value := if py_gt b a then b else a.
Definition py_min (a b : value) : value := if py_lt b a then b else a.

(** [a - 1] *)
Definition py_pred (a : value) : result value :=
  match a with
  | VInt z => Ok (VInt (z - 1))
  | VBool b => Ok (VInt ((if b then 1 else 0) - 1))
  | _ => Raise TypeError
  end.

(** [int(x)] of a number: truncation towards zero. *)
Definition num_trunc (n : num) : result Z :=
  match n with
  | NNaN => Raise ValueError
  | NInf _ => Raise OverflowError
  | NFin m e => Ok (if 0 <=? e then m * 2 ^ e else Z.quot m (2 ^ (- e)))
  end.

(** [int(round(x, 0))]: Python 2 rounds halves away from zero. *)
Definition py_int_round (v : value) : result value :=
  match v with
  | VInt z => Ok (VInt z)
  | VBool b => Ok (VInt (if b then 1 else 0))
  | VFloat x =>
      match num_of_f32 x with
      | NNaN => Raise ValueError
      | NInf _ => Raise OverflowError
      | NFin m e =>
          Ok (VInt (if 0 <=? e then m * 2 ^ e
                    else Z.sgn m * ((Z.abs m + 2 ^ (- e - 1)) / 2 ^ (- e))))
      end
  | VNone | VStr _ => Raise TypeError
  end.

(** [m] rounded to [p] significant bits, ties to even ([0 < m]). *)
Definition round_significant (p m : Z) : Z :=
  let e := Z.log2 m in
  if e <? p then m
  else
    let k := e - p + 1 in
    let q := m / 2 ^ k in
    let r := m mod 2 ^ k in
    let q := if (r >? 2 ^ (k - 1)) || ((r =? 2 ^ (k - 1)) && Z.odd q)
             then q + 1 else q in
    q * 2 ^ k.

(** [float(z)] narrowed to binary32: rounded to a double, then to a
    binary32 number. *)
Definition f32_of_Z (z : Z) : result float32 :=
  if z =? 0 then Ok (F32 0)
  else
    let m := round_significant 24 (round_significant 53 (Z.abs z)) in
    let e := Z.log2 m in
    if e >? 127 then Raise OverflowError
    else
      let significand := if e <? 23 then m * 2 ^ (23 - e) else m / 2 ^ (e - 23) in
      Ok (F32 ((if z <? 0 then 2 ^ 31 else 0)
               + (e + 127) * 2 ^ 23 + (significand - 2 ^ 23))).

(** *** struct *)

(** The format characters the codec uses ([fmt_bool] is ["?"]). *)
Inductive data_type : Type :=
| fmt_s | fmt_B | fmt_bool | fmt_h | fmt_H | fmt_I | fmt_f.

Definition calcsize (t : data_type) : nat :=
  match t with
  | fmt_s | fmt_B | fmt_bool => 1
  | fmt_h | fmt_H => 2
  | fmt_I | fmt_f => 4
  end.

Definition string_of_bytes (bs : list byte) : string :=
  string_of_list_ascii (map ascii_of_byte bs).

Definition bytes_of_string (s : string) : list byte :=
  map byte_of_ascii (list_ascii_of_string s).

(** [struct.unpack(data_type, bytes)[0]] *)
Definition struct_unpack (t : data_type) (bs : list byte) : result value :=
  if negb (length bs =? calcsize t)%nat then Raise StructError
  else
    match t with
    | fmt_s => Ok (VStr (string_of_bytes bs))
    | fmt_B | fmt_H | fmt_I => Ok (VInt (le_decode bs))
    | fmt_bool => Ok (VBool (negb (le_decode bs =? 0)))
    | fmt_h =>
        let u := le_decode bs in
        Ok (VInt (if u <? 2 ^ 15 then u else u - 2 ^ 16))
    | fmt_f => Ok (VFloat (f32_of_bits (le_decode bs)))
    end.

(** The integer that an integer format packs: an [int] (a [bool] is one);
    Python 2.7 still converts a float, with a deprecation warning. *)
Definition struct_int (v : value) : result Z :=
  match v with
  | VInt z => Ok z
  | VBool b => Ok (if b then 1 else 0)
  | VFloat x =>
      match num_trunc (num_of_f32 x) with
      | Ok z => Ok z
      | Raise _ => Raise StructError
      end
  | VNone | VStr _ => Raise StructError
  end.

Definition struct_ranged (lo hi : Z) (n : nat) (v : value) : result (list byte) :=
  z ← struct_int v;
  if (lo <=? z) && (z <=? hi) then Ok (le_encode n z) else Raise StructError.

Definition py_truth (v : value) : bool :=
  match v with
  | VNone => false
  | VBool b => b
  | VInt z => negb (z =? 0)
  | VFloat x => match num_of_f32 x with NFin m _ => negb (m =? 0) | _ => true end
  | VStr s => negb (String.length s =? 0)%nat
  end.

(** The bytes that [struct.pack(data_type, value)] produces. *)
Definition struct_pack (t : data_type) (v : value) : result (list byte) :=
  match t with
  | fmt_s =>
      match v with
      | VStr s => Ok (take 1 (bytes_of_string s ++ [x00]))
      | _ => Raise StructError
      end
  | fmt_B => struct_ranged 0 255 1 v
  | fmt_bool => Ok [if py_truth v then x01 else x00]
  | fmt_h => struct_ranged (- 2 ^ 15) (2 ^ 15 - 1) 2 v
  | fmt_H => struct_ranged 0 (2 ^ 16 - 1) 2 v
  | fmt_I => struct_ranged 0 (2 ^ 32 - 1) 4 v
  | fmt_f =>
      match v with
      | VFloat x => Ok (le_encode 4 (f32_bits x))
      | VInt z => x ← f32_of_Z z; Ok (le_encode 4 (f32_bits x))
      | VBool b => x ← f32_of_Z (if b then 1 else 0); Ok (le_encode 4 (f32_bits x))
      | VNone | VStr _ => Raise StructError
      end
  end.

(** *** The record *)

(** A page as [parse] receives it: [None] when the read of the page
    failed. *)
Abbreviation page := (option (list byte)) (only parsing).

(** The attributes of an [EEPROM] object.  [bad_pixels] holds pixel
    indices, or [None] for a slot that could not be read. *)
Record EEPROM : Type := mkEEPROM {
  format : value;
  model : value;
  serial_number : value;
  baud_rate : value;
  has_cooling : value;
  has_battery : value;
  has_laser : value;
  excitation_nm : value;
  excitation_nm_float : value;
  slit_size_um : value;
  startup_integration_time_ms : value;
  startup_temp_degC : value;
  startup_triggering_scheme : value;
  detector_gain : value;
  detector_offset : value;
  detector_gain_odd : value;
  detector_offset_odd : value;
  wavelength_coeffs : list value;
  degC_to_dac_coeffs : list value;
  adc_to_degC_coeffs : list value;
  max_temp_degC : value;
  min_temp_degC : value;
  tec_r298 : value;
  tec_beta : value;
  calibration_date : value;
  calibrated_by : value;
  detector : value;
  active_pixels_horizontal : value;
  active_pixels_vertical : value;
  min_integration_time_ms : value;
  max_integration_time_ms : value;
  actual_horizontal : value;
  actual_vertical : value;
  roi_horizontal_start : value;
  roi_horizontal_end : value;
  roi_vertical_region_1_start : value;
  roi_vertical_region_1_end : value;
  roi_vertical_region_2_start : value;
  roi_vertical_region_2_end : value;
  roi_vertical_region_3_start : value;
  roi_vertical_region_3_end : value;
  linearity_coeffs : list value;
  max_laser_power_mW : value;
  min_laser_power_mW : value;
  laser_power_coeffs : list value;
  user_data : option (list byte);
  user_text : value;
  bad_pixels : list (option Z);
  product_configuration : value;
  buffers : list page;
  write_buffers : list (list byte)
}.

Definition USE_REV_4 : bool := true.

(** An address: (page, offset, length). *)
Definition address : Type := nat * nat * nat.

(** *** Decoding *)

(** The characters of a field up to its first NUL. *)
Fixpoint c_string (bs : list byte) : string :=
  match bs with
  | [] => EmptyString
  | c :: bs' =>
      if Z_of_byte c =? 0 then EmptyString
      else String (ascii_of_byte c) (c_string bs')
  end.

(** [unpack(address, data_type)] on the stored buffers. *)
Definition unpack (buffers : list page) (a : address) (t : data_type)
  : result value :=
  let '(page, start_byte, length) := a in
  let end_byte := (start_byte + length)%nat in
  match buffers !! page with
  | None => Raise IndexError                          (* self.buffers[page] *)
  | Some None => Ok VNone                             (* buf is None *)
  | Some (Some buf) =>
      if (List.length buf <? end_byte)%nat then Ok VNone
      else
        match t with
        | fmt_s => Ok (VStr (c_string (slice buf start_byte end_byte)))
        | _ =>
            match struct_unpack t (slice buf start_byte end_byte) with
            | Ok v => Ok v
            | Raise _ => Ok (VInt 0)                  (* except: log.error *)
            end
        end
  end.

(** make a printable ASCII string out of possibly-binary data *)
Fixpoint printable (buf : list byte) : string :=
  match buf with
  | [] => EmptyString
  | c :: buf' =>
      if (31 <? Z_of_byte c) && (Z_of_byte c <? 127)
      then String (ascii_of_byte c) (printable buf')
      else if Z_of_byte c =? 0 then EmptyString
      else String "." (printable buf')
  end.

(** [x] put into an ascending list without duplicates. *)
Fixpoint insert_sorted (x : Z) (l : list Z) : list Z :=
  match l with
  | [] => [x]
  | y :: l' =>
      if x <? y then x :: y :: l'
      else if x =? y then y :: l'
      else y :: insert_sorted x l'
  end.

(** [sorted(set(l))] *)
Definition sorted_set (l : list Z) : list Z := foldr insert_sorted [] l.

(** The bad-pixel list of the 15 slots just read: the set of the values
    that are not -1, sorted.  A slot that could not be read is [None],
    which Python 2 sorts before every number. *)
Definition collect_bad_pixels (slots : list value) : list (option Z) :=
  (if existsb (fun v => match v with VInt _ => false | _ => true end) slots
   then [None] else [])
  ++ (Some <$> sorted_set
        (omap (fun v => match v with
                        | VInt z => if z =? -1 then None else Some z
                        | _ => None
                        end) slots)).

(** [[self.unpack((5, count * 2, 2), "h") for count in range(15)]] *)
Definition unpack_bad_pixel_slots (buffers : list page) : result (list value) :=
  mapM (fun count => unpack buffers (5, count * 2, 2)%nat fmt_h) (seq 0 15).

Definition ge_format (fmt : value) (n : Z) : bool := py_ge fmt (VInt n).

(** [read_eeprom]: every field in the order of the source.  The
    assignments to [self] are gathered in the record built at the end. *)
Definition read_eeprom (self : EEPROM) : result EEPROM :=
  let U := unpack (buffers self) in
  let H4 (fmt : value) := if ge_format fmt 4 then fmt_H else fmt_h in
  fmt ← U (0, 63, 1)%nat fmt_B;
  (* Page 0 *)
  model' ← U (0, 0, 16)%nat fmt_s;
  serial_number' ← U (0, 16, 16)%nat fmt_s;
  baud_rate' ← U (0, 32, 4)%nat fmt_I;
  has_cooling' ← U (0, 36, 1)%nat fmt_bool;
  has_battery' ← U (0, 37, 1)%nat fmt_bool;
  has_laser' ← U (0, 38, 1)%nat fmt_bool;
  excitation_nm' ← U (0, 39, 2)%nat (if ge_format fmt 3 then fmt_H else fmt_h);
  slit_size_um' ← U (0, 41, 2)%nat (H4 fmt);
  startup_integration_time_ms' ←
    (if ge_format fmt 3 then U (0, 43, 2)%nat fmt_H
     else Ok (startup_integration_time_ms self));
  startup_temp_degC' ←
    (if ge_format fmt 3 then U (0, 45, 2)%nat fmt_h
     else Ok (startup_temp_degC self));
  startup_triggering_scheme' ←
    (if ge_format fmt 3 then U (0, 47, 1)%nat fmt_B
     else Ok (startup_triggering_scheme self));
  detector_gain' ←
    (if ge_format fmt 3 then U (0, 48, 4)%nat fmt_f else Ok (detector_gain self));
  detector_offset' ←
    (if ge_format fmt 3 then U (0, 52, 2)%nat fmt_h else Ok (detector_offset self));
  detector_gain_odd' ←
    (if ge_format fmt 3 then U (0, 54, 4)%nat fmt_f
     else Ok (detector_gain_odd self));
  detector_offset_odd' ←
    (if ge_format fmt 3 then U (0, 58, 2)%nat fmt_h
     else Ok (detector_offset_odd self));
  (* Page 1 *)
  wavelength_coeffs_0 ← U (1, 0, 4)%nat fmt_f;
  wavelength_coeffs_1 ← U (1, 4, 4)%nat fmt_f;
  wavelength_coeffs_2 ← U (1, 8, 4)%nat fmt_f;
  wavelength_coeffs_3 ← U (1, 12, 4)%nat fmt_f;
  degC_to_dac_coeffs_0 ← U (1, 16, 4)%nat fmt_f;
  degC_to_dac_coeffs_1 ← U (1, 20, 4)%nat fmt_f;
  degC_to_dac_coeffs_2 ← U (1, 24, 4)%nat fmt_f;
  max_temp_degC' ← U (1, 28, 2)%nat fmt_h;
  min_temp_degC' ← U (1, 30, 2)%nat fmt_h;
  adc_to_degC_coeffs_0 ← U (1, 32, 4)%nat fmt_f;
  adc_to_degC_coeffs_1 ← U (1, 36, 4)%nat fmt_f;
  adc_to_degC_coeffs_2 ← U (1, 40, 4)%nat fmt_f;
  tec_r298' ← U (1, 44, 2)%nat fmt_h;
  tec_beta' ← U (1, 46, 2)%nat fmt_h;
  calibration_date' ← U (1, 48, 12)%nat fmt_s;
  calibrated_by' ← U (1, 60, 3)%nat fmt_s;
  (* Page 2 *)
  detector' ← U (2, 0, 16)%nat fmt_s;
  active_pixels_horizontal' ← U (2, 16, 2)%nat fmt_H;
  active_pixels_vertical' ← U (2, 19, 2)%nat (H4 fmt);
  min_integration_time_ms' ←
    (if py_lt fmt (VInt 5) then U (2, 21, 2)%nat fmt_H
     else Ok (min_integration_time_ms self));
  max_integration_time_ms' ←
    (if py_lt fmt (VInt 5) then U (2, 23, 2)%nat fmt_H
     else Ok (max_integration_time_ms self));
  actual_horizontal' ← U (2, 25, 2)%nat (H4 fmt);
  roi_horizontal_start' ← U (2, 27, 2)%nat (H4 fmt);
  roi_horizontal_end' ← U (2, 29, 2)%nat (H4 fmt);
  roi_vertical_region_1_start' ← U (2, 31, 2)%nat (H4 fmt);
  roi_vertical_region_1_end' ← U (2, 33, 2)%nat (H4 fmt);
  roi_vertical_region_2_start' ← U (2, 35, 2)%nat (H4 fmt);
  roi_vertical_region_2_end' ← U (2, 37, 2)%nat (H4 fmt);
  roi_vertical_region_3_start' ← U (2, 39, 2)%nat (H4 fmt);
  roi_vertical_region_3_end' ← U (2, 41, 2)%nat (H4 fmt);
  linearity_coeffs_0 ← U (2, 43, 4)%nat fmt_f;
  linearity_coeffs_1 ← U (2, 47, 4)%nat fmt_f;
  linearity_coeffs_2 ← U (2, 51, 4)%nat fmt_f;
  linearity_coeffs_3 ← U (2, 55, 4)%nat fmt_f;
  linearity_coeffs_4 ← U (2, 59, 4)%nat fmt_f;
  (* Page 3 *)
  laser_power_coeffs_0 ← U (3, 12, 4)%nat fmt_f;
  laser_power_coeffs_1 ← U (3, 16, 4)%nat fmt_f;
  laser_power_coeffs_2 ← U (3, 20, 4)%nat fmt_f;
  laser_power_coeffs_3 ← U (3, 24, 4)%nat fmt_f;
  max_laser_power_mW' ← U (3, 28, 4)%nat fmt_f;
  min_laser_power_mW' ← U (3, 32, 4)%nat fmt_f;
  excitation_nm_float' ← U (3, 36, 4)%nat fmt_f;
  let excitation_nm_float' :=
    if py_lt fmt (VInt 4) then excitation_nm' else excitation_nm_float' in
  min_integration_time_ms' ←
    (if ge_format fmt 5 then U (3, 40, 4)%nat fmt_I
     else Ok min_integration_time_ms');
  max_integration_time_ms' ←
    (if ge_format fmt 5 then U (3, 44, 4)%nat fmt_I
     else Ok max_integration_time_ms');
  (* Page 4 *)
  user_data' ← match buffers self !! 4%nat with
               | None => Raise IndexError
               | Some None => Raise TypeError         (* None[:63] *)
               | Some (Some buf) => Ok (take 63 buf)
               end;
  (* Page 5 *)
  slots ← unpack_bad_pixel_slots (buffers self);
  product_configuration' ← U (5, 30, 16)%nat fmt_s;
  Ok {| format := fmt;
        model := model';
        serial_number := serial_number';
        baud_rate := baud_rate';
        has_cooling := has_cooling';
        has_battery := has_battery';
        has_laser := has_laser';
        excitation_nm := excitation_nm';
        excitation_nm_float := excitation_nm_float';
        slit_size_um := slit_size_um';
        startup_integration_time_ms := startup_integration_time_ms';
        startup_temp_degC := startup_temp_degC';
        startup_triggering_scheme := startup_triggering_scheme';
        detector_gain := detector_gain';
        detector_offset := detector_offset';
        detector_gain_odd := detector_gain_odd';
        detector_offset_odd := detector_offset_odd';
        wavelength_coeffs :=
          [wavelength_coeffs_0; wavelength_coeffs_1; wavelength_coeffs_2;
           wavelength_coeffs_3];
        degC_to_dac_coeffs :=
          [degC_to_dac_coeffs_0; degC_to_dac_coeffs_1; degC_to_dac_coeffs_2];
        adc_to_degC_coeffs :=
          [adc_to_degC_coeffs_0; adc_to_degC_coeffs_1; adc_to_degC_coeffs_2];
        max_temp_degC := max_temp_degC';
        min_temp_degC := min_temp_degC';
        tec_r298 := tec_r298';
        tec_beta := tec_beta';
        calibration_date := calibration_date';
        calibrated_by := calibrated_by';
        detector := detector';
        active_pixels_horizontal := active_pixels_horizontal';
        active_pixels_vertical := active_pixels_vertical';
        min_integration_time_ms := min_integration_time_ms';
        max_integration_time_ms := max_integration_time_ms';
        actual_horizontal := actual_horizontal';
        actual_vertical := active_pixels_vertical';   (* approximate for now *)
        roi_horizontal_start := roi_horizontal_start';
        roi_horizontal_end := roi_horizontal_end';
        roi_vertical_region_1_start := roi_vertical_region_1_start';
        roi_vertical_region_1_end := roi_vertical_region_1_end';
        roi_vertical_region_2_start := roi_vertical_region_2_start';
        roi_vertical_region_2_end := roi_vertical_region_2_end';
        roi_vertical_region_3_start := roi_vertical_region_3_start';
        roi_vertical_region_3_end := roi_vertical_region_3_end';
        linearity_coeffs :=
          [linearity_coeffs_0; linearity_coeffs_1; linearity_coeffs_2;
           linearity_coeffs_3; linearity_coeffs_4];
        max_laser_power_mW := max_laser_power_mW';
        min_laser_power_mW := min_laser_power_mW';
        laser_power_coeffs :=
          [laser_power_coeffs_0; laser_power_coeffs_1; laser_power_coeffs_2;
           laser_power_coeffs_3];
        user_data := Some user_data';
        user_text := VStr (printable user_data');
        bad_pixels := collect_bad_pixels slots;
        product_configuration := product_configuration';
        buffers := buffers self;
        write_buffers := write_buffers self |}.

Definition with_buffers (bufs : list page) (self : EEPROM) : EEPROM :=
  {| format := format self;
     model := model self;
     serial_number := serial_number self;
     baud_rate := baud_rate self;
     has_cooling := has_cooling self;
     has_battery := has_battery self;
     has_laser := has_laser self;
     excitation_nm := excitation_nm self;
     excitation_nm_float := excitation_nm_float self;
     slit_size_um := slit_size_um self;
     startup_integration_time_ms := startup_integration_time_ms self;
     startup_temp_degC := startup_temp_degC self;
     startup_triggering_scheme := startup_triggering_scheme self;
     detector_gain := detector_gain self;
     detector_offset := detector_offset self;
     detector_gain_odd := detector_gain_odd self;
     detector_offset_odd := detector_offset_odd self;
     wavelength_coeffs := wavelength_coeffs self;
     degC_to_dac_coeffs := degC_to_dac_coeffs self;
     adc_to_degC_coeffs := adc_to_degC_coeffs self;
     max_temp_degC := max_temp_degC self;
     min_temp_degC := min_temp_degC self;
     tec_r298 := tec_r298 self;
     tec_beta := tec_beta self;
     calibration_date := calibration_date self;
     calibrated_by := calibrated_by self;
     detector := detector self;
     active_pixels_horizontal := active_pixels_horizontal self;
     active_pixels_vertical := active_pixels_vertical self;
     min_integration_time_ms := min_integration_time_ms self;
     max_integration_time_ms := max_integration_time_ms self;
     actual_horizontal := actual_horizontal self;
     actual_vertical := actual_vertical self;
     roi_horizontal_start := roi_horizontal_start self;
     roi_horizontal_end := roi_horizontal_end self;
     roi_vertical_region_1_start := roi_vertical_region_1_start self;
     roi_vertical_region_1_end := roi_vertical_region_1_end self;
     roi_vertical_region_2_start := roi_vertical_region_2_start self;
     roi_vertical_region_2_end := roi_vertical_region_2_end self;
     roi_vertical_region_3_start := roi_vertical_region_3_start self;
     roi_vertical_region_3_end := roi_vertical_region_3_end self;
     linearity_coeffs := linearity_coeffs self;
     max_laser_power_mW := max_laser_power_mW self;
     min_laser_power_mW := min_laser_power_mW self;
     laser_power_coeffs := laser_power_coeffs self;
     user_data := user_data self;
     user_text := user_text self;
     bad_pixels := bad_pixels self;
     product_configuration := product_configuration self;
     buffers := bufs;
     write_buffers := write_buffers self |}.

(** [parse(buffers)]: the record after the call. *)
Definition parse (self : EEPROM) (bufs : list page) : result EEPROM :=
  if (List.length bufs <? 6)%nat then
    Ok self                          (* log.error; return *)
  else
    (* store these locally so self.unpack() can access them *)
    read_eeprom (with_buffers bufs self).

(** [get_horizontal_roi]: [Some (start, end)], or [None]. *)
Definition get_horizontal_roi (self : EEPROM) : result (option (value * value)) :=
  let start := roi_horizontal_start self in
  let end_ := roi_horizontal_end self in
  let pixels := active_pixels_horizontal self in
  if py_ge start (VInt 0) && py_lt start pixels
     && py_ge end_ start && py_le end_ pixels
  then
    last_pixel ← py_pred pixels;
    Ok (Some (start, py_max start (py_min end_ last_pixel)))
  else Ok None.

(** *** Encoding *)

(** [bs] stored into [buf] from [start] on. *)
Definition write_at (buf : list byte) (start : nat) (bs : list byte) : list byte :=
  take start buf ++ bs ++ drop (start + List.length bs) buf.

Definition is_unsigned_HI (t : data_type) : bool :=
  match t with
  | fmt_H | fmt_I => true
  | _ => false
  end.

(** [pack(address, data_type, value)]: the write buffers after the call.
    In the string loop the inner test [i < len(value)] always holds, so
    the characters are stored and nothing is padded. *)
Definition pack (write_buffers : list (list byte)) (a : address)
           (t : data_type) (v : value) : result (list (list byte)) :=
  let '(page, start_byte, length) := a in
  let end_byte := (start_byte + length)%nat in
  (* don't try to write negatives to unsigned types *)
  let v := if is_unsigned_HI t && py_lt v (VInt 0) then VInt 0 else v in
  match write_buffers !! page with
  | None => Raise IndexError                    (* self.write_buffers[page] *)
  | Some buf =>
      if (63 <? end_byte)%nat then Raise PackError   (* byte [63] for revision *)
      else
        match t with
        | fmt_s =>
            match v with
            | VStr s =>
                let bs := take length (bytes_of_string s) in
                if negb (List.length bs =? 0)%nat
                   && (List.length buf <? start_byte + List.length bs)%nat
                then Raise IndexError
                else Ok (<[page := write_at buf start_byte bs]> write_buffers)
            | _ => Raise TypeError              (* len(value) *)
            end
        | _ =>
            bs ← struct_pack t v;
            if (List.length buf <? start_byte + List.length bs)%nat
            then Raise StructError
            else Ok (<[page := write_at buf start_byte bs]> write_buffers)
        end
  end.

(** [l[i]] *)
Definition py_getitem (l : list value) (i : nat) : result value :=
  match l !! i with
  | Some v => Ok v
  | None => Raise IndexError
  end.

(** The pending [pack] calls: address, format and the argument, which is
    evaluated when its call is reached. *)
Definition pack_call : Type := address * data_type * result value.

Fixpoint pack_all (write_buffers : list (list byte)) (calls : list pack_call)
  : result (list (list byte)) :=
  match calls with
  | [] => Ok write_buffers
  | (a, t, arg) :: calls' =>
      v ← arg;
      write_buffers ← pack write_buffers a t v;
      pack_all write_buffers calls'
  end.

Definition revs : list (nat * Z) :=
  [(0%nat, 1); (1%nat, 1); (2%nat, 2); (3%nat, 255); (4%nat, 1); (5%nat, 1)].

(** Six blank buffers with the revision numbers in their last bytes. *)
Definition stamped_buffers : list (list byte) :=
  let write_buffers := repeat (repeat x00 64) 6 in
  let write_buffers :=
    foldl (fun wb '(page, rev) => alter (fun buf => <[63%nat := byte_of_Z rev]> buf) page wb)
          write_buffers revs in
  if USE_REV_4
  then alter (fun buf => <[63%nat := byte_of_Z 5]> buf) 0%nat write_buffers
  else write_buffers.

(** The bad pixels to write: the set of the non-negative ones, sorted. *)
Definition bad_pixel_set (bad_pixels : list (option Z)) : list Z :=
  sorted_set (omap (fun i => match i with
                             | Some z => if 0 <=? z then Some z else None
                             | None => None
                             end) bad_pixels).

(** The 15 slots of page 5. *)
Definition bad_pixel_slots (bad_pixels : list (option Z)) : list Z :=
  let sorted := bad_pixel_set bad_pixels in
  map (fun i => match sorted !! i with
                | Some value => value
                | None => -1
                end) (seq 0 15).

Definition bad_pixel_calls (bad_pixels : list (option Z)) : list pack_call :=
  imap (fun i value => ((5, i * 2, 2)%nat, fmt_h, Ok (VInt value)))
       (bad_pixel_slots bad_pixels).

(** The [pack] calls of [generate_write_buffers], in the order of the
    source. *)
Definition field_calls (self : EEPROM) : list pack_call :=
  [ (* Page 0 *)
    ((0,  0, 16)%nat, fmt_s, Ok (model self));
    ((0, 16, 16)%nat, fmt_s, Ok (serial_number self));
    ((0, 32,  4)%nat, fmt_I, Ok (baud_rate self));
    ((0, 36,  1)%nat, fmt_bool, Ok (has_cooling self));
    ((0, 37,  1)%nat, fmt_bool, Ok (has_battery self));
    ((0, 38,  1)%nat, fmt_bool, Ok (has_laser self));
    ((0, 39,  2)%nat, fmt_H, py_int_round (excitation_nm self));
    ((0, 41,  2)%nat, fmt_H, Ok (slit_size_um self));
    ((0, 43,  2)%nat, fmt_H, Ok (startup_integration_time_ms self));
    ((0, 45,  2)%nat, fmt_h, Ok (startup_temp_degC self));
    ((0, 47,  1)%nat, fmt_B, Ok (startup_triggering_scheme self));
    ((0, 48,  4)%nat, fmt_f, Ok (detector_gain self));
    ((0, 52,  2)%nat, fmt_h, Ok (detector_offset self));
    ((0, 54,  4)%nat, fmt_f, Ok (detector_gain_odd self));
    ((0, 58,  2)%nat, fmt_h, Ok (detector_offset_odd self));
    (* Page 1 *)
    ((1,  0,  4)%nat, fmt_f, py_getitem (wavelength_coeffs self) 0);
    ((1,  4,  4)%nat, fmt_f, py_getitem (wavelength_coeffs self) 1);
    ((1,  8,  4)%nat, fmt_f, py_getitem (wavelength_coeffs self) 2);
    ((1, 12,  4)%nat, fmt_f, py_getitem (wavelength_coeffs self) 3);
    ((1, 16,  4)%nat, fmt_f, py_getitem (degC_to_dac_coeffs self) 0);
    ((1, 20,  4)%nat, fmt_f, py_getitem (degC_to_dac_coeffs self) 1);
    ((1, 24,  4)%nat, fmt_f, py_getitem (degC_to_dac_coeffs self) 2);
    ((1, 32,  4)%nat, fmt_f, py_getitem (adc_to_degC_coeffs self) 0);
    ((1, 36,  4)%nat, fmt_f, py_getitem (adc_to_degC_coeffs self) 1);
    ((1, 40,  4)%nat, fmt_f, py_getitem (adc_to_degC_coeffs self) 2);
    ((1, 28,  2)%nat, fmt_h, Ok (max_temp_degC self));
    ((1, 30,  2)%nat, fmt_h, Ok (min_temp_degC self));
    ((1, 44,  2)%nat, fmt_h, Ok (tec_r298 self));
    ((1, 46,  2)%nat, fmt_h, Ok (tec_beta self));
    ((1, 48, 12)%nat, fmt_s, Ok (calibration_date self));
    ((1, 60,  3)%nat, fmt_s, Ok (calibrated_by self));
    (* Page 2 *)
    ((2,  0, 16)%nat, fmt_s, Ok (detector self));
    ((2, 16,  2)%nat, fmt_H, Ok (active_pixels_horizontal self));
    (*        skip 18 *)
    ((2, 19,  2)%nat, fmt_H, Ok (active_pixels_vertical self));
    ((2, 21,  2)%nat, fmt_H, Ok (py_max (VInt 0xffff) (min_integration_time_ms self)));
    ((2, 23,  2)%nat, fmt_H, Ok (py_max (VInt 0xffff) (max_integration_time_ms self)));
    ((2, 25,  2)%nat, fmt_H, Ok (actual_horizontal self));
    ((2, 27,  2)%nat, fmt_H, Ok (roi_horizontal_start self));
    ((2, 29,  2)%nat, fmt_H, Ok (roi_horizontal_end self));
    ((2, 31,  2)%nat, fmt_H, Ok (roi_vertical_region_1_start self));
    ((2, 33,  2)%nat, fmt_H, Ok (roi_vertical_region_1_end self));
    ((2, 35,  2)%nat, fmt_H, Ok (roi_vertical_region_2_start self));
    ((2, 37,  2)%nat, fmt_H, Ok (roi_vertical_region_2_end self));
    ((2, 39,  2)%nat, fmt_H, Ok (roi_vertical_region_3_start self));
    ((2, 41,  2)%nat, fmt_H, Ok (roi_vertical_region_3_end self));
    ((2, 43,  4)%nat, fmt_f, py_getitem (linearity_coeffs self) 0);
    ((2, 47,  4)%nat, fmt_f, py_getitem (linearity_coeffs self) 1);
    ((2, 51,  4)%nat, fmt_f, py_getitem (linearity_coeffs self) 2);
    ((2, 55,  4)%nat, fmt_f, py_getitem (linearity_coeffs self) 3);
    ((2, 59,  4)%nat, fmt_f, py_getitem (linearity_coeffs self) 4);
    (* Page 3 *)
    ((3, 12,  4)%nat, fmt_f, py_getitem (laser_power_coeffs self) 0);
    ((3, 16,  4)%nat, fmt_f, py_getitem (laser_power_coeffs self) 1);
    ((3, 20,  4)%nat, fmt_f, py_getitem (laser_power_coeffs self) 2);
    ((3, 24,  4)%nat, fmt_f, py_getitem (laser_power_coeffs self) 3);
    ((3, 28,  4)%nat, fmt_f, Ok (max_laser_power_mW self));
    ((3, 32,  4)%nat, fmt_f, Ok (min_laser_power_mW self));
    ((3, 36,  4)%nat, fmt_f, Ok (excitation_nm_float self));
    ((3, 40,  4)%nat, fmt_I, Ok (min_integration_time_ms self));
    ((3, 44,  4)%nat, fmt_I, Ok (max_integration_time_ms self));
    (* Page 4 *)
    ((4,  0, 63)%nat, fmt_s, Ok (user_text self)) ].

(** [generate_write_buffers]: the new [self.write_buffers]. *)
Definition generate_write_buffers (self : EEPROM) : result (list (list byte)) :=
  pack_all stamped_buffers
    (field_calls self
     (* Page 5 *)
     ++ bad_pixel_calls (bad_pixels self)
     ++ [((5, 30, 16)%nat, fmt_s, Ok (product_configuration self))]).

(** *** The layout of the fields *)

(** The value that [unpack] gives to a field whose bytes are [bs]. *)
Definition field_value (t : data_type) (bs : list byte) : value :=
  match t with
  | fmt_s => VStr (c_string bs)
  | _ =>
      match struct_unpack t bs with
      | Ok v => v
      | Raise _ => VInt 0
      end
  end.

(** The bytes that [pack] stores for a value, in a field of [length]
    bytes. *)
Definition call_bytes (t : data_type) (length : nat) (v : value)
  : result (list byte) :=
  let v := if is_unsigned_HI t && py_lt v (VInt 0) then VInt 0 else v in
  match t with
  | fmt_s =>
      match v with
      | VStr s => Ok (take length (bytes_of_string s))
      | _ => Raise TypeError
      end
  | _ => struct_pack t v
  end.

(** The bytes of a field in a list of write buffers. *)
Definition region (write_buffers : list (list byte)) (a : address) : list byte :=
  let '(page, start_byte, length) := a in
  match write_buffers !! page with
  | Some buf => slice buf start_byte (start_byte + length)
  | None => []
  end.

(** Six buffers of 64 bytes. *)
Definition pages_ok (write_buffers : list (list byte)) : Prop :=
  List.length write_buffers = 6%nat
  /\ Forall (fun buf => List.length buf = 64%nat) write_buffers.

(** Two fields that share no byte. *)
Definition disjoint (a b : address) : bool :=
  let '(page_a, start_a, length_a) := a in
  let '(page_b, start_b, length_b) := b in
  negb (page_a =? page_b)%nat
  || (start_a + length_a <=? start_b)%nat
  || (start_b + length_b <=? start_a)%nat.

(** A field lies in the first 63 bytes of one of the six pages, and its
    length is the size of its format (a string has any length). *)
Definition field_ok (f : address * data_type) : bool :=
  let '((page, start_byte, length), t) := f in
  (page <? 6)%nat && (start_byte + length <=? 63)%nat
  && match t with
     | fmt_s => true
     | _ => (calcsize t =? length)%nat
     end.

(** A layout: fields that are pairwise disjoint. *)
Fixpoint layout_ok (fields : list (address * data_type)) : bool :=
  match fields with
  | [] => true
  | f :: fields' =>
      field_ok f && forallb (fun g => disjoint (fst f) (fst g)) fields'
      && layout_ok fields'
  end.

(** The bytes a pending call stores. *)
Definition call_stores (call : pack_call) (bs : list byte) : Prop :=
  let '((_, _, length), t, arg) := call in
  exists v, arg = Ok v /\ call_bytes t length v = Ok bs.

(** A field that lies within one of the six pages. *)
Definition readable (a : address) : bool :=
  let '(page, start_byte, length) := a in
  (page <? 6)%nat && (start_byte + length <=? 64)%nat.

(** The set of bad pixels written for a list of pixels: the non-negative
    entries, in ascending order, each once. *)
Definition written_pixels (bp : list Z) : list Z := bad_pixel_set (Some <$> bp).

(** The fields that writing and reading again keeps: all but the format,
    the raw user data and the buffers. *)
Definition reproduced (a b : EEPROM) : Prop :=
  model a = model b
  /\ serial_number a = serial_number b
  /\ baud_rate a = baud_rate b
  /\ has_cooling a = has_cooling b
  /\ has_battery a = has_battery b
  /\ has_laser a = has_laser b
  /\ excitation_nm a = excitation_nm b
  /\ excitation_nm_float a = excitation_nm_float b
  /\ slit_size_um a = slit_size_um b
  /\ startup_integration_time_ms a = startup_integration_time_ms b
  /\ startup_temp_degC a = startup_temp_degC b
  /\ startup_triggering_scheme a = startup_triggering_scheme b
  /\ detector_gain a = detector_gain b
  /\ detector_offset a = detector_offset b
  /\ detector_gain_odd a = detector_gain_odd b
  /\ detector_offset_odd a = detector_offset_odd b
  /\ wavelength_coeffs a = wavelength_coeffs b
  /\ degC_to_dac_coeffs a = degC_to_dac_coeffs b
  /\ adc_to_degC_coeffs a = adc_to_degC_coeffs b
  /\ max_temp_degC a = max_temp_degC b
  /\ min_temp_degC a = min_temp_degC b
  /\ tec_r298 a = tec_r298 b
  /\ tec_beta a = tec_beta b
  /\ calibration_date a = calibration_date b
  /\ calibrated_by a = calibrated_by b
  /\ detector a = detector b
  /\ active_pixels_horizontal a = active_pixels_horizontal b
  /\ active_pixels_vertical a = active_pixels_vertical b
  /\ min_integration_time_ms a = min_integration_time_ms b
  /\ max_integration_time_ms a = max_integration_time_ms b
  /\ actual_horizontal a = actual_horizontal b
  /\ actual_vertical a = actual_vertical b
  /\ roi_horizontal_start a = roi_horizontal_start b
  /\ roi_horizontal_end a = roi_horizontal_end b
  /\ roi_vertical_region_1_start a = roi_vertical_region_1_start b
  /\ roi_vertical_region_1_end a = roi_vertical_region_1_end b
  /\ roi_vertical_region_2_start a = roi_vertical_region_2_start b
  /\ roi_vertical_region_2_end a = roi_vertical_region_2_end b
  /\ roi_vertical_region_3_start a = roi_vertical_region_3_start b
  /\ roi_vertical_region_3_end a = roi_vertical_region_3_end b
  /\ linearity_coeffs a = linearity_coeffs b
  /\ max_laser_power_mW a = max_laser_power_mW b
  /\ min_laser_power_mW a = min_laser_power_mW b
  /\ laser_power_coeffs a = laser_power_coeffs b
  /\ user_text a = user_text b
  /\ bad_pixels a = bad_pixels b
  /\ product_configuration a = product_configuration b.

(** *** Coefficients *)

(** How the scan for the [[0, 1, 0...]] default pattern ends. *)
Inductive default_scan : Type :=
| found_nan            (* return False *)
| not_default          (* all_default = False; break *)
| all_default.         (* the loop ran to its end *)

(** The first loop of [coeffs_look_valid], from index [i] on. *)
Fixpoint scan_default (i : nat) (coeffs : list float) : default_scan :=
  match coeffs with
  | [] => all_default
  | c :: coeffs' =>
      if PrimFloat.is_nan c then found_nan
      else if (i =? 1)%nat then
        if negb (PrimFloat.eqb c 1%float) then not_default
        else scan_default (S i) coeffs'
      else
        if negb (PrimFloat.eqb c 0%float) then not_default
        else scan_default (S i) coeffs'
  end.

(** [all_const] after the inner loop for [const]. *)
Definition all_equal (const : float) (coeffs : list float) : bool :=
  forallb (fun c => PrimFloat.eqb c const) coeffs.

(** [coeffs_look_valid(coeffs, count)]: doubles as Rocq's binary64
    floats.  The name [false] of the source is bound nowhere. *)
Definition coeffs_look_valid (coeffs : option (list float)) (count : option nat)
  : result bool :=
  match coeffs with
  | None => Ok false
  | Some coeffs =>
      if match count with
         | Some n => negb (List.length coeffs =? n)%nat
         | None => false
         end
      then Ok false
      else
        match scan_default 0 coeffs with
        | found_nan => Ok false                  (* always invalid *)
        | all_default => Raise (NameError "false")
        | not_default =>
            (* check for constants (all negative, all zero, etc) *)
            if all_equal (-1)%float coeffs then Ok false
            else if all_equal 0%float coeffs then Ok false
            else Ok true
        end
  end.

End EEPROM.

(* ===================================================================== *)
(** * Part II.  Statements                                                *)
(* ===================================================================== *)

(** ** The command queue: [dedupe] *)

Section dedupe_facts.

Import Wrapper.

Implicit Types (q keep : list command) (c : command)
         (indices : gmap (option string) nat) (k : option string).

Lemma remove_key_absent k keep :
  k ∉ key_of <$> keep -> remove_key k keep = keep.
Proof.
  induction keep as [|c keep IH]; [done|]. rewrite fmap_cons. intros Hk.
  rewrite not_elem_of_cons in Hk. destruct Hk as [Hne Hk].
  unfold remove_key in *. rewrite filter_cons_True by done. by rewrite IH.
Qed.

Lemma delete_tracked keep i k :
  NoDup (key_of <$> keep) -> (key_of <$> keep) !! i = Some k ->
  delete i keep = remove_key k keep.
Proof.
  revert i. induction keep as [|c keep IH]; intros i Hnd Hi; [done|].
  rewrite fmap_cons in Hnd, Hi. apply NoDup_cons in Hnd as [Hc Hnd].
  destruct i as [|i]; cbn [lookup list_lookup] in Hi.
  - injection Hi as Hk. subst k. cbn [delete list_delete]. unfold remove_key.
    rewrite filter_cons_False by (intros H; by apply H).
    symmetry. by apply remove_key_absent.
  - cbn [delete list_delete]. unfold remove_key. rewrite filter_cons_True.
    + f_equal. by apply IH.
    + intros Hk. subst k. apply Hc. by eapply list_elem_of_lookup_2.
Qed.

Lemma dedupe_loop_app st q1 q2 :
  dedupe_loop st (q1 ++ q2) = st' ← dedupe_loop st q1; dedupe_loop st' q2.
Proof.
  revert st. induction q1 as [|c q1 IH]; intros st; [done|].
  cbn. destruct (dedupe_step st c) as [st'|e]; cbn; [apply IH|done].
Qed.

Lemma dedupe_loop_snoc st q c :
  dedupe_loop st (q ++ [c]) = st' ← dedupe_loop st q; dedupe_step st' c.
Proof.
  rewrite dedupe_loop_app. destruct (dedupe_loop st q) as [st'|e]; [|done].
  cbn [mbind result_bind Py.bind dedupe_loop].
  by destruct (dedupe_step st' c).
Qed.

(** With accurate indices a step removes the previous command of the
    setting, wherever it is, and appends the new one. *)
Lemma dedupe_step_accurate keep indices c :
  accurate keep indices ->
  exists indices',
    dedupe_step (keep, indices) c
    = Ok (remove_key (key_of c) keep ++ [c], indices').
Proof.
  intros [Hnd Hacc]. unfold dedupe_step.
  destruct (indices !! key_of c) as [i|] eqn:Hi.
  - apply Hacc in Hi. unfold del_index.
    assert (i < length keep)%nat as Hlt.
    { apply lookup_lt_Some in Hi. by rewrite length_fmap in Hi. }
    apply Nat.ltb_lt in Hlt. rewrite Hlt. cbn.
    rewrite (delete_tracked _ _ _ Hnd Hi). eauto.
  - cbn. rewrite remove_key_absent; [eauto|].
    intros Hin. apply list_elem_of_lookup in Hin as [i Hin].
    apply Hacc in Hin. congruence.
Qed.

(** A new setting keeps the indices accurate. *)
Lemma dedupe_step_new keep indices c :
  accurate keep indices -> key_of c ∉ key_of <$> keep ->
  exists indices',
    dedupe_step (keep, indices) c = Ok (keep ++ [c], indices')
    /\ accurate (keep ++ [c]) indices'.
Proof.
  intros [Hnd Hacc] Hnew. unfold dedupe_step.
  destruct (indices !! key_of c) as [i|] eqn:Hi.
  { apply Hacc in Hi. exfalso. apply Hnew. by eapply list_elem_of_lookup_2. }
  cbn. eexists. split; [reflexivity|]. split.
  - rewrite fmap_app. cbn. apply NoDup_app. split_and!; [done| |apply NoDup_singleton].
    intros k Hk Hk'. apply list_elem_of_singleton in Hk'. by subst.
  - intros k i. rewrite fmap_app, length_app. cbn.
    replace (length keep + 1 - 1)%nat with (length keep) by lia.
    destruct (decide (k = key_of c)) as [->|Hne].
    + rewrite lookup_insert_eq. split.
      * intros [= <-]. rewrite lookup_app_r by (by rewrite length_fmap).
        by rewrite length_fmap, Nat.sub_diag.
      * intros Hl. f_equal. apply lookup_app_Some in Hl as [Hl|[Hge Hl]].
        -- exfalso. apply Hnew. by eapply list_elem_of_lookup_2.
        -- rewrite length_fmap in *. apply lookup_lt_Some in Hl as Hlt. cbn in Hlt. lia.
    + rewrite lookup_insert_ne by done. rewrite Hacc. split.
      * intros Hl. by apply lookup_app_l_Some.
      * intros Hl. apply lookup_app_Some in Hl as [Hl|[Hge Hl]]; [done|].
        apply list_lookup_singleton_Some in Hl as [_ ?]. congruence.
Qed.

(** So does the setting of the newest command kept. *)
Lemma dedupe_step_again keep0 c0 indices c :
  accurate (keep0 ++ [c0]) indices -> key_of c0 = key_of c ->
  exists indices',
    dedupe_step (keep0 ++ [c0], indices) c = Ok (keep0 ++ [c], indices')
    /\ accurate (keep0 ++ [c]) indices'.
Proof.
  intros [Hnd Hacc] Hkey. unfold dedupe_step.
  assert (indices !! key_of c = Some (length keep0)) as Hi.
  { apply Hacc. rewrite fmap_app. cbn. rewrite <- Hkey.
    rewrite lookup_app_r by (by rewrite length_fmap).
    by rewrite length_fmap, Nat.sub_diag. }
  rewrite Hi. unfold del_index.
  replace (length keep0 <? length (keep0 ++ [c0]))%nat with true
    by (symmetry; apply Nat.ltb_lt; rewrite length_app; cbn; lia).
  rewrite delete_middle, app_nil_r.
  cbn [mbind result_bind Py.bind]. rewrite length_app. cbn [length].
  replace (length keep0 + 1 - 1)%nat with (length keep0) by lia.
  eexists. split; [reflexivity|].
  rewrite insert_delete_eq, insert_id by done.
  split.
  - rewrite fmap_app in *. cbn in *. by rewrite <- Hkey.
  - intros k i. rewrite Hacc. rewrite !fmap_app. cbn. by rewrite Hkey.
Qed.

Lemma latest_commands_snoc q c :
  latest_commands (q ++ [c])
  = remove_key (key_of c) (latest_commands q) ++ [c].
Proof.
  induction q as [|a q IH]; [done|].
  cbn [app latest_commands]. rewrite existsb_app. cbn [existsb].
  rewrite orb_false_r. unfold remove_key in *.
  destruct (existsb (same_key a) q) eqn:Hq; cbn [orb]; [done|].
  unfold same_key at 1. case_bool_decide as Hac.
  - rewrite filter_cons_False by (intros H; by apply H). done.
  - rewrite filter_cons_True by done. cbn. by rewrite IH.
Qed.

Lemma elem_of_keys_latest q k :
  k ∈ key_of <$> latest_commands q <-> k ∈ key_of <$> q.
Proof.
  induction q as [|a q IH]; [done|].
  cbn [latest_commands]. destruct (existsb (same_key a) q) eqn:Hq.
  - rewrite fmap_cons, elem_of_cons, IH. split; [tauto|].
    intros [->|?]; [|done].
    apply existsb_exists in Hq as (b & Hb & Hab).
    unfold same_key in Hab. apply bool_decide_eq_true in Hab. rewrite Hab.
    apply list_elem_of_fmap_2. by apply list_elem_of_In.
  - rewrite !fmap_cons, !elem_of_cons, IH. done.
Qed.

Lemma last_latest q : last (latest_commands q) = last q.
Proof.
  induction q as [|a q IH]; [done|].
  cbn [latest_commands]. destruct q as [|b q]; [done|].
  change (last (a :: b :: q)) with (last (b :: q)).
  destruct (existsb (same_key a) (b :: q)); [done|].
  destruct (latest_commands (b :: q)) as [|x l] eqn:Hl.
  - assert (is_Some (last (b :: q))) as [y Hy] by (by apply last_is_Some).
    rewrite <- IH in Hy. done.
  - exact IH.
Qed.

Lemma runs_snoc (ks : list (option string)) k :
  runs (ks ++ [k])
  = if decide (last ks = Some k) then runs ks else runs ks ++ [k].
Proof.
  induction ks as [|a ks IH]; [done|].
  destruct ks as [|b ks].
  - cbn [app runs last]. destruct (decide (a = k)) as [->|Hne].
    + by rewrite bool_decide_eq_true_2, decide_True.
    + rewrite bool_decide_eq_false_2, decide_False by congruence. done.
  - change (last (a :: b :: ks)) with (last (b :: ks)).
    change ((a :: b :: ks) ++ [k]) with (a :: ((b :: ks) ++ [k])).
    change (runs (a :: (b :: ks) ++ [k]))
      with (if bool_decide (a = b) then runs ((b :: ks) ++ [k])
            else a :: runs ((b :: ks) ++ [k])).
    change (runs (a :: b :: ks))
      with (if bool_decide (a = b) then runs (b :: ks) else a :: runs (b :: ks)).
    rewrite IH. case_bool_decide; case_decide; done.
Qed.

Lemma elem_of_runs (ks : list (option string)) k : k ∈ runs ks <-> k ∈ ks.
Proof.
  induction ks as [|a ks IH]; [done|].
  destruct ks as [|b ks]; [done|].
  change (runs (a :: b :: ks))
    with (if bool_decide (a = b) then runs (b :: ks) else a :: runs (b :: ks)).
  case_bool_decide.
  - subst. rewrite IH, !elem_of_cons. tauto.
  - rewrite elem_of_cons, IH. symmetry. apply elem_of_cons.
Qed.

Lemma accurate_empty : accurate [] ∅.
Proof.
  split; [constructor|]. intros k i. by rewrite lookup_empty.
Qed.

(** While the commands of each setting are consecutive, the loop holds
    the latest commands and accurate indices. *)
Lemma dedupe_loop_consecutive q :
  consecutive_repeats q ->
  exists indices,
    dedupe_loop ([], ∅) q = Ok (latest_commands q, indices)
    /\ accurate (latest_commands q) indices.
Proof.
  induction q as [|c q IH] using rev_ind; intros Hq.
  { exists ∅. split; [done|apply accurate_empty]. }
  unfold consecutive_repeats in *. rewrite fmap_app in Hq. cbn in Hq.
  rewrite runs_snoc in Hq. rewrite dedupe_loop_snoc.
  case_decide as Hlast.
  - destruct (IH Hq) as (indices & -> & Hacc).
    cbn [mbind result_bind Py.bind].
    rewrite fmap_last in Hlast.
    destruct (last q) as [c0|] eqn:Hc0; [|done].
    injection Hlast as Hkey.
    rewrite <- last_latest in Hc0. apply last_Some in Hc0 as [keep0 Hkeep].
    rewrite Hkeep in Hacc |- *.
    destruct (dedupe_step_again _ _ _ c Hacc Hkey) as (indices' & Hstep & Hacc').
    destruct (dedupe_step_accurate _ _ c Hacc) as (indices'' & Hstep').
    rewrite Hstep in Hstep'. injection Hstep' as Heq _.
    rewrite Hstep. exists indices'.
    rewrite latest_commands_snoc, Hkeep, <- Heq. done.
  - apply NoDup_app in Hq as (Hnd & Hnew & _).
    destruct (IH Hnd) as (indices & -> & Hacc).
    cbn [mbind result_bind Py.bind].
    assert (key_of c ∉ key_of <$> latest_commands q) as Hc.
    { rewrite elem_of_keys_latest, <- elem_of_runs. intros Hin.
      apply (Hnew _ Hin). apply list_elem_of_singleton. done. }
    destruct (dedupe_step_new _ _ c Hacc Hc) as (indices' & Hstep & Hacc').
    rewrite Hstep. exists indices'.
    rewrite latest_commands_snoc, remove_key_absent by done. done.
Qed.


End dedupe_facts.

(** The queue of the specification: [("a",1), ("b",2), ("a",3)]. *)
Definition queue_a_b_a : list Wrapper.command :=
  [Some (mkControl "a" 1); Some (mkControl "b" 2); Some (mkControl "a" 3)].



(** When a setting comes back after another one has been moved, its index
    is stale and the wrong command is deleted: here ["a"] is lost and ["b"]
    is kept twice. *)
Example dedupe_stale_index :
  Wrapper.dedupe [Some (mkControl "a" 1); Some (mkControl "b" 2);
                  Some (mkControl "a" 3); Some (mkControl "b" 4)]
  = Ok [Some (mkControl "b" 2); Some (mkControl "b" 4)].
Proof. vm_compute. reflexivity. Qed.

(** ** The response queue: [acquire_data] *)

Section acquire_facts.

Import Wrapper.

(** Draining a queue that holds only readings. *)
Lemma get_final_loop_readings keep_averaged (rs : list Reading) st :
  get_final_loop keep_averaged st (Some <$> rs)
  = (mkFinal
       (match last rs with Some r => Some r | None => reading st end)
       (dequeue_count st + length rs)
       (if keep_averaged then
          match last (filter (fun r => averaged r = true) rs) with
          | Some r => Some r
          | None => last_averaged st
          end
        else last_averaged st),
     []).
Proof.
  revert st. induction rs as [|r rs IH]; intros st.
  { destruct st, keep_averaged; cbn; by rewrite Nat.add_0_r. }
  rewrite fmap_cons. cbn [get_final_loop]. rewrite IH.
  cbn [reading dequeue_count last_averaged length].
  rewrite last_cons, filter_cons.
  f_equal. f_equal.
  - by destruct (last rs).
  - lia.
  - destruct keep_averaged; [|done]. cbn [andb].
    destruct (averaged r) eqn:Hr.
    + rewrite decide_True by done. rewrite last_cons.
      by destruct (last (filter _ rs)).
    + rewrite decide_False by done. done.
Qed.

(** C5.  While the wrapper is not closing, [acquire_data] in
    KEEP_COMPLETE mode (the default, mode [None]) drains the whole queue
    of pending readings and returns the most recently enqueued reading
    flagged as a completed average if a drained reading is so flagged,
    and the most recently enqueued reading otherwise. *)
Theorem acquire_data_keep_complete (w : WasatchDeviceWrapper) (rs : list Reading) :
  closing w = false ->
  response_queue w = Some <$> rs ->
  acquire_data None w = (newest_complete rs, mkWrapper false [])
  /\ acquire_data (Some ACQUISITION_MODE_KEEP_COMPLETE) w
     = (newest_complete rs, mkWrapper false []).
Proof.
  intros Hc Hq.
  assert (get_final_item true w = (newest_complete rs, mkWrapper false [])) as H.
  { unfold get_final_item. rewrite Hq, get_final_loop_readings, Hc.
    cbn. unfold newest_complete.
    by destruct (last (filter _ rs)), (last rs). }
  unfold acquire_data. rewrite Hc. cbn. done.
Qed.

End acquire_facts.

Definition partial_reading (n : Z) : Reading := mkReading n false (Some [n]) None.
Definition averaged_reading (n : Z) : Reading := mkReading n true (Some [n]) None.

(** The queues of the specification: [partial, partial, averaged, partial]
    gives the averaged reading, [partial, partial] the last partial one. *)
Lemma acquire_data_keep_complete_witness :
  let w1 := Wrapper.mkWrapper false
              (Some <$> [partial_reading 1; partial_reading 2;
                         averaged_reading 3; partial_reading 4]) in
  let w2 := Wrapper.mkWrapper false
              (Some <$> [partial_reading 1; partial_reading 2]) in
  Wrapper.acquire_data None w1
  = (Some (averaged_reading 3), Wrapper.mkWrapper false [])
  /\ Wrapper.acquire_data None w2
     = (Some (partial_reading 2), Wrapper.mkWrapper false []).
Proof.
  split.
  - exact (proj1 (acquire_data_keep_complete
                    (Wrapper.mkWrapper false _)
                    [partial_reading 1; partial_reading 2;
                     averaged_reading 3; partial_reading 4]
                    eq_refl eq_refl)).
  - exact (proj1 (acquire_data_keep_complete
                    (Wrapper.mkWrapper false _)
                    [partial_reading 1; partial_reading 2]
                    eq_refl eq_refl)).
Defined.

(** The guards of [acquire_data] and of the loop: a closing wrapper returns
    nothing and leaves the queue alone, and a poison pill stops the drain. *)
Example acquire_data_closing :
  Wrapper.acquire_data None (Wrapper.mkWrapper true [Some (partial_reading 1)])
  = (None, Wrapper.mkWrapper true [Some (partial_reading 1)]).
Proof. reflexivity. Qed.

Example acquire_data_poison :
  Wrapper.acquire_data None
    (Wrapper.mkWrapper false [Some (partial_reading 1); None; Some (partial_reading 2)])
  = (None, Wrapper.mkWrapper false [Some (partial_reading 2)]).
Proof. reflexivity. Qed.

(** ** The balancing loop *)

Section balance_facts.

Import Balance.

Implicit Types (self : BalanceAcquisition) (rs : list (option Reading)).

Lemma overshoots_same_target self self' r :
  same_target self self' -> overshoots self' r = overshoots self r.
Proof.
  intros (Hi & Ht & Hp). unfold overshoots, reading_peak, peak_of.
  by rewrite Hi, Ht, Hp.
Qed.

Lemma undershoots_same_target self self' r :
  same_target self self' -> undershoots self' r = undershoots self r.
Proof.
  intros (Hi & Ht & Hp). unfold undershoots, reading_peak, peak_of.
  by rewrite Hi, Ht, Hp.
Qed.

(** An overshoot counts, and the sixth one ends the pass before any
    setter is called. *)
Lemma adjust_overshoot adjust self peak :
  is_adjust adjust -> is_Some (device self) -> intensity self < peak ->
  exists self',
    adjust self peak = Ok (negb (overshoot_count self + 1 >? 5), self')
    /\ same_target self self'
    /\ overshoot_count self' = overshoot_count self + 1
    /\ is_Some (device self')
    /\ applied_total self'
       = if overshoot_count self + 1 >? 5 then applied_total self
         else S (applied_total self).
Proof.
  intros Hadj [d Hd] Hpeak. apply Z.gtb_lt in Hpeak.
  destruct Hadj as [-> | ->]; unfold adjust_integration, adjust_laser;
    rewrite Hd, Hpeak; cbn [overshoot_count with_overshoot_count];
    destruct (overshoot_count self + 1 >? 5) eqn:Hc; cbn [negb];
    eexists; (split; [reflexivity|]);
    unfold same_target, applied_total; cbn; rewrite ?Hd, ?length_app; cbn;
    repeat split; eauto; lia.
Qed.

(** An undershoot with a peak that is not zero scales, and does not
    count. *)
Lemma adjust_undershoot adjust self peak :
  is_adjust adjust -> is_Some (device self) ->
  peak <= intensity self -> peak <> 0 ->
  exists self',
    adjust self peak = Ok (true, self')
    /\ same_target self self'
    /\ overshoot_count self' = overshoot_count self
    /\ is_Some (device self')
    /\ applied_total self' = S (applied_total self).
Proof.
  intros Hadj [d Hd] Hpeak Hnz.
  assert ((peak >? intensity self) = false) as Hgt
    by (rewrite Z.gtb_ltb; apply Z.ltb_ge; lia).
  apply Z.eqb_neq in Hnz.
  destruct Hadj as [-> | ->]; unfold adjust_integration, adjust_laser, float_scale;
    rewrite Hd, Hgt, Hnz; cbn;
    eexists; (split; [reflexivity|]);
    unfold same_target, applied_total; cbn; rewrite ?Hd, ?length_app; cbn;
    repeat split; eauto; lia.
Qed.

Lemma same_target_refl self : same_target self self.
Proof. by unfold same_target. Qed.

Lemma same_target_trans self1 self2 self3 :
  same_target self1 self2 -> same_target self2 self3 -> same_target self1 self3.
Proof. unfold same_target. intros (-> & -> & ->) (-> & -> & ->). done. Qed.

Lemma adjusts_same_target self self' rs :
  same_target self self' -> Forall (adjusts self) rs -> Forall (adjusts self') rs.
Proof.
  intros Hs Hrs. eapply Forall_impl; [exact Hrs|]. intros r. unfold adjusts.
  by rewrite (overshoots_same_target _ _ _ Hs), (undershoots_same_target _ _ _ Hs).
Qed.

Lemma overshoot_total_same_target self self' rs :
  same_target self self' -> overshoot_total self' rs = overshoot_total self rs.
Proof.
  intros Hs. induction rs as [|r rs IH]; [done|].
  cbn. by rewrite IH, (overshoots_same_target _ _ _ Hs).
Qed.

Lemma overshoot_total_nonneg self rs : 0 <= overshoot_total self rs.
Proof. induction rs as [|r rs IH]; cbn; [lia|]. destruct (overshoots self r); lia. Qed.

(** An iteration that adjusts calls the adjust function on its peak. *)
Lemma balance_loop_adjusts adjust self r rest :
  adjusts self r ->
  exists p,
    balance_loop adjust self (r :: rest)
    = match adjust self p with
      | Raise e => (Raised e, self, rest)
      | Ok (false, self') => (Returned (Some false), self', rest)
      | Ok (true, self') => balance_loop adjust self' rest
      end
    /\ (if overshoots self r then intensity self < p
        else p <= intensity self /\ p <> 0).
Proof.
  unfold adjusts, overshoots, undershoots, reading_peak. intros Hr.
  destruct r as [rd|]; [|done]. cbn [balance_loop].
  destruct (spectrum rd) as [sp|]; [|done].
  destruct (peak_of self sp) as [p|e]; [|done].
  exists p.
  assert ((Z.abs (intensity self - p) <=? threshold self) = false) as ->.
  { apply Z.leb_gt.
    destruct (threshold self <? Z.abs (intensity self - p)) eqn:Ht;
      [by apply Z.ltb_lt in Ht|].
    exfalso. destruct (p >? intensity self), (p <=? intensity self); cbn in Hr; done. }
  split; [done|].
  destruct (p >? intensity self) eqn:Hgt.
  - destruct (threshold self <? Z.abs (intensity self - p)); cbn; [lia|].
    cbn in Hr. destruct (p <=? intensity self) eqn:Hle; cbn in Hr; [lia|done].
  - cbn. cbn in Hr. destruct (p <=? intensity self) eqn:Hle; [|done].
    cbn in Hr. apply andb_true_iff in Hr as [_ Hnz].
    apply negb_true_iff, Z.eqb_neq in Hnz. lia.
Qed.

(** Up to five overshoots the loop goes on: it has applied one adjustment
    for every reading and counted the overshoots. *)
Lemma balance_loop_goes_on adjust rs self :
  is_adjust adjust -> is_Some (device self) -> Forall (adjusts self) rs ->
  overshoot_count self + overshoot_total self rs <= 5 ->
  exists self',
    balance_loop adjust self rs = (Waiting, self', [])
    /\ overshoot_count self' = overshoot_count self + overshoot_total self rs
    /\ applied_total self' = (applied_total self + length rs)%nat.
Proof.
  intros Hadj. revert self.
  induction rs as [|r rs IH]; intros self Hdev Hrs Hcount.
  { exists self. cbn. split_and!; [done|lia|lia]. }
  apply Forall_cons in Hrs as [Hr Hrs].
  destruct (balance_loop_adjusts adjust self r rs Hr) as (p & -> & Hp).
  pose proof (overshoot_total_nonneg self rs) as Hnn.
  cbn [overshoot_total] in Hcount |- *.
  destruct (overshoots self r).
  - destruct (adjust_overshoot adjust self p Hadj Hdev Hp)
      as (self1 & -> & Hs & Hc & Hd & Ha).
    replace (overshoot_count self + 1 >? 5) with false in *
      by (symmetry; rewrite Z.gtb_ltb; apply Z.ltb_ge; lia).
    cbn [negb].
    destruct (IH self1 Hd (adjusts_same_target _ _ _ Hs Hrs)) as (self' & -> & Hc' & Ha').
    { rewrite (overshoot_total_same_target _ _ _ Hs). lia. }
    exists self'. rewrite (overshoot_total_same_target _ _ _ Hs) in Hc'.
    cbn [length]. split_and!; [done|lia|lia].
  - destruct Hp as [Hle Hnz].
    destruct (adjust_undershoot adjust self p Hadj Hdev Hle Hnz)
      as (self1 & -> & Hs & Hc & Hd & Ha).
    destruct (IH self1 Hd (adjusts_same_target _ _ _ Hs Hrs)) as (self' & -> & Hc' & Ha').
    { rewrite (overshoot_total_same_target _ _ _ Hs). lia. }
    exists self'. rewrite (overshoot_total_same_target _ _ _ Hs) in Hc'.
    cbn [length]. split_and!; [done|lia|lia].
Qed.

(** The sixth overshoot ends the loop: it is counted, and no adjustment is
    applied for it. *)
Lemma balance_loop_sixth adjust pre self r rest :
  is_adjust adjust -> is_Some (device self) -> Forall (adjusts self) pre ->
  overshoot_count self + overshoot_total self pre = 5 ->
  overshoots self r = true ->
  exists self',
    balance_loop adjust self (pre ++ r :: rest) = (Returned (Some false), self', rest)
    /\ overshoot_count self' = 6
    /\ applied_total self' = (applied_total self + length pre)%nat.
Proof.
  intros Hadj. revert self.
  induction pre as [|x pre IH]; intros self Hdev Hpre Hcount Hr.
  - cbn [app]. cbn in Hcount.
    assert (adjusts self r) as Hr' by (unfold adjusts; by rewrite Hr).
    destruct (balance_loop_adjusts adjust self r rest Hr') as (p & -> & Hp).
    rewrite Hr in Hp.
    destruct (adjust_overshoot adjust self p Hadj Hdev Hp)
      as (self1 & -> & Hs & Hc & Hd & Ha).
    replace (overshoot_count self + 1 >? 5) with true in *
      by (symmetry; apply Z.gtb_lt; lia).
    cbn [negb]. exists self1. cbn [length]. split_and!; [done|lia|lia].
  - apply Forall_cons in Hpre as [Hx Hpre]. cbn [app].
    destruct (balance_loop_adjusts adjust self x (pre ++ r :: rest) Hx) as (p & -> & Hp).
    pose proof (overshoot_total_nonneg self pre) as Hnn.
    cbn [overshoot_total] in Hcount.
    destruct (overshoots self x).
    + destruct (adjust_overshoot adjust self p Hadj Hdev Hp)
        as (self1 & -> & Hs & Hc & Hd & Ha).
      replace (overshoot_count self + 1 >? 5) with false in *
        by (symmetry; rewrite Z.gtb_ltb; apply Z.ltb_ge; lia).
      cbn [negb].
      destruct (IH self1 Hd (adjusts_same_target _ _ _ Hs Hpre)) as (self' & -> & Hc' & Ha').
      { rewrite (overshoot_total_same_target _ _ _ Hs). lia. }
      { by rewrite (overshoots_same_target _ _ _ Hs). }
      exists self'. cbn [length]. split_and!; [done|lia|lia].
    + destruct Hp as [Hle Hnz].
      destruct (adjust_undershoot adjust self p Hadj Hdev Hle Hnz)
        as (self1 & -> & Hs & Hc & Hd & Ha).
      destruct (IH self1 Hd (adjusts_same_target _ _ _ Hs Hpre)) as (self' & -> & Hc' & Ha').
      { rewrite (overshoot_total_same_target _ _ _ Hs). lia. }
      { by rewrite (overshoots_same_target _ _ _ Hs). }
      exists self'. cbn [length]. split_and!; [done|lia|lia].
Qed.

(** C6 (amended).  In a balance pass, every iteration whose peak exceeds
    the target by more than the threshold increments the overshoot
    counter, and no other iteration does: as long as at most five
    readings overshoot, the pass goes on with the counter at their number
    and one adjustment applied per reading.  On the sixth overshoot the
    pass returns failure, with the counter at 6 and no adjustment applied
    for that reading. *)
Theorem balance_pass_overshoot_cutoff adjust self :
  is_adjust adjust -> is_Some (device self) ->
  (forall rs,
      Forall (adjusts self) rs -> overshoot_total self rs <= 5 ->
      exists self',
        balance_pass adjust self rs = (Waiting, self', [])
        /\ overshoot_count self' = overshoot_total self rs
        /\ applied_total self' = (applied_total self + length rs)%nat)
  /\ (forall pre r rest,
        Forall (adjusts self) pre -> overshoot_total self pre = 5 ->
        overshoots self r = true ->
        exists self',
          balance_pass adjust self (pre ++ r :: rest)
          = (Returned (Some false), self', rest)
          /\ overshoot_count self' = 6
          /\ applied_total self' = (applied_total self + length pre)%nat).
Proof.
  intros Hadj Hdev.
  assert (same_target self (with_overshoot_count 0 self)) as Hs
    by (by unfold same_target).
  assert (is_Some (device (with_overshoot_count 0 self))) as Hdev0 by done.
  unfold balance_pass. destruct Hdev as [d Hd]. rewrite Hd. split.
  - intros rs Hrs Hcount.
    destruct (balance_loop_goes_on adjust rs (with_overshoot_count 0 self)
                Hadj Hdev0 (adjusts_same_target _ _ _ Hs Hrs))
      as (self' & Hloop & Hc & Ha).
    { rewrite (overshoot_total_same_target _ _ _ Hs). cbn. lia. }
    rewrite (overshoot_total_same_target _ _ _ Hs) in Hc. cbn in Hc.
    exists self'. split_and!; [done|lia|exact Ha].
  - intros pre r rest Hpre Hcount Hr.
    destruct (balance_loop_sixth adjust pre (with_overshoot_count 0 self) r rest
                Hadj Hdev0 (adjusts_same_target _ _ _ Hs Hpre))
      as (self' & Hloop & Hc & Ha).
    { rewrite (overshoot_total_same_target _ _ _ Hs). cbn. lia. }
    { by rewrite (overshoots_same_target _ _ _ Hs). }
    exists self'. split_and!; [done|done|exact Ha].
Qed.

End balance_facts.

(** A balancer with the defaults of the constructor (target 45000,
    threshold 2500, no pixel) on a device at 100 ms and 50 percent. *)
Definition default_balancer : Balance.BalanceAcquisition :=
  Balance.mkBalance Balance.INTEGRATION 45000 2500 None
    (Some (Balance.mkDevice 100 50 [])) 0.

(** A reading whose spectrum peaks at [peak]. *)
Definition reading_with_peak (peak : Z) : option Reading :=
  Some (mkReading 0 false (Some [0; peak; 1]) None).

(** Six readings at 60000 counts: five halvings are applied, the sixth
    overshoot fails the pass. *)
Lemma balance_pass_overshoot_cutoff_witness :
  Balance.is_adjust Balance.adjust_integration
  /\ is_Some (Balance.device default_balancer)
  /\ exists self',
      Balance.balance_pass Balance.adjust_integration default_balancer
        (replicate 5 (reading_with_peak 60000) ++ reading_with_peak 60000 :: [])
      = (Balance.Returned (Some false), self', [])
      /\ Balance.overshoot_count self' = 6
      /\ Balance.applied_total self' = 5%nat.
Proof.
  assert (Balance.is_adjust Balance.adjust_integration) as Hadj by (by left).
  assert (is_Some (Balance.device default_balancer)) as Hdev by (by eexists).
  split; [exact Hadj|]. split; [exact Hdev|].
  refine (proj2 (balance_pass_overshoot_cutoff _ _ Hadj Hdev)
            (replicate 5 (reading_with_peak 60000)) (reading_with_peak 60000) [] _ _ _).
  - repeat constructor.
  - reflexivity.
  - reflexivity.
Defined.

(** C6 as stated fails: a peak of 46000 exceeds the target 45000, but it is
    within the threshold, so the pass returns success and the counter
    stays at 0. *)
Lemma balance_pass_converged_above_target :
  Balance.peak_of default_balancer [0; 46000; 1] = Ok 46000
  /\ Balance.intensity default_balancer < 46000
  /\ Balance.balance_pass Balance.adjust_integration default_balancer
       [reading_with_peak 46000]
     = (Balance.Returned (Some true), default_balancer, []).
Proof. split_and!; [reflexivity|reflexivity|reflexivity]. Qed.

(** ** The EEPROM: the region of interest *)

Section roi_facts.

Import EEPROM.

Lemma py_compare_int a b : py_compare (VInt a) (VInt b) = Some (a ?= b).
Proof. cbn. by rewrite !Z.mul_1_r. Qed.

Lemma py_lt_int a b : py_lt (VInt a) (VInt b) = (a <? b).
Proof. unfold py_lt. rewrite py_compare_int. unfold Z.ltb. by destruct (a ?= b). Qed.

Lemma py_le_int a b : py_le (VInt a) (VInt b) = (a <=? b).
Proof. unfold py_le. rewrite py_compare_int. unfold Z.leb. by destruct (a ?= b). Qed.

Lemma py_ge_int a b : py_ge (VInt a) (VInt b) = (b <=? a).
Proof. apply py_le_int. Qed.

Lemma py_gt_int a b : py_gt (VInt a) (VInt b) = (b <? a).
Proof. apply py_lt_int. Qed.

Lemma py_max_int a b : py_max (VInt a) (VInt b) = VInt (Z.max a b).
Proof.
  unfold py_max. rewrite py_gt_int. destruct (a <? b) eqn:H; f_equal.
  - apply Z.ltb_lt in H. lia.
  - apply Z.ltb_ge in H. lia.
Qed.

Lemma py_min_int a b : py_min (VInt a) (VInt b) = VInt (Z.min a b).
Proof.
  unfold py_min. rewrite py_lt_int. destruct (b <? a) eqn:H; f_equal.
  - apply Z.ltb_lt in H. lia.
  - apply Z.ltb_ge in H. lia.
Qed.

(** C9.  On a record whose region of interest and pixel count are integers,
    [get_horizontal_roi] returns a pair exactly when
    [0 <= start < pixels] and [start <= end <= pixels]; the pair is
    [(start, end)] with the end clamped to the last pixel, so that
    [start <= end' <= pixels - 1]; otherwise it returns nothing. *)
Theorem get_horizontal_roi_valid self start end_ pixels :
  roi_horizontal_start self = VInt start ->
  roi_horizontal_end self = VInt end_ ->
  active_pixels_horizontal self = VInt pixels ->
  (0 <= start < pixels /\ start <= end_ <= pixels ->
   get_horizontal_roi self
   = Ok (Some (VInt start, VInt (Z.max start (Z.min end_ (pixels - 1)))))
   /\ start <= Z.max start (Z.min end_ (pixels - 1)) <= pixels - 1)
  /\ (~ (0 <= start < pixels /\ start <= end_ <= pixels) ->
      get_horizontal_roi self = Ok None).
Proof.
  intros Hs He Hp. unfold get_horizontal_roi. rewrite Hs, He, Hp.
  rewrite py_ge_int, py_lt_int, py_ge_int, py_le_int.
  split.
  - intros [[H1 H2] [H3 H4]].
    rewrite (proj2 (Z.leb_le _ _) H1), (proj2 (Z.ltb_lt _ _) H2),
      (proj2 (Z.leb_le _ _) H3), (proj2 (Z.leb_le _ _) H4).
    cbn. rewrite py_min_int, py_max_int. split; [done|lia].
  - intros Hn.
    destruct (0 <=? start) eqn:H1; [|done].
    destruct (start <? pixels) eqn:H2; [|done].
    destruct (start <=? end_) eqn:H3; [|done].
    destruct (end_ <=? pixels) eqn:H4; [|done].
    exfalso. apply Hn. lia.
Qed.

End roi_facts.

(** ** The EEPROM: bytes, slices and writes *)

Section byte_facts.

Import EEPROM.

Lemma Z_of_byte_range b : 0 <= Z_of_byte b < 256.
Proof.
  unfold Z_of_byte. pose proof (Byte.to_N_bounded b) as H. lia.
Qed.

Lemma byte_of_Z_of_byte b : byte_of_Z (Z_of_byte b) = b.
Proof.
  unfold byte_of_Z, Z_of_byte. pose proof (Z_of_byte_range b) as H.
  unfold Z_of_byte in H. rewrite Z.mod_small by lia.
  rewrite N2Z.id. by rewrite Byte.of_to_N.
Qed.

Lemma Z_of_byte_of_Z z : Z_of_byte (byte_of_Z z) = z mod 256.
Proof.
  unfold byte_of_Z, Z_of_byte. pose proof (Z.mod_pos_bound z 256 ltac:(lia)) as H.
  destruct (Byte.of_N (Z.to_N (z mod 256))) as [b|] eqn:Hb.
  - apply Byte.to_of_N in Hb. rewrite Hb. lia.
  - apply Byte.of_N_None_iff in Hb. lia.
Qed.

Lemma byte_of_Z_mod z : byte_of_Z (z mod 256) = byte_of_Z z.
Proof. unfold byte_of_Z. by rewrite Z.mod_mod by lia. Qed.

Lemma le_decode_range bs : 0 <= le_decode bs < 256 ^ Z.of_nat (length bs).
Proof.
  induction bs as [|b bs IH]; [cbn; lia|].
  cbn [le_decode length]. rewrite Nat2Z.inj_succ, Z.pow_succ_r by lia.
  pose proof (Z_of_byte_range b). lia.
Qed.

Lemma length_le_encode n z : length (le_encode n z) = n.
Proof. revert z. induction n as [|n IH]; intros z; cbn; [done|]. by rewrite IH. Qed.

Lemma le_encode_decode bs : le_encode (length bs) (le_decode bs) = bs.
Proof.
  induction bs as [|b bs IH]; [done|].
  cbn [le_decode length le_encode]. pose proof (Z_of_byte_range b) as Hb. f_equal.
  - rewrite <- byte_of_Z_mod.
    replace ((Z_of_byte b + 256 * le_decode bs) mod 256) with (Z_of_byte b).
    + apply byte_of_Z_of_byte.
    + apply (Z.mod_unique_pos _ 256 (le_decode bs)); lia.
  - replace ((Z_of_byte b + 256 * le_decode bs) / 256) with (le_decode bs); [done|].
    apply (Z.div_unique_pos _ 256 _ (Z_of_byte b)); lia.
Qed.

Lemma le_decode_encode n z : le_decode (le_encode n z) = z mod 256 ^ Z.of_nat n.
Proof.
  revert z. induction n as [|n IH]; intros z.
  { cbn. by rewrite Z.mod_1_r. }
  cbn [le_encode le_decode]. rewrite IH, Z_of_byte_of_Z.
  rewrite Nat2Z.inj_succ, Z.pow_succ_r by lia.
  rewrite (Z.rem_mul_r z 256) by lia. done.
Qed.

Lemma le_encode_mod n z : le_encode n (z mod 256 ^ Z.of_nat n) = le_encode n z.
Proof.
  pose proof (le_encode_decode (le_encode n z)) as H.
  by rewrite length_le_encode, le_decode_encode in H.
Qed.

End byte_facts.

Section slice_facts.

Import EEPROM.

Context {A : Type}.
Implicit Types (buf bs : list A).

Lemma length_slice buf s e :
  (e <= length buf)%nat -> length (slice buf s e) = (e - s)%nat.
Proof. intros H. unfold slice. rewrite length_take, length_drop. lia. Qed.

Lemma lookup_slice buf s e i :
  slice buf s e !! i = if decide (i < e - s)%nat then buf !! (s + i)%nat else None.
Proof.
  unfold slice. case_decide.
  - rewrite lookup_take_lt by done. by rewrite lookup_drop.
  - by rewrite lookup_take_ge by lia.
Qed.

End slice_facts.

Section write_facts.

Import EEPROM.

Implicit Types (buf bs : list byte).

Lemma length_write_at buf s bs :
  (s + length bs <= length buf)%nat -> length (write_at buf s bs) = length buf.
Proof.
  intros H. unfold write_at. rewrite !length_app, length_take, length_drop. lia.
Qed.

Lemma lookup_write_at buf s bs i :
  (s + length bs <= length buf)%nat ->
  write_at buf s bs !! i
  = if decide (s <= i < s + length bs)%nat then bs !! (i - s)%nat else buf !! i.
Proof.
  intros H. unfold write_at.
  destruct (decide (i < s)%nat) as [Hlt|Hge].
  - rewrite lookup_app_l by (rewrite length_take; lia).
    rewrite lookup_take_lt by done. by rewrite decide_False by lia.
  - rewrite lookup_app_r by (rewrite length_take; lia).
    rewrite length_take. replace (s `min` length buf)%nat with s by lia.
    destruct (decide (i - s < length bs)%nat) as [Hin|Hout].
    + rewrite lookup_app_l by done. by rewrite decide_True by lia.
    + rewrite lookup_app_r by lia. rewrite lookup_drop.
      rewrite decide_False by lia. f_equal. lia.
Qed.

(** Reading back what was written: the bytes, then what the field held
    behind them. *)
Lemma slice_write_at_same buf s bs l :
  (length bs <= l)%nat -> (s + l <= length buf)%nat ->
  slice (write_at buf s bs) s (s + l)
  = bs ++ slice buf (s + length bs) (s + l).
Proof.
  intros Hl Hb. apply list_eq. intros i.
  rewrite lookup_slice.
  destruct (decide (i < length bs)%nat) as [Hi|Hi].
  - rewrite lookup_app_l by done. rewrite decide_True by lia.
    rewrite lookup_write_at by lia. rewrite decide_True by lia. f_equal. lia.
  - rewrite lookup_app_r by lia. rewrite lookup_slice.
    case_decide; case_decide; try lia; [|done].
    rewrite lookup_write_at by lia. rewrite decide_False by lia. f_equal. lia.
Qed.

(** A write leaves the fields it does not overlap alone. *)
Lemma slice_write_at_other buf s bs s' l' :
  (s + length bs <= length buf)%nat ->
  (s' + l' <= s \/ s + length bs <= s')%nat ->
  slice (write_at buf s bs) s' (s' + l') = slice buf s' (s' + l').
Proof.
  intros Hb Hd. apply list_eq. intros i. rewrite !lookup_slice.
  case_decide; [|done].
  rewrite lookup_write_at by done. by rewrite decide_False by lia.
Qed.

End write_facts.

(** ** The EEPROM: what a field holds, stored and read again *)

Section codec_facts.

Import EEPROM.

Implicit Types (x bs : list byte) (t : data_type).

Lemma length_bytes_of_c_string x :
  (length (bytes_of_string (c_string x)) <= length x)%nat.
Proof.
  induction x as [|c x IH]; [done|].
  cbn [c_string]. destruct (Z_of_byte c =? 0); cbn; [lia|].
  unfold bytes_of_string in IH. lia.
Qed.

Lemma c_string_zeros n : c_string (replicate n x00) = EmptyString.
Proof. by destruct n. Qed.

(** A string read from a field, stored and padded with NULs, reads the
    same. *)
Lemma c_string_roundtrip x n :
  c_string (bytes_of_string (c_string x) ++ replicate n x00) = c_string x.
Proof.
  induction x as [|c x IH]; [apply c_string_zeros|].
  cbn [c_string]. destruct (Z_of_byte c =? 0) eqn:Hc; [apply c_string_zeros|].
  unfold bytes_of_string in *. cbn [list_ascii_of_string map app c_string].
  rewrite byte_of_ascii_of_byte, Hc. by rewrite IH.
Qed.

Lemma struct_ranged_decode lo hi x :
  lo <= 0 -> 256 ^ Z.of_nat (length x) - 1 <= hi ->
  struct_ranged lo hi (length x) (VInt (le_decode x)) = Ok x.
Proof.
  intros Hlo Hhi. unfold struct_ranged. cbn.
  pose proof (le_decode_range x) as Hr.
  set (bound := 256 ^ Z.of_nat (length x)) in *. clearbody bound.
  replace (lo <=? le_decode x) with true by (symmetry; apply Z.leb_le; lia).
  replace (le_decode x <=? hi) with true by (symmetry; apply Z.leb_le; lia).
  cbn. by rewrite le_encode_decode.
Qed.

Lemma py_lt_zero_nonneg z : 0 <= z -> py_lt (VInt z) (VInt 0) = false.
Proof.
  intros H. unfold py_lt. cbn. rewrite !Z.mul_1_r.
  destruct (Z.compare_spec z 0); try done. exfalso. lia.
Qed.

(** What a field holds can be stored again, and reads the same from the
    stored bytes padded with NULs. *)
Lemma field_value_int t x :
  match t with fmt_B | fmt_H | fmt_I => True | _ => False end ->
  length x = calcsize t ->
  field_value t x = VInt (le_decode x).
Proof.
  intros Ht Hx. unfold field_value, struct_unpack. rewrite Hx, Nat.eqb_refl.
  by destruct t.
Qed.

Lemma le_encode_signed x :
  length x = 2%nat ->
  le_encode 2 (if le_decode x <? 2 ^ 15 then le_decode x else le_decode x - 2 ^ 16)
  = x.
Proof.
  intros Hx. pose proof (le_decode_range x) as Hr. rewrite Hx in Hr.
  destruct (le_decode x <? 2 ^ 15).
  - rewrite <- Hx. apply le_encode_decode.
  - rewrite <- le_encode_mod.
    replace ((le_decode x - 2 ^ 16) mod 256 ^ Z.of_nat 2) with (le_decode x).
    + rewrite <- Hx. apply le_encode_decode.
    + apply (Z.mod_unique_pos _ _ (-1)); [exact Hr|]. cbn. lia.
Qed.

(** What a field holds can be stored again, and reads the same from the
    stored bytes padded with NULs. *)
Lemma field_roundtrip t l x :
  length x = l -> field_ok ((0, 0, l)%nat, t) = true ->
  exists bs,
    call_bytes t l (field_value t x) = Ok bs
    /\ (length bs <= l)%nat
    /\ field_value t (bs ++ replicate (l - length bs) x00) = field_value t x.
Proof.
  intros Hx Hok. subst l. unfold field_ok in Hok.
  apply andb_true_iff in Hok as [_ Hw].
  pose proof (le_decode_range x) as Hr.
  destruct t; try (apply Nat.eqb_eq in Hw; cbn in Hw; symmetry in Hw).
  - (* s *)
    exists (bytes_of_string (c_string x)).
    pose proof (length_bytes_of_c_string x).
    unfold call_bytes, field_value. cbn [is_unsigned_HI andb].
    rewrite take_ge by lia. split_and!; [done|lia|].
    by rewrite c_string_roundtrip.
  - (* B *)
    exists x. rewrite field_value_int by done.
    unfold call_bytes, struct_pack. cbn [is_unsigned_HI andb].
    rewrite <- Hw at 1. rewrite struct_ranged_decode by (rewrite ?Hw; cbn; lia).
    rewrite Nat.sub_diag, app_nil_r, field_value_int by done. done.
  - (* ? *)
    exists [if negb (le_decode x =? 0) then x01 else x00].
    unfold call_bytes, field_value, struct_unpack, struct_pack.
    rewrite Hw. cbn [calcsize Nat.eqb negb is_unsigned_HI andb py_truth length app].
    split_and!; [done|done|].
    by destruct (le_decode x =? 0).
  - (* h *)
    exists x. unfold call_bytes, field_value, struct_unpack, struct_pack, struct_ranged.
    rewrite Hw. cbn [calcsize Nat.eqb negb is_unsigned_HI andb struct_int mbind result_bind Py.bind].
    rewrite Hw in Hr. change (256 ^ Z.of_nat 2) with 65536 in Hr.
    set (v := if le_decode x <? 2 ^ 15 then le_decode x else le_decode x - 2 ^ 16).
    assert (- 2 ^ 15 <= v <= 2 ^ 15 - 1) as Hv.
    { subst v. destruct (le_decode x <? 2 ^ 15) eqn:Hlt.
      - apply Z.ltb_lt in Hlt. lia.
      - apply Z.ltb_ge in Hlt. lia. }
    replace (- 2 ^ 15 <=? v) with true by (symmetry; apply Z.leb_le; lia).
    replace (v <=? 2 ^ 15 - 1) with true by (symmetry; apply Z.leb_le; lia).
    cbn [andb]. subst v. rewrite le_encode_signed by done.
    cbn [Nat.sub replicate]. rewrite app_nil_r, Hw. done.
  - (* H *)
    exists x. rewrite field_value_int by done.
    unfold call_bytes, struct_pack. cbn [is_unsigned_HI andb].
    rewrite py_lt_zero_nonneg by lia.
    rewrite <- Hw at 1. rewrite struct_ranged_decode by (rewrite ?Hw; cbn; lia).
    rewrite Nat.sub_diag, app_nil_r, field_value_int by done. done.
  - (* I *)
    exists x. rewrite field_value_int by done.
    unfold call_bytes, struct_pack. cbn [is_unsigned_HI andb].
    rewrite py_lt_zero_nonneg by lia.
    rewrite <- Hw at 1. rewrite struct_ranged_decode by (rewrite ?Hw; cbn; lia).
    rewrite Nat.sub_diag, app_nil_r, field_value_int by done. done.
  - (* f *)
    unfold call_bytes, field_value, struct_unpack, struct_pack.
    rewrite Hw. cbn [calcsize Nat.eqb negb is_unsigned_HI andb].
    eexists. split; [reflexivity|]. rewrite length_le_encode.
    split; [lia|]. cbn [Nat.sub replicate]. rewrite app_nil_r.
    rewrite length_le_encode. cbn [Nat.eqb negb]. f_equal.
    rewrite le_decode_encode. rewrite Hw in Hr.
    unfold f32_of_bits at 2 3. destruct (f32_is_nan (le_decode x)) eqn:Hnan.
    + reflexivity.
    + cbn [f32_bits]. rewrite Z.mod_small by exact Hr.
      unfold f32_of_bits. by rewrite Hnan.
Qed.

End codec_facts.

(** ** The EEPROM: the calls of [pack] *)

Section pack_facts.

Import EEPROM.

Implicit Types (wb : list (list byte)) (buf bs : list byte) (t : data_type)
         (a b : address) (v : value).

Lemma length_struct_ranged lo hi n v bs :
  struct_ranged lo hi n v = Ok bs -> length bs = n.
Proof.
  unfold struct_ranged. destruct (struct_int v) as [z|]; [|done].
  cbn [mbind result_bind Py.bind].
  destruct ((lo <=? z) && (z <=? hi)); [|done].
  intros [= <-]. apply length_le_encode.
Qed.

Lemma length_struct_pack t v bs :
  struct_pack t v = Ok bs -> length bs = calcsize t.
Proof.
  destruct t; cbn [struct_pack calcsize];
    try (by apply length_struct_ranged).
  - destruct v; try done. intros [= <-].
    rewrite length_take, length_app. cbn [length]. lia.
  - by intros [= <-].
  - destruct v as [| b | z | x | s]; try done;
      try (destruct (f32_of_Z _); [|done]); cbn; by intros [= <-].
Qed.

Lemma length_call_bytes a t v bs :
  field_ok (a, t) = true ->
  call_bytes t (snd a) v = Ok bs -> (length bs <= snd a)%nat.
Proof.
  destruct a as [[p s] l]. unfold field_ok, call_bytes. cbn [snd].
  intros Hok H. apply andb_true_iff in Hok as [_ Hw].
  destruct t; try (apply Nat.eqb_eq in Hw; apply length_struct_pack in H;
                   rewrite H, Hw; done).
  cbn [is_unsigned_HI andb] in H. destruct v; try done.
  injection H as <-. rewrite length_take. lia.
Qed.

Lemma pack_stores wb p s l t v buf bs :
  wb !! p = Some buf -> length buf = 64%nat -> (s + l <= 63)%nat ->
  call_bytes t l v = Ok bs -> (length bs <= l)%nat ->
  pack wb (p, s, l) t v = Ok (<[p := write_at buf s bs]> wb).
Proof.
  intros Hp Hbuf Hend Hbs Hl. unfold pack, call_bytes in *. rewrite Hp.
  replace (63 <? s + l)%nat with false by (symmetry; apply Nat.ltb_ge; lia).
  destruct t;
    try (rewrite Hbs; cbn [mbind result_bind Py.bind];
         replace (length buf <? s + length bs)%nat with false
           by (symmetry; apply Nat.ltb_ge; lia); done).
  cbn [is_unsigned_HI andb] in *. destruct v; try done.
  injection Hbs as Hbs. rewrite Hbs.
  replace (length buf <? s + length bs)%nat with false
    by (symmetry; apply Nat.ltb_ge; lia).
  by rewrite andb_false_r.
Qed.

Lemma pack_inv wb p s l t v wb1 :
  pack wb (p, s, l) t v = Ok wb1 ->
  exists buf bs,
    wb !! p = Some buf /\ (s + l <= 63)%nat /\ call_bytes t l v = Ok bs
    /\ wb1 = <[p := write_at buf s bs]> wb.
Proof.
  unfold pack, call_bytes. intros H.
  destruct (wb !! p) as [buf|]; [|done].
  destruct (63 <? s + l)%nat eqn:Hend; [done|]. apply Nat.ltb_ge in Hend.
  exists buf.
  destruct t;
    try (match type of H with
         | context [struct_pack ?t ?v] => destruct (struct_pack t v) as [bs|] eqn:Hbs
         end; [|done]; cbn [mbind result_bind Py.bind] in H;
         destruct (length buf <? s + length bs)%nat; [done|];
         injection H as <-; exists bs; done).
  cbn [is_unsigned_HI andb] in *. destruct v; try done.
  match type of H with context [if ?c then _ else _] => destruct c end; [done|].
  injection H as <-. eexists. done.
Qed.

Lemma pages_ok_insert wb p buf buf' :
  pages_ok wb -> wb !! p = Some buf -> length buf' = length buf ->
  pages_ok (<[p := buf']> wb).
Proof.
  intros [Hn Hall] Hp Hl. split; [by rewrite length_insert|].
  apply Forall_insert; [done|].
  rewrite Hl. by eapply (proj1 (Forall_lookup _ _) Hall).
Qed.

Lemma pages_ok_lookup wb p buf :
  pages_ok wb -> wb !! p = Some buf -> length buf = 64%nat.
Proof. intros [_ Hall] Hp. by eapply (proj1 (Forall_lookup _ _) Hall). Qed.

Lemma drop_slice {A} (buf : list A) s e n :
  drop n (slice buf s e) = slice buf (s + n) e.
Proof.
  apply list_eq. intros i. rewrite lookup_drop, !lookup_slice.
  case_decide; case_decide; try lia; [|done]. f_equal. lia.
Qed.

Lemma disjoint_sym a b : disjoint a b = disjoint b a.
Proof.
  destruct a as [[p s] l], b as [[p' s'] l']. unfold disjoint.
  rewrite (Nat.eqb_sym p' p).
  by destruct (p =? p')%nat, (s + l <=? s')%nat, (s' + l' <=? s)%nat.
Qed.

(** What one call does to its own field and to the others. *)
Lemma pack_regions wb a t v wb1 :
  pages_ok wb -> field_ok (a, t) = true -> pack wb a t v = Ok wb1 ->
  pages_ok wb1
  /\ (exists bs, call_bytes t (snd a) v = Ok bs
               /\ region wb1 a = bs ++ drop (length bs) (region wb a))
  /\ (forall b, disjoint a b = true -> region wb1 b = region wb b).
Proof.
  destruct a as [[p s] l]. intros Hwb Hok Hpack.
  destruct (pack_inv _ _ _ _ _ _ _ Hpack) as (buf & bs & Hp & Hend & Hbs & ->).
  pose proof (pages_ok_lookup _ _ _ Hwb Hp) as Hbuf.
  pose proof (length_call_bytes _ _ _ _ Hok Hbs) as Hl. cbn [snd] in *.
  assert (p < length wb)%nat as Hlt by (by eapply lookup_lt_Some).
  split_and!.
  - eapply pages_ok_insert; [done..|]. apply length_write_at. lia.
  - exists bs. split; [done|]. cbn [region].
    rewrite list_lookup_insert_eq by done. rewrite Hp.
    rewrite slice_write_at_same by lia. by rewrite drop_slice.
  - intros [[p' s'] l'] Hd. cbn [region]. unfold disjoint in Hd.
    destruct (decide (p = p')) as [<-|Hne].
    + rewrite list_lookup_insert_eq by done. rewrite Hp.
      rewrite Nat.eqb_refl in Hd. cbn [negb orb] in Hd.
      apply orb_true_iff in Hd as [Hd|Hd]; apply Nat.leb_le in Hd;
        apply slice_write_at_other; lia.
    + by rewrite list_lookup_insert_ne.
Qed.

Lemma pack_all_cons_inv wb call calls wb' :
  pack_all wb (call :: calls) = Ok wb' ->
  exists v wb1,
    snd call = Ok v /\ pack wb (fst (fst call)) (snd (fst call)) v = Ok wb1
    /\ pack_all wb1 calls = Ok wb'.
Proof.
  destruct call as [[a t] arg]. cbn [pack_all fst snd]. intros H.
  destruct arg as [v|]; [|done]. cbn [mbind result_bind Py.bind] in H.
  destruct (pack wb a t v) as [wb1|] eqn:Hpack; [|done].
  by exists v, wb1.
Qed.

(** The calls leave the fields that none of them overlaps alone. *)
Lemma pack_all_frame calls wb wb' b :
  pages_ok wb -> layout_ok (fst <$> calls) = true ->
  pack_all wb calls = Ok wb' ->
  forallb (fun g => disjoint b (fst g)) (fst <$> calls) = true ->
  pages_ok wb' /\ region wb' b = region wb b.
Proof.
  revert wb. induction calls as [|call calls IH]; intros wb Hwb Hlay Hall Hb.
  { injection Hall as <-. done. }
  destruct (pack_all_cons_inv _ _ _ _ Hall) as (v & wb1 & Hv & Hpack & Hrest).
  rewrite fmap_cons in Hlay, Hb. cbn [layout_ok forallb] in Hlay, Hb.
  apply andb_true_iff in Hlay as [Hlay Hlay'].
  apply andb_true_iff in Hlay as [Hok Hdis].
  apply andb_true_iff in Hb as [Hb Hb'].
  destruct call as [[a t] arg]. cbn [fst snd] in *.
  destruct (pack_regions _ _ _ _ _ Hwb Hok Hpack) as (Hwb1 & _ & Hframe).
  destruct (IH wb1 Hwb1 Hlay' Hrest Hb') as [Hwb' ->].
  split; [done|]. apply Hframe. by rewrite disjoint_sym.
Qed.

(** After the calls of a layout, every field holds the bytes of its call,
    and behind them what it held before. *)
Lemma pack_all_regions calls wb wb' :
  pages_ok wb -> layout_ok (fst <$> calls) = true ->
  pack_all wb calls = Ok wb' ->
  pages_ok wb'
  /\ Forall (fun call =>
               exists bs, call_stores call bs
                          /\ region wb' (fst (fst call))
                             = bs ++ drop (length bs) (region wb (fst (fst call))))
            calls.
Proof.
  revert wb. induction calls as [|call calls IH]; intros wb Hwb Hlay Hall.
  { injection Hall as <-. done. }
  destruct (pack_all_cons_inv _ _ _ _ Hall) as (v & wb1 & Hv & Hpack & Hrest).
  rewrite fmap_cons in Hlay. cbn [layout_ok] in Hlay.
  apply andb_true_iff in Hlay as [Hlay Hlay'].
  apply andb_true_iff in Hlay as [Hok Hdis].
  destruct call as [[a t] arg]. cbn [fst snd] in *.
  destruct (pack_regions _ _ _ _ _ Hwb Hok Hpack) as (Hwb1 & (bs & Hbs & Hreg) & Hframe).
  destruct (IH wb1 Hwb1 Hlay' Hrest) as [Hwb' Hfields].
  split; [done|]. apply Forall_cons. split.
  - exists bs. cbn [fst snd]. split.
    + destruct a as [[p s] l]. exists v. done.
    + destruct (pack_all_frame _ _ _ a Hwb1 Hlay' Hrest Hdis) as [_ ->]. done.
  - clear IH Hall Hrest Hlay'. revert Hdis.
    induction Hfields as [|call' calls' Hhead _ IHf]; intros Hdis; [constructor|].
    rewrite fmap_cons in Hdis. cbn [forallb] in Hdis.
    apply andb_true_iff in Hdis as [Hd Hdis].
    constructor; [|by apply IHf].
    destruct Hhead as (bs' & Hst & Hr). exists bs'. split; [done|].
    by rewrite Hr, (Hframe _ Hd).
Qed.

(** The calls of a layout succeed when each of them has bytes to store. *)
Lemma pack_all_succeeds calls wb :
  pages_ok wb -> layout_ok (fst <$> calls) = true ->
  Forall (fun call => exists bs, call_stores call bs) calls ->
  exists wb', pack_all wb calls = Ok wb'.
Proof.
  revert wb. induction calls as [|call calls IH]; intros wb Hwb Hlay Hcalls.
  { by exists wb. }
  apply Forall_cons in Hcalls as [(bs & Hst) Hcalls].
  rewrite fmap_cons in Hlay. cbn [layout_ok] in Hlay.
  apply andb_true_iff in Hlay as [Hlay Hlay'].
  apply andb_true_iff in Hlay as [Hok Hdis].
  destruct call as [[[[p s] l] t] arg]. cbn [fst snd] in *.
  destruct Hst as (v & -> & Hbs).
  pose proof (length_call_bytes _ _ _ _ Hok Hbs) as Hl. cbn [snd] in Hl.
  unfold field_ok in Hok. apply andb_true_iff in Hok as [Hok _].
  apply andb_true_iff in Hok as [Hp Hend].
  apply Nat.ltb_lt in Hp. apply Nat.leb_le in Hend.
  destruct Hwb as [Hn Hbufs].
  destruct (lookup_lt_is_Some_2 wb p) as [buf Hbuf]; [lia|].
  pose proof (pages_ok_lookup _ _ _ (conj Hn Hbufs) Hbuf) as Hlen.
  cbn [pack_all mbind result_bind Py.bind].
  rewrite (pack_stores _ _ _ _ _ _ _ _ Hbuf Hlen Hend Hbs Hl).
  cbn [mbind result_bind Py.bind]. apply IH; [|done|done].
  eapply pages_ok_insert; [done..|]. apply length_write_at. lia.
Qed.

End pack_facts.

(** ** The EEPROM: bad pixels *)

Section sorted_set_facts.

Import EEPROM.

Implicit Types (l : list Z) (x y : Z).

Lemma elem_of_insert_sorted x y l : y ∈ insert_sorted x l <-> y = x \/ y ∈ l.
Proof.
  induction l as [|z l IH]; cbn [insert_sorted].
  - rewrite list_elem_of_singleton, elem_of_nil. tauto.
  - destruct (x <? z); [by rewrite elem_of_cons|].
    destruct (x =? z) eqn:Hxz.
    + apply Z.eqb_eq in Hxz. subst z. rewrite elem_of_cons. tauto.
    + rewrite !elem_of_cons, IH. tauto.
Qed.

Lemma insert_sorted_sorted x l :
  StronglySorted Z.lt l -> StronglySorted Z.lt (insert_sorted x l).
Proof.
  induction 1 as [|z l Hl IH Hz]; cbn [insert_sorted].
  { repeat constructor. }
  destruct (x <? z) eqn:Hlt.
  - apply Z.ltb_lt in Hlt. constructor; [by constructor|].
    constructor; [done|]. eapply Forall_impl; [exact Hz|]. intros; cbn in *; lia.
  - destruct (x =? z) eqn:Heq; [by constructor|].
    apply Z.ltb_ge in Hlt. apply Z.eqb_neq in Heq.
    constructor; [done|]. apply Forall_forall. intros y Hy.
    apply elem_of_insert_sorted in Hy as [->|Hy]; [lia|].
    by apply (proj1 (Forall_forall _ _) Hz).
Qed.

Lemma insert_sorted_head x l :
  StronglySorted Z.lt (x :: l) -> insert_sorted x l = x :: l.
Proof.
  intros H. apply StronglySorted_inv in H as [_ H].
  destruct l as [|z l]; [done|]. cbn [insert_sorted].
  apply Forall_cons in H as [H _]. apply Z.ltb_lt in H. by rewrite H.
Qed.

Lemma sorted_set_sorted l : StronglySorted Z.lt (sorted_set l).
Proof.
  induction l as [|x l IH]; [constructor|]. by apply insert_sorted_sorted.
Qed.

Lemma elem_of_sorted_set x l : x ∈ sorted_set l <-> x ∈ l.
Proof.
  induction l as [|y l IH]; [done|].
  cbn [sorted_set foldr]. rewrite elem_of_insert_sorted, elem_of_cons.
  unfold sorted_set in IH. by rewrite IH.
Qed.

Lemma sorted_set_id l : StronglySorted Z.lt l -> sorted_set l = l.
Proof.
  induction 1 as [|x l Hl IH Hx]; [done|].
  cbn [sorted_set foldr]. unfold sorted_set in IH. rewrite IH.
  apply insert_sorted_head. by constructor.
Qed.

Lemma sorted_take n l : StronglySorted Z.lt l -> StronglySorted Z.lt (take n l).
Proof.
  intros H. revert n. induction H as [|x l Hl IH Hx]; intros n.
  { rewrite take_nil. constructor. }
  destruct n as [|n]; [constructor|]. cbn [take]. constructor; [apply IH|].
  apply Forall_take. done.
Qed.

End sorted_set_facts.

Section bad_pixel_facts.

Import EEPROM.

Implicit Types (l bp : list Z) (wb : list (list byte)).

Lemma slots_padded l n d :
  map (fun i => match l !! i with Some v => v | None => d end) (seq 0 n)
  = take n l ++ replicate (n - length l) d.
Proof.
  apply list_eq. intros i. change (map ?f ?x) with (f <$> x).
  rewrite list_lookup_fmap.
  destruct (decide (i < n)%nat) as [Hi|Hi].
  - rewrite lookup_seq_lt by done. cbn [fmap option_fmap option_map Nat.add].
    destruct (decide (i < length l)%nat) as [Hl|Hl].
    + rewrite lookup_app_l by (rewrite length_take; lia).
      rewrite lookup_take_lt by done.
      destruct (lookup_lt_is_Some_2 l i Hl) as [v Hv]. by rewrite Hv.
    + rewrite lookup_app_r by (rewrite length_take; lia).
      rewrite length_take, lookup_replicate_2 by lia.
      by rewrite lookup_ge_None_2 by lia.
  - rewrite lookup_seq_ge by lia. symmetry. apply lookup_ge_None_2.
    rewrite length_app, length_take, length_replicate. lia.
Qed.

Lemma filter_all (P : Z -> Prop) `{!forall z, Decision (P z)} l :
  Forall P l -> filter P l = l.
Proof.
  induction 1 as [|z l Hz _ IH]; [done|].
  by rewrite filter_cons_True, IH.
Qed.

Lemma elem_of_written_pixels bp z :
  z ∈ written_pixels bp <-> z ∈ bp /\ 0 <= z.
Proof.
  unfold written_pixels, bad_pixel_set.
  rewrite elem_of_sorted_set, list_elem_of_omap. split.
  - intros (o & Ho & Hz). apply list_elem_of_fmap in Ho as (y & -> & Hy).
    destruct (0 <=? y) eqn:Hy0; [|done]. injection Hz as <-.
    apply Z.leb_le in Hy0. done.
  - intros [Hz H0]. exists (Some z). split; [by apply list_elem_of_fmap_2|].
    apply Z.leb_le in H0. by rewrite H0.
Qed.

Lemma written_pixels_sorted bp : StronglySorted Z.lt (written_pixels bp).
Proof. apply sorted_set_sorted. Qed.

Lemma bad_pixel_slots_padded bp :
  bad_pixel_slots (Some <$> bp)
  = take 15 (written_pixels bp)
    ++ replicate (15 - length (written_pixels bp)) (-1).
Proof. unfold bad_pixel_slots. apply slots_padded. Qed.

Lemma collect_int_slots (slots : list Z) :
  collect_bad_pixels (VInt <$> slots)
  = Some <$> sorted_set (filter (fun z => z <> -1) slots).
Proof.
  unfold collect_bad_pixels.
  replace (existsb _ (VInt <$> slots)) with false.
  2:{ symmetry. induction slots as [|z slots IH]; [done|]. exact IH. }
  cbn [app]. do 2 f_equal.
  induction slots as [|z slots IH]; [done|].
  rewrite fmap_cons. cbn [omap list_omap]. rewrite filter_cons.
  destruct (z =? -1) eqn:Hz.
  - apply Z.eqb_eq in Hz. rewrite decide_False by (intros H; by apply H). exact IH.
  - apply Z.eqb_neq in Hz. rewrite decide_True by done. by rewrite <- IH.
Qed.

(** Decoding the fifteen slots gives back the pixels written. *)
Lemma collect_bad_pixel_slots bp :
  collect_bad_pixels (VInt <$> bad_pixel_slots (Some <$> bp))
  = Some <$> take 15 (written_pixels bp).
Proof.
  rewrite collect_int_slots, bad_pixel_slots_padded. f_equal.
  rewrite filter_app.
  replace (filter _ (replicate _ (-1))) with (@nil Z).
  2:{ symmetry. generalize (15 - length (written_pixels bp))%nat as n.
      induction n as [|n IH]; [done|]. cbn [replicate]. rewrite filter_cons.
      by rewrite decide_False by (intros H; by apply H). }
  rewrite app_nil_r.
  pose proof (sorted_take 15 _ (written_pixels_sorted bp)) as Hs.
  rewrite filter_all; [by apply sorted_set_id|].
  apply Forall_forall. intros z Hz. apply subseteq_take in Hz.
  apply elem_of_written_pixels in Hz. lia.
Qed.

Lemma bad_pixel_slot_range bp :
  Forall (fun z => z <= 32767) bp ->
  Forall (fun z => -1 <= z <= 32767) (bad_pixel_slots (Some <$> bp)).
Proof.
  intros Hbp. rewrite bad_pixel_slots_padded. apply Forall_app. split.
  - apply Forall_take, Forall_forall. intros z Hz.
    apply elem_of_written_pixels in Hz as [Hz H0].
    pose proof (proj1 (Forall_forall _ _) Hbp z Hz). cbn in *. lia.
  - apply Forall_replicate. lia.
Qed.

End bad_pixel_facts.

Section unpack_facts.

Import EEPROM.

Implicit Types (w wb : list (list byte)) (a : address) (t : data_type).

Lemma length_region w a :
  pages_ok w -> readable a = true -> length (region w a) = snd a.
Proof.
  destruct a as [[p s] l]. intros [Hn Hall] Ha. unfold readable in Ha.
  apply andb_true_iff in Ha as [Hp Hl].
  apply Nat.ltb_lt in Hp. apply Nat.leb_le in Hl.
  destruct (lookup_lt_is_Some_2 w p) as [buf Hbuf]; [lia|].
  pose proof (pages_ok_lookup _ _ _ (conj Hn Hall) Hbuf) as Hlen.
  cbn [region snd]. rewrite Hbuf, length_slice by lia. lia.
Qed.

(** On six pages of 64 bytes, [unpack] gives the value of the field. *)
Lemma unpack_pages w a t :
  pages_ok w -> readable a = true ->
  unpack (Some <$> w) a t = Ok (field_value t (region w a)).
Proof.
  destruct a as [[p s] l]. intros [Hn Hall] Ha. unfold readable in Ha.
  apply andb_true_iff in Ha as [Hp Hl].
  apply Nat.ltb_lt in Hp. apply Nat.leb_le in Hl.
  destruct (lookup_lt_is_Some_2 w p) as [buf Hbuf]; [lia|].
  pose proof (pages_ok_lookup _ _ _ (conj Hn Hall) Hbuf) as Hlen.
  unfold unpack, region, field_value. rewrite list_lookup_fmap, Hbuf.
  cbn [fmap option_fmap option_map].
  replace (length buf <? s + l)%nat with false
    by (symmetry; apply Nat.ltb_ge; lia).
  destruct t; try done; by destruct (struct_unpack _ _).
Qed.

Lemma unpack_bad_pixel_slots_pages w :
  pages_ok w ->
  unpack_bad_pixel_slots (Some <$> w)
  = Ok ((fun count => field_value fmt_h (region w (5, count * 2, 2)%nat))
          <$> seq 0 15).
Proof.
  intros Hw. unfold unpack_bad_pixel_slots. cbn [seq mapM].
  rewrite !unpack_pages by done. reflexivity.
Qed.

Lemma field_value_h_encode z :
  - 2 ^ 15 <= z <= 2 ^ 15 - 1 -> field_value fmt_h (le_encode 2 z) = VInt z.
Proof.
  intros Hz. unfold field_value, struct_unpack.
  rewrite length_le_encode. cbn [calcsize Nat.eqb negb].
  rewrite le_decode_encode. change (256 ^ Z.of_nat 2) with 65536. f_equal.
  destruct (z mod 65536 <? 2 ^ 15) eqn:Hlt.
  - apply Z.ltb_lt in Hlt. destruct (decide (0 <= z)) as [H0|H0].
    + rewrite Z.mod_small by lia. done.
    + exfalso. replace (z mod 65536) with (z + 65536) in Hlt; [lia|].
      apply (Z.mod_unique_pos _ _ (-1)); lia.
  - apply Z.ltb_ge in Hlt. destruct (decide (0 <= z)) as [H0|H0].
    + rewrite Z.mod_small in Hlt by lia. lia.
    + replace (z mod 65536) with (z + 65536); [lia|].
      apply (Z.mod_unique_pos _ _ (-1)); lia.
Qed.

Lemma call_bytes_h z :
  - 2 ^ 15 <= z <= 2 ^ 15 - 1 ->
  call_bytes fmt_h 2 (VInt z) = Ok (le_encode 2 z).
Proof.
  intros Hz. unfold call_bytes, struct_pack, struct_ranged.
  cbn [is_unsigned_HI andb struct_int mbind result_bind Py.bind].
  replace (- 2 ^ 15 <=? z) with true by (symmetry; apply Z.leb_le; lia).
  replace (z <=? 2 ^ 15 - 1) with true by (symmetry; apply Z.leb_le; lia).
  done.
Qed.

End unpack_facts.

Section bad_pixel_codec.

Import EEPROM.

Implicit Types (bp : list Z) (wb : list (list byte)).

Lemma bad_pixel_calls_layout (bad_pixels : list (option Z)) :
  layout_ok (fst <$> bad_pixel_calls bad_pixels) = true.
Proof. vm_compute. reflexivity. Qed.

Lemma lookup_bad_pixel_calls (bad_pixels : list (option Z)) i :
  bad_pixel_calls bad_pixels !! i
  = (fun z => ((5, i * 2, 2)%nat, fmt_h, Ok (VInt z)))
      <$> bad_pixel_slots bad_pixels !! i.
Proof. unfold bad_pixel_calls. by rewrite list_lookup_imap. Qed.

Lemma length_bad_pixel_slots (bad_pixels : list (option Z)) :
  length (bad_pixel_slots bad_pixels) = 15%nat.
Proof. reflexivity. Qed.

Lemma bad_pixel_calls_store (bp : list Z) :
  Forall (fun z => z <= 32767) bp ->
  Forall (fun call => exists bs, call_stores call bs)
         (bad_pixel_calls (Some <$> bp)).
Proof.
  intros Hbp. pose proof (bad_pixel_slot_range bp Hbp) as Hrange.
  apply Forall_lookup. intros i call Hi.
  rewrite lookup_bad_pixel_calls in Hi.
  destruct (bad_pixel_slots (Some <$> bp) !! i) as [z|] eqn:Hz; [|done].
  injection Hi as <-. exists (le_encode 2 z), (VInt z). split; [done|].
  apply call_bytes_h.
  pose proof (proj1 (Forall_lookup _ _) Hrange i z Hz). cbn in *. lia.
Qed.

(** After the calls for the bad pixels the fifteen slots read as
    written. *)
Lemma bad_pixel_slots_redecode (bp : list Z) wb wb' :
  pages_ok wb -> pages_ok wb' ->
  Forall (fun z => z <= 32767) bp ->
  Forall (fun call =>
            exists bs, call_stores call bs
                       /\ region wb' (fst (fst call))
                          = bs ++ drop (length bs) (region wb (fst (fst call))))
         (bad_pixel_calls (Some <$> bp)) ->
  unpack_bad_pixel_slots (Some <$> wb')
  = Ok (VInt <$> bad_pixel_slots (Some <$> bp)).
Proof.
  intros Hwb Hwb' Hbp Hregions.
  pose proof (bad_pixel_slot_range bp Hbp) as Hrange.
  rewrite unpack_bad_pixel_slots_pages by done. f_equal.
  apply list_eq. intros i. rewrite !list_lookup_fmap.
  destruct (decide (i < 15)%nat) as [Hi|Hi].
  2:{ rewrite lookup_seq_ge by lia.
      by rewrite lookup_ge_None_2 by (rewrite length_bad_pixel_slots; lia). }
  rewrite lookup_seq_lt by done. cbn [fmap option_fmap option_map Nat.add].
  destruct (lookup_lt_is_Some_2 (bad_pixel_slots (Some <$> bp)) i) as [z Hz].
  { rewrite length_bad_pixel_slots. lia. }
  assert (bad_pixel_calls (Some <$> bp) !! i
          = Some ((5, i * 2, 2)%nat, fmt_h, Ok (VInt z))) as Hcall.
  { by rewrite lookup_bad_pixel_calls, Hz. }
  pose proof (proj1 (Forall_lookup _ _) Hregions i _ Hcall) as (bs & Hst & Hreg).
  cbn [fst snd] in Hreg. destruct Hst as (v & [= <-] & Hbs).
  assert (- 2 ^ 15 <= z <= 2 ^ 15 - 1) as Hzr.
  { pose proof (proj1 (Forall_lookup _ _) Hrange i z Hz). cbn in *. lia. }
  rewrite call_bytes_h in Hbs by done. injection Hbs as Hbs. subst bs.
  rewrite Hz. cbn [fmap option_fmap option_map]. f_equal.
  rewrite Hreg, drop_ge, app_nil_r.
  - by apply field_value_h_encode.
  - rewrite length_region; [cbn; lia|done|].
    unfold readable. apply andb_true_iff. split; [done|].
    apply Nat.leb_le. lia.
Qed.


End bad_pixel_codec.

(** ** The EEPROM: [parse] and its failures *)

Section parse_facts.

Import EEPROM.

(** [unpack] raises only for a page that is not in the list. *)
Lemma unpack_succeeds (bufs : list page) p s l t :
  (p < length bufs)%nat -> exists v, unpack bufs (p, s, l) t = Ok v.
Proof.
  intros Hp. unfold unpack. cbv beta iota.
  destruct (lookup_lt_is_Some_2 bufs p Hp) as [[buf|] ->]; [|by eexists].
  destruct (length buf <? s + l)%nat; [by eexists|].
  destruct t; try (by eexists); destruct (struct_unpack _ _); by eexists.
Qed.

(** A page that is [None], or too short for the field, gives [None]. *)
Lemma unpack_missing_page (bufs : list page) p s l t :
  bufs !! p = Some None -> unpack bufs (p, s, l) t = Ok VNone.
Proof. intros H. unfold unpack. cbv beta iota. by rewrite H. Qed.

Lemma unpack_short_page (bufs : list page) p s l t buf :
  bufs !! p = Some (Some buf) -> (length buf < s + l)%nat ->
  unpack bufs (p, s, l) t = Ok VNone.
Proof.
  intros H Hl. unfold unpack. cbv beta iota. rewrite H.
  by rewrite (proj2 (Nat.ltb_lt _ _) Hl).
Qed.

(** A numeric field whose length is not the size of its format gives 0. *)
Lemma unpack_numeric_failure (bufs : list page) p s l t buf :
  bufs !! p = Some (Some buf) -> (s + l <= length buf)%nat ->
  t <> fmt_s -> calcsize t <> l ->
  unpack bufs (p, s, l) t = Ok (VInt 0).
Proof.
  intros H Hl Ht Hsize. unfold unpack. cbv beta iota. rewrite H.
  rewrite (proj2 (Nat.ltb_ge _ _) Hl).
  assert (struct_unpack t (slice buf s (s + l)) = Raise StructError) as ->.
  { unfold struct_unpack. rewrite length_slice by done.
    replace (s + l - s)%nat with l by lia.
    by rewrite (proj2 (Nat.eqb_neq _ _) (not_eq_sym Hsize)). }
  by destruct t.
Qed.

Lemma bind_if_Ok {A B} (c : bool) (a b : A) (k : A -> result B) :
  (if c then Ok a else Ok b) ≫= k = k (if c then a else b).
Proof. by destruct c. Qed.

Lemma unpack_bad_pixel_slots_succeeds (bufs : list page) :
  (6 <= length bufs)%nat -> exists slots, unpack_bad_pixel_slots bufs = Ok slots.
Proof.
  intros Hlen. unfold unpack_bad_pixel_slots. cbn [seq mapM].
  repeat (match goal with
          | |- context [unpack bufs (?p, ?s, ?l) ?t] =>
              let v := fresh "v" in
              destruct (unpack_succeeds bufs p s l t) as [v ->]; [lia|]
          end;
          cbn [mbind result_bind Py.bind]).
  by eexists.
Qed.

(** One step of [read_eeprom] on buffers [bufs]: the next [unpack]
    returns, or a version test chooses between two values. *)
Ltac read_eeprom_step bufs :=
  first
    [ match goal with
      | |- context [unpack bufs (?p, ?s, ?l) ?t] =>
          let v := fresh "v" in
          destruct (unpack_succeeds bufs p s l t) as [v ->]; [lia|]
      end
    | rewrite bind_if_Ok ];
  cbn [mbind result_bind Py.bind].

(** Short or missing pages do not stop the parse, as long as page 4 is
    there: its fields are [None]. *)
Lemma parse_succeeds self (bufs : list page) buf4 :
  (6 <= length bufs)%nat -> bufs !! 4%nat = Some (Some buf4) ->
  exists e, parse self bufs = Ok e.
Proof.
  intros Hlen H4. unfold parse.
  replace (length bufs <? 6)%nat with false by (symmetry; apply Nat.ltb_ge; lia).
  unfold read_eeprom. cbn [buffers with_buffers].
  repeat read_eeprom_step bufs. rewrite H4.
  cbn [mbind result_bind Py.bind].
  destruct (unpack_bad_pixel_slots_succeeds bufs Hlen) as [slots ->].
  cbn [mbind result_bind Py.bind].
  repeat read_eeprom_step bufs. by eexists.
Qed.

Lemma Ok_inj {A} (a b : A) : Ok a = Ok b -> a = b.
Proof. by intros [= ->]. Qed.

(** The format of a record that was parsed is what byte 63 of page 0 holds. *)
Lemma parse_format self (bufs : list page) e :
  (6 <= length bufs)%nat -> parse self bufs = Ok e ->
  unpack bufs (0, 63, 1)%nat fmt_B = Ok (format e).
Proof.
  intros Hlen. unfold parse.
  replace (length bufs <? 6)%nat with false by (symmetry; apply Nat.ltb_ge; lia).
  unfold read_eeprom. cbn [buffers with_buffers].
  destruct (unpack bufs (0, 63, 1)%nat fmt_B) as [fmt|]; [|done].
  cbn [mbind result_bind Py.bind].
  repeat read_eeprom_step bufs.
  destruct (bufs !! 4%nat) as [[buf|]|]; [|done..].
  cbn [mbind result_bind Py.bind].
  destruct (unpack_bad_pixel_slots_succeeds bufs Hlen) as [slots ->].
  cbn [mbind result_bind Py.bind].
  repeat read_eeprom_step bufs. by intros [= <-].
Qed.

(** C4.  The claim holds for [unpack] ([unpack_missing_page],
    [unpack_short_page], [unpack_numeric_failure]) and for pages that are
    too short ([parse_succeeds]), but not for a page 4 that is [None]:
    [read_eeprom] slices it without the test that [unpack] makes, and the
    whole parse stops with a [TypeError]. *)
Theorem parse_page_4_missing self (bufs : list page) :
  (6 <= length bufs)%nat -> bufs !! 4%nat = Some None ->
  parse self bufs = Raise TypeError.
Proof.
  intros Hlen H4. unfold parse.
  replace (length bufs <? 6)%nat with false by (symmetry; apply Nat.ltb_ge; lia).
  unfold read_eeprom. cbn [buffers with_buffers].
  repeat read_eeprom_step bufs. rewrite H4. reflexivity.
Qed.

(** C10.  A call of [parse] with fewer than 6 buffers returns at once: the
    record, its stored buffers included, is the one before the call. *)
Theorem parse_too_few_buffers self (bufs : list page) :
  (length bufs < 6)%nat -> parse self bufs = Ok self.
Proof.
  intros Hlen. unfold parse. by rewrite (proj2 (Nat.ltb_lt _ _) Hlen).
Qed.

End parse_facts.

(** ** The EEPROM: writing and reading again *)

Section roundtrip_facts.

Import EEPROM.

Implicit Types (w wb : list (list byte)) (a : address) (t : data_type)
         (x bs : list byte).

Lemma ge_format_int v n : ge_format (VInt v) n = (n <=? v).
Proof. apply py_ge_int. Qed.

(** The fresh buffers hold NULs in their first 63 bytes. *)
Lemma region_stamped a t :
  field_ok (a, t) = true ->
  region stamped_buffers a = replicate (snd a) x00.
Proof.
  destruct a as [[p s] l]. unfold field_ok. intros Hok.
  apply andb_true_iff in Hok as [Hok _].
  apply andb_true_iff in Hok as [Hp Hend].
  apply Nat.ltb_lt in Hp. apply Nat.leb_le in Hend. cbn [snd].
  assert (exists r, stamped_buffers !! p = Some (replicate 63 x00 ++ [r])) as [r Hr].
  { do 6 (destruct p as [|p]; [by eexists|]). lia. }
  cbn [region]. rewrite Hr. apply list_eq. intros i.
  rewrite lookup_slice.
  destruct (decide (i < l)%nat) as [Hi|Hi].
  - rewrite decide_True by lia. rewrite lookup_app_l by (rewrite length_replicate; lia).
    rewrite !lookup_replicate_2 by lia. done.
  - rewrite decide_False by lia. symmetry. apply lookup_ge_None_2.
    rewrite length_replicate. lia.
Qed.

Lemma printable_zeros n : printable (replicate n x00) = EmptyString.
Proof. by destruct n. Qed.

Lemma length_bytes_of_printable x :
  (length (bytes_of_string (printable x)) <= length x)%nat.
Proof.
  induction x as [|c x IH]; [done|]. unfold bytes_of_string in *.
  cbn [printable].
  destruct ((31 <? Z_of_byte c) && (Z_of_byte c <? 127)); cbn; [lia|].
  destruct (Z_of_byte c =? 0); cbn; lia.
Qed.

(** The printable text of some bytes, stored and padded with NULs, renders
    as the same text. *)
Lemma printable_roundtrip x n :
  printable (bytes_of_string (printable x) ++ replicate n x00) = printable x.
Proof.
  induction x as [|c x IH]; [apply printable_zeros|].
  unfold bytes_of_string in *. cbn [printable].
  destruct ((31 <? Z_of_byte c) && (Z_of_byte c <? 127)) eqn:Hc.
  - cbn [list_ascii_of_string map app printable].
    rewrite byte_of_ascii_of_byte, Hc. by rewrite IH.
  - destruct (Z_of_byte c =? 0) eqn:H0; [apply printable_zeros|].
    cbn [list_ascii_of_string map app]. cbn [printable].
    change (Z_of_byte (byte_of_ascii ".")) with 46.
    cbn [Z.ltb Z.compare Pos.compare Pos.compare_cont andb].
    by rewrite IH.
Qed.

Lemma field_value_h x :
  length x = 2%nat ->
  exists z, field_value fmt_h x = VInt z /\ - 2 ^ 15 <= z <= 2 ^ 15 - 1.
Proof.
  intros Hx. unfold field_value, struct_unpack. rewrite Hx.
  cbn [calcsize Nat.eqb negb]. eexists. split; [reflexivity|].
  pose proof (le_decode_range x) as Hr. rewrite Hx in Hr.
  change (256 ^ Z.of_nat 2) with 65536 in Hr.
  destruct (le_decode x <? 2 ^ 15) eqn:Hlt.
  - apply Z.ltb_lt in Hlt. lia.
  - apply Z.ltb_ge in Hlt. lia.
Qed.

Lemma le_decode_app_zeros x n : le_decode (x ++ replicate n x00) = le_decode x.
Proof.
  induction x as [|c x IH]; cbn [app le_decode].
  - induction n as [|n IH]; [done|]. cbn [replicate le_decode]. rewrite IH. done.
  - by rewrite IH.
Qed.

(** A 16-bit limit read at format 4 is the 32-bit limit of the same
    value. *)
Lemma field_value_H_as_I x :
  length x = 2%nat ->
  field_value fmt_H x = field_value fmt_I (x ++ replicate 2 x00).
Proof.
  intros Hx. rewrite !field_value_int; try done.
  - by rewrite le_decode_app_zeros.
  - rewrite length_app, Hx. done.
Qed.

Lemma py_int_round_field x :
  length x = 2%nat ->
  py_int_round (field_value fmt_H x) = Ok (field_value fmt_H x).
Proof. intros Hx. by rewrite field_value_int. Qed.

(** What was read from a field can be written to it. *)
Lemma call_stores_decoded p s l t x :
  length x = l -> field_ok ((p, s, l), t) = true ->
  exists bs, call_stores ((p, s, l), t, Ok (field_value t x)) bs.
Proof.
  intros Hx Hok.
  destruct (field_roundtrip t l x Hx) as (bs & Hbs & _).
  { unfold field_ok in *. apply andb_true_iff in Hok as [Hok ->].
    apply andb_true_iff in Hok as [_ Hend]. apply Nat.leb_le in Hend.
    rewrite andb_true_r. apply andb_true_iff. split; [done|].
    apply Nat.leb_le. lia. }
  exists bs, (field_value t x). done.
Qed.

Lemma call_stores_string p s l str :
  exists bs, call_stores ((p, s, l), fmt_s, Ok (VStr str)) bs.
Proof. eexists. exists (VStr str). split; [done|]. reflexivity. Qed.

(** The field of a call that stored what had been read from a field of
    its kind reads the same afterwards. *)
Lemma redecode calls wb' a t x :
  Forall (fun call =>
            exists bs, call_stores call bs
                       /\ region wb' (fst (fst call))
                          = bs ++ drop (length bs)
                                    (region stamped_buffers (fst (fst call))))
         calls ->
  (a, t, Ok (field_value t x)) ∈ calls ->
  length x = snd a -> field_ok (a, t) = true ->
  field_value t (region wb' a) = field_value t x.
Proof.
  intros Hcalls Hin Hx Hok.
  destruct (proj1 (Forall_forall _ _) Hcalls _ Hin) as (bs & Hst & Hreg).
  cbn [fst snd] in Hreg. rewrite Hreg, (region_stamped a t Hok).
  destruct a as [[p s] l]. cbn [snd] in *.
  destruct Hst as (v & [= <-] & Hbs).
  destruct (field_roundtrip t l x Hx) as (bs' & Hbs' & Hl & Hval).
  { unfold field_ok in *. apply andb_true_iff in Hok as [Hok ->].
    apply andb_true_iff in Hok as [_ Hend]. apply Nat.leb_le in Hend.
    rewrite andb_true_r. apply andb_true_iff. split; [done|].
    apply Nat.leb_le. lia. }
  rewrite Hbs in Hbs'. injection Hbs' as Hbs'. subst bs'.
  rewrite drop_replicate. exact Hval.
Qed.

Lemma calls_layout self (pixels : list (option Z)) :
  layout_ok (fst <$> (field_calls self ++ bad_pixel_calls pixels
                      ++ [((5, 30, 16)%nat, fmt_s, Ok (product_configuration self))]))
  = true.
Proof. vm_compute. reflexivity. Qed.

Lemma calls_leave_format self (pixels : list (option Z)) :
  forallb (fun g => disjoint (0, 63, 1)%nat (fst g))
    (fst <$> (field_calls self ++ bad_pixel_calls pixels
              ++ [((5, 30, 16)%nat, fmt_s, Ok (product_configuration self))]))
  = true.
Proof. vm_compute. reflexivity. Qed.

Lemma pages_ok_stamped : pages_ok stamped_buffers.
Proof. split; [reflexivity|repeat constructor]. Qed.


(** The fifteen slots of a page 5 hold signed 16-bit integers. *)
Lemma decoded_slots w (counts : list nat) :
  pages_ok w -> Forall (fun count => count < 32)%nat counts ->
  exists zs,
    (fun count => field_value fmt_h (region w (5, count * 2, 2)%nat)) <$> counts
    = VInt <$> zs
    /\ Forall (fun z => - 2 ^ 15 <= z <= 2 ^ 15 - 1) zs.
Proof.
  intros Hw. induction 1 as [|count counts Hc _ (zs & Hzs & Hr)].
  { by exists []. }
  destruct (field_value_h (region w (5, count * 2, 2)%nat)) as (z & Hz & Hzr).
  { rewrite length_region; [done|done|].
    unfold readable. apply andb_true_iff. split; [done|]. apply Nat.leb_le. lia. }
  exists (z :: zs). rewrite !fmap_cons, Hz, Hzs. split; [done|].
  by constructor.
Qed.

(** A sorted list of pixels that are not negative is written as it is. *)
Lemma written_pixels_id (bp : list Z) :
  StronglySorted Z.lt bp -> Forall (fun z => 0 <= z) bp ->
  written_pixels bp = bp.
Proof.
  intros Hs Hbp. unfold written_pixels, bad_pixel_set.
  replace (omap _ (Some <$> bp)) with bp; [by apply sorted_set_id|].
  clear Hs. induction Hbp as [|z bp Hz _ IH]; [done|].
  rewrite fmap_cons. cbn [omap list_omap].
  rewrite (proj2 (Z.leb_le _ _) Hz). by rewrite <- IH.
Qed.

Lemma length_insert_sorted (z : Z) (l : list Z) :
  (length (insert_sorted z l) <= S (length l))%nat.
Proof.
  induction l as [|y l IH]; cbn [insert_sorted length]; [lia|].
  destruct (z <? y); [cbn; lia|]. destruct (z =? y); cbn [length]; lia.
Qed.

Lemma length_sorted_set (l : list Z) : (length (sorted_set l) <= length l)%nat.
Proof.
  induction l as [|z l IH]; [done|]. cbn [sorted_set foldr length].
  pose proof (length_insert_sorted z (foldr insert_sorted [] l)).
  unfold sorted_set in IH. lia.
Qed.

(** [parse] on six full pages whose format is [v >= 4]: every [unpack]
    gives the value of its field. *)
Ltac parse_pages Hw Hfmt Hp4 :=
  unfold parse;
  rewrite length_fmap, (proj1 Hw); cbn [Nat.ltb Nat.leb];
  unfold read_eeprom; cbn [buffers with_buffers];
  rewrite (unpack_pages _ (0, 63, 1)%nat fmt_B Hw eq_refl), Hfmt;
  cbn [mbind result_bind Py.bind];
  rewrite !ge_format_int, !py_lt_int;
  rewrite ?(proj2 (Z.leb_le 3 _)), ?(proj2 (Z.leb_le 4 _)) by lia;
  rewrite ?(proj2 (Z.ltb_ge _ 4)) by lia;
  rewrite ?(proj2 (Z.ltb_ge _ 5)), ?(proj2 (Z.leb_le 5 _)) by lia;
  rewrite ?(proj2 (Z.ltb_lt _ 5)), ?(proj2 (Z.leb_gt 5 _)) by lia;
  rewrite !(unpack_pages _ _ _ Hw) by reflexivity;
  rewrite (unpack_bad_pixel_slots_pages _ Hw);
  rewrite list_lookup_fmap, Hp4;
  cbn [fmap option_fmap option_map mbind result_bind Py.bind].


Lemma call_stores_limit p s x :
  length x = 4%nat -> py_le (field_value fmt_I x) (VInt 65535) = true ->
  exists bs,
    call_stores ((p, s, 2)%nat, fmt_H,
                 Ok (py_max (VInt 65535) (field_value fmt_I x))) bs.
Proof.
  intros Hx. rewrite field_value_int by done. rewrite py_le_int, py_max_int.
  intros Hle. apply Z.leb_le in Hle. rewrite Z.max_l by done.
  eexists. eexists. split; [done|]. reflexivity.
Qed.

Lemma user_text_redecode calls wb' u p4' :
  Forall (fun call =>
            exists bs, call_stores call bs
                       /\ region wb' (fst (fst call))
                          = bs ++ drop (length bs)
                                    (region stamped_buffers (fst (fst call))))
         calls ->
  ((4, 0, 63)%nat, fmt_s, Ok (VStr (printable u))) ∈ calls ->
  (length u <= 63)%nat -> wb' !! 4%nat = Some p4' ->
  printable (take 63 p4') = printable u.
Proof.
  intros Hcalls Hin Hu Hp4.
  destruct (proj1 (Forall_forall _ _) Hcalls _ Hin) as (bs & Hst & Hreg).
  cbn [fst snd] in Hreg.
  rewrite (region_stamped (4, 0, 63)%nat fmt_s eq_refl) in Hreg.
  cbn [region snd] in Hreg. rewrite Hp4 in Hreg.
  unfold slice in Hreg. rewrite drop_0 in Hreg. cbn [Nat.add Nat.sub] in Hreg.
  rewrite Hreg. destruct Hst as (v & [= <-] & Hbs).
  cbn [call_bytes is_unsigned_HI andb] in Hbs. injection Hbs as <-.
  pose proof (length_bytes_of_printable u).
  rewrite take_ge by lia. rewrite drop_replicate. apply printable_roundtrip.
Qed.

Lemma bad_pixels_redecode (bp : list Z) wb' :
  pages_ok wb' ->
  Forall (fun call =>
            exists bs, call_stores call bs
                       /\ region wb' (fst (fst call))
                          = bs ++ drop (length bs)
                                    (region stamped_buffers (fst (fst call))))
         (bad_pixel_calls (Some <$> bp)) ->
  StronglySorted Z.lt bp -> Forall (fun z => 0 <= z <= 32767) bp ->
  (length bp <= 15)%nat ->
  collect_bad_pixels
    ((fun count => field_value fmt_h (region wb' (5, count * 2, 2)%nat))
       <$> seq 0 15)
  = Some <$> bp.
Proof.
  intros Hwb' Hregions Hsorted Hrange Hlen.
  assert (Forall (fun z => z <= 32767) bp) as Hle.
  { eapply Forall_impl; [exact Hrange|]. intros; cbn in *; lia. }
  pose proof (bad_pixel_slots_redecode bp _ wb' pages_ok_stamped Hwb' Hle Hregions)
    as Hslots.
  rewrite unpack_bad_pixel_slots_pages in Hslots by done.
  apply Ok_inj in Hslots. rewrite Hslots.
  rewrite collect_bad_pixel_slots, written_pixels_id; [by rewrite take_ge|done|].
  eapply Forall_impl; [exact Hrange|]. intros; cbn in *; lia.
Qed.

Ltac project_fields :=
  cbn [model serial_number baud_rate has_cooling has_battery has_laser
       excitation_nm excitation_nm_float slit_size_um
       startup_integration_time_ms startup_temp_degC
       startup_triggering_scheme detector_gain detector_offset
       detector_gain_odd detector_offset_odd wavelength_coeffs
       degC_to_dac_coeffs adc_to_degC_coeffs max_temp_degC min_temp_degC
       tec_r298 tec_beta calibration_date calibrated_by detector
       active_pixels_horizontal active_pixels_vertical
       min_integration_time_ms max_integration_time_ms actual_horizontal
       actual_vertical roi_horizontal_start roi_horizontal_end
       roi_vertical_region_1_start roi_vertical_region_1_end
       roi_vertical_region_2_start roi_vertical_region_2_end
       roi_vertical_region_3_start roi_vertical_region_3_end
       linearity_coeffs max_laser_power_mW min_laser_power_mW
       laser_power_coeffs user_text bad_pixels product_configuration
       py_getitem lookup list_lookup].

Ltac project_fields_in H :=
  cbn [model serial_number baud_rate has_cooling has_battery has_laser
       excitation_nm excitation_nm_float slit_size_um
       startup_integration_time_ms startup_temp_degC
       startup_triggering_scheme detector_gain detector_offset
       detector_gain_odd detector_offset_odd wavelength_coeffs
       degC_to_dac_coeffs adc_to_degC_coeffs max_temp_degC min_temp_degC
       tec_r298 tec_beta calibration_date calibrated_by detector
       active_pixels_horizontal active_pixels_vertical
       min_integration_time_ms max_integration_time_ms actual_horizontal
       actual_vertical roi_horizontal_start roi_horizontal_end
       roi_vertical_region_1_start roi_vertical_region_1_end
       roi_vertical_region_2_start roi_vertical_region_2_end
       roi_vertical_region_3_start roi_vertical_region_3_end
       linearity_coeffs max_laser_power_mW min_laser_power_mW
       laser_power_coeffs user_text bad_pixels product_configuration
       py_getitem lookup list_lookup] in H.

Ltac elem_of_calls :=
  solve [repeat first [apply list_elem_of_here | apply list_elem_of_further]].

Ltac redecode_field wb Hr :=
  lazymatch goal with
  | |- field_value ?t (region ?w0 ?a) = field_value ?t (region wb ?a) =>
      symmetry; apply (redecode _ wb a t (region w0 a) Hr);
      [elem_of_calls | by apply length_region | reflexivity]
  end.

Lemma pixel_range (bp : list Z) :
  Forall (fun pixel => exists z, pixel = Some z /\ 0 <= z) (Some <$> bp) ->
  Forall (fun z => - 2 ^ 15 <= z <= 2 ^ 15 - 1) bp ->
  Forall (fun z => 0 <= z <= 32767) bp.
Proof.
  intros Hbad Hbpr. apply Forall_forall. intros z Hz.
  pose proof (proj1 (Forall_forall _ _) Hbpr z Hz) as Hz'. cbn beta in Hz'.
  destruct (proj1 (Forall_forall _ _) Hbad (Some z)) as (z' & Hz'' & H0).
  { by apply list_elem_of_fmap_2. }
  injection Hz'' as Hz''. subst z'. lia.
Qed.

(** The calls of [generate_write_buffers] on a record that was read have
    bytes to store. *)
Ltac calls_stored :=
  repeat (apply Forall_cons; split); try apply Forall_nil;
  first
    [ exact I
    | apply call_stores_string
    | by apply call_stores_limit
    | apply call_stores_decoded;
      [first [by apply length_region | assumption] | reflexivity] ].

(** The round trip for a record [e1] that holds what the fields of the
    pages [w] hold, its integration limits being read from [xmin] and
    [xmax]. *)
Ltac round_trip w e1 p4 bp xmin xmax He1 Hw Hbad Hbpr Hmin Hmax Hxmin Hxmax :=
  let Hbp := fresh "Hbp" in
  let Hrange := fresh "Hrange" in
  let Hlayout := fresh "Hlayout" in
  let wb := fresh "wb" in
  let Hwb := fresh "Hwb" in
  let Hwbok := fresh "Hwbok" in
  let Hfields := fresh "Hfields" in
  let Hpixels := fresh "Hpixels" in
  let Hconfig := fresh "Hconfig" in
  let Hframe := fresh "Hframe" in
  let Hfmt' := fresh "Hfmt'" in
  let p4' := fresh "p4'" in
  let Hp4' := fresh "Hp4'" in
  assert (bad_pixels e1 = Some <$> bp) as Hbp by (by rewrite <- He1);
  assert (Forall (fun z => 0 <= z <= 32767) bp) as Hrange
    by (rewrite Hbp in Hbad; by apply (pixel_range bp));
  rewrite <- He1 in Hmin, Hmax;
  cbn [min_integration_time_ms max_integration_time_ms] in Hmin, Hmax;
  pose proof (calls_layout e1 (bad_pixels e1)) as Hlayout;
  unfold generate_write_buffers;
  destruct (pack_all_succeeds _ stamped_buffers pages_ok_stamped Hlayout)
    as [wb Hwb];
  [ apply Forall_app; split; [|apply Forall_app; split];
    [ rewrite <- He1; unfold field_calls; project_fields;
      rewrite py_int_round_field by (by apply length_region);
      calls_stored
    | rewrite Hbp; apply bad_pixel_calls_store;
      eapply Forall_impl; [exact Hrange|]; intros ? ?; cbn beta in *; lia
    | apply Forall_singleton; rewrite <- He1; cbn [product_configuration];
      apply call_stores_decoded; [by apply length_region|reflexivity] ]
  | ];
  destruct (pack_all_regions _ _ _ pages_ok_stamped Hlayout Hwb)
    as [Hwbok Hfields];
  destruct (pack_all_frame _ _ _ (0, 63, 1)%nat pages_ok_stamped Hlayout Hwb
              (calls_leave_format e1 (bad_pixels e1))) as [_ Hframe];
  assert (field_value fmt_B (region wb (0, 63, 1)%nat) = VInt 5) as Hfmt'
    by (by rewrite Hframe);
  destruct (lookup_lt_is_Some_2 wb 4) as [p4' Hp4'];
    [rewrite (proj1 Hwbok); lia|];
  exists wb; split; [exact Hwb|]; split; [exact Hwbok|]; intros ?;
  eexists; split; [parse_pages Hwbok Hfmt' Hp4'; reflexivity|];
  split; [|reflexivity];
  apply Forall_app in Hfields as [Hfields Hpixels];
  apply Forall_app in Hpixels as [Hpixels Hconfig];
  rewrite <- He1 in Hfields, Hpixels, Hconfig; unfold field_calls in Hfields;
  project_fields_in Hfields; project_fields_in Hpixels;
  project_fields_in Hconfig;
  rewrite py_int_round_field in Hfields by (by apply length_region);
  unfold reproduced; rewrite <- He1; project_fields;
  split_and!;
  first
    [ redecode_field wb Hfields
    | redecode_field wb Hconfig
    | repeat (apply (f_equal2 cons)); try reflexivity;
      redecode_field wb Hfields
    | symmetry; apply (redecode _ wb (3, 40, 4)%nat fmt_I xmin Hfields);
      [elem_of_calls|exact Hxmin|reflexivity]
    | symmetry; apply (redecode _ wb (3, 44, 4)%nat fmt_I xmax Hfields);
      [elem_of_calls|exact Hxmax|reflexivity]
    | f_equal; symmetry;
      apply (user_text_redecode _ wb (take 63 p4) p4' Hfields);
      [elem_of_calls|rewrite length_take; lia|exact Hp4']
    | symmetry; by apply bad_pixels_redecode ].


End roundtrip_facts.

(** ** Examples of records and pages *)

(** A record as a spectrometer could hold it, with the startup trigger
    scheme, the horizontal region of interest and the pixel count left
    open. *)
Definition sample_record (trigger roi_start roi_end pixels : Z) : EEPROM.EEPROM :=
  let zero := EEPROM.VFloat (EEPROM.F32 0) in
  {| EEPROM.format := EEPROM.VInt 5;
     EEPROM.model := EEPROM.VStr "WP-785";
     EEPROM.serial_number := EEPROM.VStr "WP-00001";
     EEPROM.baud_rate := EEPROM.VInt 9600;
     EEPROM.has_cooling := EEPROM.VBool true;
     EEPROM.has_battery := EEPROM.VBool false;
     EEPROM.has_laser := EEPROM.VBool true;
     EEPROM.excitation_nm := EEPROM.VInt 785;
     EEPROM.excitation_nm_float := EEPROM.VFloat (EEPROM.F32 0x44444000);
     EEPROM.slit_size_um := EEPROM.VInt 50;
     EEPROM.startup_integration_time_ms := EEPROM.VInt 10;
     EEPROM.startup_temp_degC := EEPROM.VInt 15;
     EEPROM.startup_triggering_scheme := EEPROM.VInt trigger;
     EEPROM.detector_gain := EEPROM.VFloat (EEPROM.F32 0x3FF33333);
     EEPROM.detector_offset := EEPROM.VInt 0;
     EEPROM.detector_gain_odd := EEPROM.VFloat (EEPROM.F32 0x3FF33333);
     EEPROM.detector_offset_odd := EEPROM.VInt 0;
     EEPROM.wavelength_coeffs := [zero; EEPROM.VFloat (EEPROM.F32 0x3F800000); zero; zero];
     EEPROM.degC_to_dac_coeffs := [zero; zero; zero];
     EEPROM.adc_to_degC_coeffs := [zero; zero; zero];
     EEPROM.max_temp_degC := EEPROM.VInt 20;
     EEPROM.min_temp_degC := EEPROM.VInt 10;
     EEPROM.tec_r298 := EEPROM.VInt 0;
     EEPROM.tec_beta := EEPROM.VInt 0;
     EEPROM.calibration_date := EEPROM.VStr "2018-06-01";
     EEPROM.calibrated_by := EEPROM.VStr "MZ";
     EEPROM.detector := EEPROM.VStr "S11511";
     EEPROM.active_pixels_horizontal := EEPROM.VInt pixels;
     EEPROM.active_pixels_vertical := EEPROM.VInt 64;
     EEPROM.min_integration_time_ms := EEPROM.VInt 10;
     EEPROM.max_integration_time_ms := EEPROM.VInt 60000;
     EEPROM.actual_horizontal := EEPROM.VInt pixels;
     EEPROM.actual_vertical := EEPROM.VInt 64;
     EEPROM.roi_horizontal_start := EEPROM.VInt roi_start;
     EEPROM.roi_horizontal_end := EEPROM.VInt roi_end;
     EEPROM.roi_vertical_region_1_start := EEPROM.VInt 0;
     EEPROM.roi_vertical_region_1_end := EEPROM.VInt 0;
     EEPROM.roi_vertical_region_2_start := EEPROM.VInt 0;
     EEPROM.roi_vertical_region_2_end := EEPROM.VInt 0;
     EEPROM.roi_vertical_region_3_start := EEPROM.VInt 0;
     EEPROM.roi_vertical_region_3_end := EEPROM.VInt 0;
     EEPROM.linearity_coeffs := [zero; zero; zero; zero; zero];
     EEPROM.max_laser_power_mW := zero;
     EEPROM.min_laser_power_mW := zero;
     EEPROM.laser_power_coeffs := [zero; zero; zero; zero];
     EEPROM.user_data := None;
     EEPROM.user_text := EEPROM.VStr "";
     EEPROM.bad_pixels := [];
     EEPROM.product_configuration := EEPROM.VStr "";
     EEPROM.buffers := [];
     EEPROM.write_buffers := [] |}.

(** Six pages of NULs, a short page in the place of page 0 and no page 4: a
    failed read. *)
Definition pages_without_page_4 : list (option (list byte)) :=
  [Some [x00]; Some (repeat x00 64); Some (repeat x00 64);
   Some (repeat x00 64); None; Some (repeat x00 64)].

Lemma parse_page_4_missing_witness :
  (6 <= length pages_without_page_4)%nat
  /\ pages_without_page_4 !! 4%nat = Some None
  /\ EEPROM.parse (sample_record 0 0 0 1024) pages_without_page_4
     = Raise TypeError.
Proof.
  assert (6 <= length pages_without_page_4)%nat as H1 by (cbn; lia).
  assert (pages_without_page_4 !! 4%nat = Some None) as H2 by reflexivity.
  split_and!; [exact H1|exact H2|].
  exact (parse_page_4_missing (sample_record 0 0 0 1024) pages_without_page_4 H1 H2).
Defined.

Lemma parse_too_few_buffers_witness :
  (length (take 5 pages_without_page_4) < 6)%nat
  /\ EEPROM.parse (sample_record 0 0 0 1024) (take 5 pages_without_page_4)
     = Ok (sample_record 0 0 0 1024).
Proof.
  assert (length (take 5 pages_without_page_4) < 6)%nat as H by (cbn; lia).
  split; [exact H|].
  exact (parse_too_few_buffers (sample_record 0 0 0 1024) _ H).
Defined.

(** A region of interest that ends at the pixel count: accepted, and
    clamped to the last pixel. *)
Lemma get_horizontal_roi_valid_witness :
  EEPROM.get_horizontal_roi (sample_record 0 10 1024 1024)
  = Ok (Some (EEPROM.VInt 10, EEPROM.VInt 1023))
  /\ EEPROM.get_horizontal_roi (sample_record 0 10 1025 1024) = Ok None.
Proof.
  split.
  - refine (proj1 (proj1 (get_horizontal_roi_valid
                            (sample_record 0 10 1024 1024) 10 1024 1024
                            eq_refl eq_refl eq_refl) _)). lia.
  - refine (proj2 (get_horizontal_roi_valid
                     (sample_record 0 10 1025 1024) 10 1025 1024
                     eq_refl eq_refl eq_refl) _). lia.
Defined.

(** ** The EEPROM: [pack] and unsigned fields *)

Section unsigned_facts.

Import EEPROM.

(** A negative integer is written as 0 into an ["H"] or an ["I"] field. *)
Lemma pack_clamps_negative wb a t z :
  is_unsigned_HI t = true -> z < 0 ->
  pack wb a t (VInt z) = pack wb a t (VInt 0).
Proof.
  intros Ht Hz. destruct a as [[p s] l]. unfold pack. rewrite Ht.
  assert (py_lt (VInt z) (VInt 0) = true) as ->.
  { rewrite py_lt_int. by apply Z.ltb_lt. }
  assert (py_lt (VInt 0) (VInt 0) = false) as -> by done.
  done.
Qed.

(** C8.  [pack] clamps a negative value for the formats ["H"] and ["I"]
    only ([pack_clamps_negative]).  The startup trigger scheme is written
    with the unsigned format ["B"]: a negative value is not clamped, and
    the write fails. *)
Theorem pack_unsigned_byte_not_clamped :
  pack stamped_buffers (0, 47, 1)%nat fmt_B (VInt (-1)) = Raise StructError
  /\ generate_write_buffers (sample_record (-1) 0 0 1024) = Raise StructError
  /\ exists wb, generate_write_buffers (sample_record 0 0 0 1024) = Ok wb.
Proof.
  split_and!; [reflexivity|vm_compute; reflexivity|].
  eexists. vm_compute. reflexivity.
Qed.

End unsigned_facts.

(** ** The EEPROM: coefficients *)

Section coefficient_facts.

Import EEPROM.

(** C3.  The claim is what the source means to do, but on the default
    pattern (0, 1, 0, 0) the code reaches [return false], a name that is
    bound nowhere, and raises [NameError] in the place of returning
    [False]. *)
Theorem coeffs_look_valid_default_pattern :
  coeffs_look_valid (Some [0; 1; 0; 0]%float) None = Raise (NameError "false").
Proof. vm_compute. reflexivity. Qed.

(** The other cases of the specification. *)
Example coeffs_look_valid_nan :
  coeffs_look_valid (Some [nan; 0; 0; 0]%float) None = Ok false.
Proof. vm_compute. reflexivity. Qed.

Example coeffs_look_valid_minus_one :
  coeffs_look_valid (Some [-1; -1; -1; -1]%float) None = Ok false.
Proof. vm_compute. reflexivity. Qed.

Example coeffs_look_valid_zero :
  coeffs_look_valid (Some [0; 0; 0; 0]%float) None = Ok false.
Proof. vm_compute. reflexivity. Qed.

(** A list too short to depart from the default pattern meets the unbound
    name as well. *)
Example coeffs_look_valid_short :
  coeffs_look_valid (Some [0]%float) None = Raise (NameError "false")
  /\ coeffs_look_valid (Some []) None = Raise (NameError "false").
Proof. split; vm_compute; reflexivity. Qed.

Example coeffs_look_valid_count :
  coeffs_look_valid (Some [0.5; 0.25]%float) (Some 4%nat) = Ok false.
Proof. vm_compute. reflexivity. Qed.

(** [0.1, -2.3, 0.0, 1e-5], as the doubles nearest to these decimals. *)
Example coeffs_look_valid_calibrated :
  coeffs_look_valid
    (Some [0x1.999999999999ap-4; -0x1.2666666666666p+1; 0;
           0x1.4f8b588e368f1p-17]%float) None
  = Ok true.
Proof. vm_compute. reflexivity. Qed.

(** The scan for the default pattern stops at the first coefficient that
    departs from it, and with it the test for NaN: a NaN further on goes
    unnoticed. *)
Example coeffs_look_valid_late_nan :
  coeffs_look_valid (Some [0.5; nan; 0; 0]%float) None = Ok true.
Proof. vm_compute. reflexivity. Qed.

End coefficient_facts.


(** ** A round trip at format 4 *)

(** Six pages at format 4: those written for the sample record, with the
    format byte 4, a byte 1 in the user data and the bad pixel 7. *)
Definition format_4_pages : list (list byte) :=
  Eval vm_compute in
    match EEPROM.generate_write_buffers (sample_record 0 10 1024 1024) with
    | Py.Ok wb =>
        alter (fun buf => <[63%nat := x04]> buf) 0%nat
          (alter (fun buf => <[0%nat := x01]> buf) 4%nat
             (alter (fun buf => <[0%nat := x07]> (<[1%nat := x00]> buf)) 5%nat wb))
    | Py.Raise _ => []
    end.

(** What [parse] reads from them. *)
Definition format_4_record : EEPROM.EEPROM :=
  Eval vm_compute in
    match EEPROM.parse (sample_record 0 0 0 0) (Some <$> format_4_pages) with
    | Py.Ok e => e
    | Py.Raise _ => sample_record 0 0 0 0
    end.



(* ===================================================================== *)
(** * Part III.  Further properties                                      *)
(* ===================================================================== *)

(** ** The command queue: what [dedupe] does on every queue *)

Section dedupe_invariants.

Import Py Wrapper.

Implicit Types (q keep : list command) (c : command)
         (indices : gmap (option string) nat).

(** What the loop keeps true, whatever the order of the commands: there
    are as many commands kept as settings filed, the settings filed are
    those drained so far, every index filed lies within the list, and the
    commands kept were all drained. *)
Definition tracked q keep indices : Prop :=
  length keep = size indices
  /\ dom indices = (list_to_set (key_of <$> q) : gset (option string))
  /\ (forall k i, indices !! k = Some i -> (i < length keep)%nat)
  /\ keep ⊆ q
  /\ last keep = last q.

Lemma tracked_empty : tracked [] [] ∅.
Proof.
  split_and!; done.
Qed.

Lemma dedupe_step_tracked q keep indices c :
  tracked q keep indices ->
  exists keep' indices',
    dedupe_step (keep, indices) c = Ok (keep', indices')
    /\ tracked (q ++ [c]) keep' indices'.
Proof.
  intros (Hlen & Hdom & Hidx & Hsub & Hlast). unfold dedupe_step.
  destruct (indices !! key_of c) as [i|] eqn:Hi.
  - pose proof (Hidx _ _ Hi) as Hlt. unfold del_index.
    rewrite (proj2 (Nat.ltb_lt _ _) Hlt). cbn [mbind result_bind Py.bind].
    eexists _, _. split; [reflexivity|].
    assert (length (delete i keep) = (length keep - 1)%nat) as Hdel.
    { destruct (lookup_lt_is_Some_2 keep i Hlt) as [x Hx].
      pose proof (length_delete keep i (ex_intro _ x Hx)). lia. }
    split_and!.
    + rewrite length_app, Hdel. cbn [length].
      rewrite map_size_insert_None by (by rewrite lookup_delete_eq).
      rewrite map_size_delete, Hi. lia.
    + rewrite dom_insert_L, dom_delete_L, fmap_app, list_to_set_app_L, Hdom.
      cbn [fmap list_fmap list_to_set]. apply elem_of_dom_2 in Hi.
      rewrite Hdom in Hi. apply set_eq. intros k.
      rewrite !elem_of_union, elem_of_difference, !elem_of_singleton,
        elem_of_empty.
      destruct (decide (k = key_of c)) as [->|Hne]; tauto.
    + intros k j. rewrite length_app, Hdel. cbn [length].
      destruct (decide (k = key_of c)) as [->|Hne].
      * rewrite lookup_insert_eq. intros [= <-]. cbn [length]. lia.
      * rewrite lookup_insert_ne by done. rewrite lookup_delete_ne by done.
        intros Hj. apply Hidx in Hj. lia.
    + intros x Hx. apply elem_of_app in Hx as [Hx|Hx].
      * apply elem_of_app. left. apply Hsub.
        by apply (sublist_subseteq _ _ (sublist_delete keep i)).
      * apply elem_of_app. by right.
    + by rewrite !last_snoc.
  - cbn [mbind result_bind Py.bind]. eexists _, _. split; [reflexivity|].
    split_and!.
    + rewrite length_app. cbn [length].
      rewrite map_size_insert_None by done. lia.
    + rewrite dom_insert_L, fmap_app, list_to_set_app_L, Hdom.
      cbn [fmap list_fmap list_to_set]. apply set_eq. intros k.
      rewrite !elem_of_union, !elem_of_singleton, elem_of_empty. tauto.
    + intros k j. rewrite length_app. cbn [length].
      destruct (decide (k = key_of c)) as [->|Hne].
      * rewrite lookup_insert_eq. intros [= <-]. cbn [length]. lia.
      * rewrite lookup_insert_ne by done. intros Hj. apply Hidx in Hj. lia.
    + intros x Hx. apply elem_of_app in Hx as [Hx|Hx].
      * apply elem_of_app. left. by apply Hsub.
      * apply elem_of_app. by right.
    + by rewrite !last_snoc.
Qed.

Lemma dedupe_loop_tracked q :
  exists keep indices,
    dedupe_loop ([], ∅) q = Ok (keep, indices) /\ tracked q keep indices.
Proof.
  induction q as [|c q IH] using rev_ind.
  { exists [], ∅. split; [done|apply tracked_empty]. }
  destruct IH as (keep & indices & Hloop & Htr).
  destruct (dedupe_step_tracked q keep indices c Htr)
    as (keep' & indices' & Hstep & Htr').
  exists keep', indices'. split; [|done].
  rewrite dedupe_loop_snoc, Hloop. cbn [mbind result_bind Py.bind].
  by rewrite Hstep.
Qed.

(** X1.  [dedupe] returns for every queue: the index that [del keep[index]]
    uses is always within the list, also when it is stale.  It returns as
    many commands as there are distinct settings in the queue. *)
Theorem dedupe_returns_one_per_setting q :
  exists keep,
    dedupe q = Ok keep
    /\ length keep = size (list_to_set (key_of <$> q) : gset (option string)).
Proof.
  destruct (dedupe_loop_tracked q) as (keep & indices & Hloop & Htr).
  exists keep. unfold dedupe. rewrite Hloop. split; [done|].
  destruct Htr as (Hlen & Hdom & _). rewrite <- Hdom, size_dom. done.
Qed.

(** X2.  The commands that [dedupe] returns were all on the queue, and the
    command drained last is the last one returned: the poison pill, when
    it is the last thing sent, is seen last. *)
Theorem dedupe_keeps_last q keep :
  dedupe q = Ok keep -> keep ⊆ q /\ last keep = last q.
Proof.
  destruct (dedupe_loop_tracked q) as (keep' & indices & Hloop & Htr).
  unfold dedupe. rewrite Hloop. cbn. intros [= <-].
  destruct Htr as (_ & _ & _ & Hsub & Hlast). done.
Qed.

(** X3.  A queue in which no setting comes twice is returned as it is. *)
Theorem dedupe_distinct_settings q :
  NoDup (key_of <$> q) -> dedupe q = Ok q.
Proof.
  intros Hq.
  assert (exists indices,
             dedupe_loop ([], ∅) q = Ok (q, indices)
             /\ forall k, k ∉ key_of <$> q -> indices !! k = None)
    as (indices & Hloop & _).
  { induction q as [|c q IH] using rev_ind.
    { exists ∅. split; [done|]. intros k _. apply lookup_empty. }
    rewrite fmap_app in Hq. apply NoDup_app in Hq as (Hq & Hc & _).
    destruct (IH Hq) as (indices & Hloop & Hnone).
    rewrite dedupe_loop_snoc, Hloop. cbn [mbind result_bind Py.bind].
    unfold dedupe_step. rewrite Hnone.
    2:{ intros Hin. apply (Hc _ Hin). cbn. apply list_elem_of_here. }
    cbn [mbind result_bind Py.bind]. eexists. split; [reflexivity|].
    intros k Hk. rewrite fmap_app in Hk. cbn in Hk.
    rewrite lookup_insert_ne.
    - apply Hnone. intros Hin. apply Hk, elem_of_app. by left.
    - intros <-. apply Hk, elem_of_app. right. apply list_elem_of_here. }
  unfold dedupe. by rewrite Hloop.
Qed.

End dedupe_invariants.

(** ** The response queue: the other modes and the poison pill *)

Section acquire_modes.

Import Py Wrapper.

(** Draining a queue in which a poison pill follows some readings: the
    loop stops at the pill and forgets the reading it held. *)
Lemma get_final_loop_poison keep_averaged (rs : list Reading) rest st :
  get_final_loop keep_averaged st ((Some <$> rs) ++ None :: rest)
  = (mkFinal None (dequeue_count st + length rs)
       (if keep_averaged then
          match last (filter (fun r => averaged r = true) rs) with
          | Some r => Some r
          | None => last_averaged st
          end
        else last_averaged st),
     rest).
Proof.
  revert st. induction rs as [|r rs IH]; intros st.
  { destruct st, keep_averaged; cbn; by rewrite Nat.add_0_r. }
  rewrite fmap_cons. cbn [app get_final_loop]. rewrite IH.
  cbn [reading dequeue_count last_averaged length].
  rewrite filter_cons. f_equal. f_equal; [lia|].
  destruct keep_averaged; [|done]. cbn [andb].
  destruct (averaged r) eqn:Hr.
  - rewrite decide_True by done. rewrite last_cons.
    by destruct (last (filter _ rs)).
  - rewrite decide_False by done. done.
Qed.

(** X4.  In LATEST mode [acquire_data] empties the queue and returns the
    reading enqueued last, averaged or not; [None] when the queue is
    empty. *)
Theorem acquire_data_latest (w : WasatchDeviceWrapper) (rs : list Reading) :
  closing w = false ->
  response_queue w = Some <$> rs ->
  acquire_data (Some ACQUISITION_MODE_LATEST) w = (last rs, mkWrapper false []).
Proof.
  intros Hc Hq. unfold acquire_data, get_final_item. rewrite Hc.
  cbn [Z.eqb ACQUISITION_MODE_LATEST ACQUISITION_MODE_KEEP_COMPLETE Pos.eqb].
  rewrite Hq, get_final_loop_readings. cbn. by destruct (last rs).
Qed.


(** X6.  A poison pill on the queue ends the drain: the items behind it stay
    on the queue, and the readings in front of it are lost.  LATEST mode
    returns [None]; KEEP_COMPLETE mode returns the newest completed
    average in front of the pill, or [None] when there is none. *)
Theorem acquire_data_poison_pill (w : WasatchDeviceWrapper)
        (rs : list Reading) (rest : list (option Reading)) :
  closing w = false ->
  response_queue w = (Some <$> rs) ++ None :: rest ->
  acquire_data (Some ACQUISITION_MODE_LATEST) w = (None, mkWrapper false rest)
  /\ acquire_data None w
     = (last (filter (fun r => averaged r = true) rs), mkWrapper false rest).
Proof.
  intros Hc Hq. unfold acquire_data, get_final_item. rewrite Hc.
  cbn [Z.eqb ACQUISITION_MODE_LATEST ACQUISITION_MODE_KEEP_COMPLETE Pos.eqb].
  rewrite Hq, !get_final_loop_poison. cbn. split; [done|].
  by destruct (last (filter _ rs)).
Qed.

End acquire_modes.

(** ** The balancer: what every pass keeps *)

(** The values that the balancer may apply: an integration time between
    10 and 5000 ms, a laser power between 1 and 100 percent. *)
Definition clamped (call : Balance.hardware_call) : Prop :=
  match call with
  | Balance.set_integration_time_ms_call n => 10 <= n <= 5000
  | Balance.set_laser_power_perc_call n => 1 <= n <= 100
  end.

(** [self'] is [self] after some setter calls, all of them clamped. *)
Definition adjusted (self self' : Balance.BalanceAcquisition) : Prop :=
  Balance.same_target self self'
  /\ Balance.mode self' = Balance.mode self
  /\ exists d d' new,
      Balance.device self = Some d /\ Balance.device self' = Some d'
      /\ Balance.applied d' = Balance.applied d ++ new
      /\ Forall clamped new.

Section balance_invariants.

Import Py Balance.

Implicit Types (self : BalanceAcquisition) (rs : list (option Reading)).

Lemma adjusted_refl self d : device self = Some d -> adjusted self self.
Proof.
  intros Hd. split; [apply same_target_refl|]. split; [done|].
  exists d, d, []. by rewrite app_nil_r.
Qed.

Lemma adjusted_trans self1 self2 self3 :
  adjusted self1 self2 -> adjusted self2 self3 -> adjusted self1 self3.
Proof.
  intros (Ht & Hm & d1 & d2 & new & Hd1 & Hd2 & Happ & Hnew)
         (Ht' & Hm' & d2' & d3 & new' & Hd2' & Hd3 & Happ' & Hnew').
  rewrite Hd2 in Hd2'. injection Hd2' as <-.
  split; [by eapply same_target_trans|]. split; [congruence|].
  exists d1, d3, (new ++ new'). split_and!; [done|done| |by apply Forall_app].
  by rewrite Happ', Happ, app_assoc.
Qed.

Lemma adjusted_counter self n d :
  device self = Some d -> adjusted self (with_overshoot_count n self).
Proof.
  intros Hd. split; [by unfold same_target|]. split; [done|].
  exists d, d, []. by rewrite app_nil_r.
Qed.

(** An adjustment that returns has called at most one setter, with a
    clamped value. *)
Lemma adjust_adjusted adjust self peak b self' :
  is_adjust adjust -> adjust self peak = Ok (b, self') -> adjusted self self'.
Proof.
  intros [-> | ->]; unfold adjust_integration, adjust_laser, float_scale;
    destruct (device self) as [d|] eqn:Hd; try done;
    destruct (peak >? intensity self);
    cbn [overshoot_count with_overshoot_count];
    repeat match goal with
           | |- context [if ?c then _ else _] => destruct c
           end;
    cbn [mbind result_bind Py.bind]; try done; intros [= <- <-];
    (split; [by unfold same_target|]); (split; [done|]);
    first
      [ by (exists d, d, []; rewrite app_nil_r)
      | eexists d, _, [_]; cbn [device with_device with_overshoot_count];
        split_and!; [done|reflexivity|reflexivity|];
        apply Forall_singleton; cbn [clamped]; lia ].
Qed.

(** The loop of a pass: the balancer after it differs by clamped setter
    calls only, and the readings left are a suffix of those given. *)
Lemma balance_loop_adjusted adjust rs self d out self' rest :
  is_adjust adjust -> device self = Some d ->
  balance_loop adjust self rs = (out, self', rest) ->
  adjusted self self' /\ suffix rest rs.
Proof.
  intros Hadj. revert self d.
  induction rs as [|r rs IH]; intros self d Hd; cbn [balance_loop].
  { intros [= <- <- <-]. split; [by eapply adjusted_refl|done]. }
  assert (suffix rs (r :: rs)) as Hsuf by (by apply suffix_cons_r).
  destruct r as [r|]; [|intros [= <- <- <-]; split; [by eapply adjusted_refl|done]].
  destruct (spectrum r) as [sp|];
    [|intros [= <- <- <-]; split; [by eapply adjusted_refl|done]].
  destruct (peak_of self sp) as [peak|e];
    [|intros [= <- <- <-]; split; [by eapply adjusted_refl|done]].
  destruct (Z.abs (intensity self - peak) <=? threshold self);
    [intros [= <- <- <-]; split; [by eapply adjusted_refl|done]|].
  destruct (adjust self peak) as [[b self1]|e] eqn:Hadjust;
    [|intros [= <- <- <-]; split; [by eapply adjusted_refl|done]].
  pose proof (adjust_adjusted _ _ _ _ _ Hadj Hadjust) as Hstep.
  destruct b; [|intros [= <- <- <-]; done].
  intros Hloop.
  destruct Hstep as (Ht & Hm & d0 & d1 & new & Hd0 & Hd1 & Happ & Hnew).
  destruct (IH self1 d1 Hd1 Hloop) as [Hrest Hsuf'].
  split; [|by etrans].
  eapply adjusted_trans; [|exact Hrest].
  split; [done|]. split; [done|]. by exists d0, d1, new.
Qed.

(** X7.  Whatever the readings, [balance] calls the setters with clamped values
    only (an integration time of 10 to 5000 ms, a laser power of 1 to 100
    percent), changes neither the target nor the mode, and leaves a suffix
    of the readings. *)
Theorem balance_applies_clamped_values self rs d out self' rest :
  device self = Some d ->
  balance self rs = (out, self', rest) ->
  adjusted self self' /\ suffix rest rs.
Proof.
  intros Hd. unfold balance, balance_pass. rewrite Hd.
  assert (forall adjust rs0 out0 self0 rest0,
             is_adjust adjust ->
             balance_loop adjust (with_overshoot_count 0 self) rs0
             = (out0, self0, rest0) ->
             adjusted self self0 /\ suffix rest0 rs0) as Hpass.
  { intros adjust rs0 out0 self0 rest0 Hadj Hloop.
    destruct (balance_loop_adjusted adjust rs0 (with_overshoot_count 0 self) d
                out0 self0 rest0 Hadj Hd Hloop) as [H1 H2].
    split; [|done]. eapply adjusted_trans; [|exact H1].
    by apply (adjusted_counter self 0 d). }
  destruct (mode self =? INTEGRATION).
  { apply Hpass. by left. }
  destruct (mode self =? LASER).
  { apply Hpass. by right. }
  destruct (balance_loop adjust_laser (with_overshoot_count 0 self) rs)
    as [[out1 self1] rest1] eqn:Hlaser.
  destruct (Hpass _ _ _ _ _ (or_intror eq_refl) Hlaser) as [H1 Hsuf1].
  destruct out1 as [[[|]|]| |];
    try (intros [= <- <- <-]; done).
  destruct H1 as (Ht & Hm & d0 & d1 & new & Hd0 & Hd1 & Happ & Hnew).
  rewrite Hd1. intros Hinteg.
  destruct (balance_loop_adjusted adjust_integration rest1
              (with_overshoot_count 0 self1) d1 out self' rest
              (or_introl eq_refl) Hd1 Hinteg)
    as [H2 Hsuf2].
  split; [|by etrans].
  eapply adjusted_trans; [|eapply adjusted_trans; [|exact H2]].
  - split; [done|]. split; [done|]. by exists d0, d1, new.
  - by apply (adjusted_counter self1 0 d1).
Qed.

(** X8.  Without a device nothing is acquired and nothing is changed:
    [balance] returns [None] in the modes INTEGRATION and LASER, and
    [False] in the combined mode, where the [None] of the laser pass
    counts as a failure. *)
Theorem balance_without_device self rs :
  device self = None ->
  balance self rs
  = (Returned (if (mode self =? INTEGRATION) || (mode self =? LASER)
               then None else Some false), self, rs).
Proof.
  intros Hd. unfold balance, balance_pass. rewrite Hd.
  by destruct (mode self =? INTEGRATION), (mode self =? LASER).
Qed.

(** X9.  A dark spectrum stops the pass with an exception: when the peak is 0
    and the target lies above the threshold, the adjustment divides by the
    peak. *)
Theorem balance_pass_zero_peak adjust self r rest d :
  is_adjust adjust -> device self = Some d ->
  reading_peak self r = Some 0 ->
  0 <= threshold self < intensity self ->
  balance_pass adjust self (r :: rest)
  = (Raised ZeroDivisionError, with_overshoot_count 0 self, rest).
Proof.
  intros Hadj Hd Hpeak Ht. unfold balance_pass. rewrite Hd.
  cbn [balance_loop]. unfold reading_peak in Hpeak.
  destruct r as [r|]; [|done]. destruct (spectrum r) as [sp|]; [|done].
  change (peak_of (with_overshoot_count 0 self) sp) with (peak_of self sp).
  destruct (peak_of self sp) as [peak|]; [|done]. injection Hpeak as ->.
  cbn [intensity threshold with_overshoot_count].
  rewrite Z.sub_0_r.
  replace (Z.abs (intensity self) <=? threshold self) with false
    by (symmetry; apply Z.leb_gt; lia).
  destruct Hadj as [-> | ->]; unfold adjust_integration, adjust_laser;
    cbn [device with_overshoot_count intensity]; rewrite Hd;
    replace (0 >? intensity self) with false
      by (symmetry; rewrite Z.gtb_ltb; apply Z.ltb_ge; lia);
    done.
Qed.

(** X10.  A pass returns [True] only on a reading whose peak is within the
    threshold of the target: the readings in front of it were consumed,
    those behind it are left. *)
Theorem balance_pass_true adjust self rs self' rest :
  is_adjust adjust ->
  balance_pass adjust self rs = (Returned (Some true), self', rest) ->
  exists pre r peak,
    rs = pre ++ r :: rest
    /\ reading_peak self r = Some peak
    /\ Z.abs (intensity self - peak) <= threshold self.
Proof.
  intros Hadj. unfold balance_pass.
  destruct (device self) as [d|] eqn:Hd; [|done].
  assert (same_target self (with_overshoot_count 0 self)) as Hsame
    by (by unfold same_target).
  revert Hsame. clear Hd. generalize (with_overshoot_count 0 self) as self0.
  induction rs as [|r rs IH]; intros self0 Hsame; cbn [balance_loop];
    [done|].
  destruct r as [r|]; [|done].
  destruct (spectrum r) as [sp|] eqn:Hsp; [|done].
  destruct (peak_of self0 sp) as [peak|] eqn:Hpeak; [|done].
  destruct Hsame as (Hi & Ht & Hp).
  destruct (Z.abs (intensity self0 - peak) <=? threshold self0) eqn:Hle.
  - intros [= <- <-]. exists [], (Some r), peak. split; [done|].
    apply Z.leb_le in Hle. rewrite Hi, Ht in Hle. split; [|done].
    unfold reading_peak. rewrite Hsp. unfold peak_of in *.
    rewrite <- Hp. by rewrite Hpeak.
  - destruct (adjust self0 peak) as [[b self1]|] eqn:Hadjust; [|done].
    destruct b; [|done]. intros Hloop.
    destruct (adjust_adjusted _ _ _ _ _ Hadj Hadjust) as (Hsame1 & _).
    destruct (IH self1) as (pre & r' & peak' & -> & Hr' & Hle');
      [eapply same_target_trans; [|exact Hsame1]; by unfold same_target
      |done|].
    exists (Some r :: pre), r', peak'. done.
Qed.

End balance_invariants.

(** ** The EEPROM: printable text *)

(** A character of the printable ASCII range, 32 to 126. *)
Definition printable_char (c : ascii) : Prop :=
  32 <= Z.of_N (N_of_ascii c) <= 126.

Section printable_facts.

Import Py EEPROM.

Lemma code_ascii_of_byte (c : byte) :
  Z.of_N (N_of_ascii (ascii_of_byte c)) = Z_of_byte c.
Proof. by destruct c. Qed.

(** X11.  Whatever the bytes, the text that [printable] makes of them holds
    printable ASCII characters only, and no more characters than there are
    bytes. *)
Theorem printable_is_printable (buf : list byte) :
  Forall printable_char (list_ascii_of_string (printable buf))
  /\ (String.length (printable buf) <= length buf)%nat.
Proof.
  induction buf as [|c buf [IH1 IH2]]; [by split|].
  cbn [printable].
  destruct ((31 <? Z_of_byte c) && (Z_of_byte c <? 127)) eqn:Hc.
  - apply andb_true_iff in Hc as [H1 H2].
    apply Z.ltb_lt in H1. apply Z.ltb_lt in H2.
    cbn [list_ascii_of_string String.length length]. split; [|lia].
    constructor; [|done]. unfold printable_char.
    rewrite code_ascii_of_byte. lia.
  - destruct (Z_of_byte c =? 0).
    + split; [constructor|cbn; lia].
    + cbn [list_ascii_of_string String.length length]. split; [|lia].
      constructor; [|done]. unfold printable_char. cbn. lia.
Qed.

(** X12.  [printable] stops at the first NUL: what follows it does not show. *)
Theorem printable_stops_at_nul (front back : list byte) :
  printable (front ++ x00 :: back) = printable front.
Proof.
  induction front as [|c front IH]; [done|].
  cbn [app printable]. rewrite IH. done.
Qed.

End printable_facts.

(** ** The EEPROM: [unpack] and [parse] on arbitrary buffers *)

Section unpack_robust.

Import Py EEPROM.

(** X13.  For a page that is in the list, [unpack] never raises: it returns
    [None] for a page that is [None] or too short for the field, and 0 for
    a numeric field whose length is not the size of its format. *)
Theorem unpack_in_range (bufs : list page) p s l t :
  (p < length bufs)%nat ->
  (exists v, unpack bufs (p, s, l) t = Ok v)
  /\ (bufs !! p = Some None -> unpack bufs (p, s, l) t = Ok VNone)
  /\ (forall buf, bufs !! p = Some (Some buf) -> (length buf < s + l)%nat ->
        unpack bufs (p, s, l) t = Ok VNone)
  /\ (forall buf, bufs !! p = Some (Some buf) -> (s + l <= length buf)%nat ->
        t <> fmt_s -> calcsize t <> l ->
        unpack bufs (p, s, l) t = Ok (VInt 0)).
Proof.
  intros Hp. split_and!.
  - by apply unpack_succeeds.
  - apply unpack_missing_page.
  - intros buf. apply unpack_short_page.
  - intros buf. apply unpack_numeric_failure.
Qed.

Ltac parse_step bufs :=
  first
    [ match goal with
      | |- context [unpack bufs (?p, ?s, ?l) ?t] =>
          let v := fresh "v" in
          destruct (unpack_succeeds bufs p s l t) as [v ->]; [lia|]
      end
    | rewrite bind_if_Ok ];
  cbn [mbind result_bind Py.bind].

(** X14.  With six buffers or more, of whatever lengths, [parse] returns as
    long as page 4 is there: the record holds the buffers, the first 63
    bytes of page 4 as user data and their printable text, and the write
    buffers it had. *)
Theorem parse_returns self (bufs : list page) buf4 :
  (6 <= length bufs)%nat -> bufs !! 4%nat = Some (Some buf4) ->
  exists e,
    parse self bufs = Ok e
    /\ buffers e = bufs
    /\ user_data e = Some (take 63 buf4)
    /\ user_text e = VStr (printable (take 63 buf4))
    /\ write_buffers e = write_buffers self.
Proof.
  intros Hlen H4. unfold parse.
  replace (length bufs <? 6)%nat with false by (symmetry; apply Nat.ltb_ge; lia).
  unfold read_eeprom. cbn [buffers with_buffers].
  repeat parse_step bufs. rewrite H4.
  cbn [mbind result_bind Py.bind].
  destruct (unpack_bad_pixel_slots_succeeds bufs Hlen) as [slots ->].
  cbn [mbind result_bind Py.bind].
  repeat parse_step bufs. eexists. split; [reflexivity|]. done.
Qed.

End unpack_robust.

(** ** The EEPROM: what [pack] and [generate_write_buffers] write *)

Section pack_robust.

Import Py EEPROM.

Implicit Types (wb : list (list byte)) (a b : address) (t : data_type).

(** X15.  A call of [pack] for a field of the layout changes the bytes of that
    field only: every field that shares no byte with it reads as before,
    and the pages keep their number and their lengths. *)
Theorem pack_writes_its_field_only wb a t v wb1 :
  pages_ok wb -> field_ok (a, t) = true -> pack wb a t v = Ok wb1 ->
  pages_ok wb1
  /\ forall b, disjoint a b = true -> region wb1 b = region wb b.
Proof.
  intros Hwb Hok Hpack.
  destruct (pack_regions _ _ _ _ _ Hwb Hok Hpack) as (Hwb1 & _ & Hframe).
  done.
Qed.

(** X16.  Packing a string never fails: the string is cut to the length of the
    field, and nothing is padded, so a shorter string leaves the bytes
    behind it as they were.  Any value that is not a string raises
    [TypeError]. *)
Theorem pack_string_field wb p s l (v : value) :
  pages_ok wb -> field_ok ((p, s, l), fmt_s) = true ->
  match v with
  | VStr str =>
      exists wb1,
        pack wb (p, s, l) fmt_s v = Ok wb1
        /\ region wb1 (p, s, l)
           = take l (bytes_of_string str)
             ++ drop (length (take l (bytes_of_string str))) (region wb (p, s, l))
  | _ => pack wb (p, s, l) fmt_s v = Raise TypeError
  end.
Proof.
  intros Hwb Hok. pose proof Hok as Hok'. unfold field_ok in Hok'.
  apply andb_true_iff in Hok' as [Hok' _].
  apply andb_true_iff in Hok' as [Hp Hend].
  apply Nat.ltb_lt in Hp. apply Nat.leb_le in Hend.
  destruct (lookup_lt_is_Some_2 wb p) as [buf Hbuf]; [rewrite (proj1 Hwb); lia|].
  pose proof (pages_ok_lookup _ _ _ Hwb Hbuf) as Hlen.
  destruct v as [| | | |str];
    try (unfold pack; cbn [is_unsigned_HI andb]; rewrite Hbuf;
         by replace (63 <? s + l)%nat with false
           by (symmetry; apply Nat.ltb_ge; lia)).
  assert (call_bytes fmt_s l (VStr str) = Ok (take l (bytes_of_string str)))
    as Hbs by done.
  assert (length (take l (bytes_of_string str)) <= l)%nat as Hl
    by (rewrite length_take; lia).
  pose proof (pack_stores _ _ _ _ _ _ _ _ Hbuf Hlen Hend Hbs Hl) as Hpack.
  eexists. split; [exact Hpack|].
  destruct (pack_regions _ _ _ _ _ Hwb Hok Hpack) as (_ & (bs & Hbs' & Hreg) & _).
  cbn [snd] in Hbs'. rewrite Hbs in Hbs'. injection Hbs' as <-. exact Hreg.
Qed.

Lemma c_string_writeback (x : list byte) :
  c_string (bytes_of_string (c_string x)
            ++ drop (length (bytes_of_string (c_string x))) x)
  = c_string x.
Proof.
  induction x as [|c x IH]; [done|].
  cbn [c_string]. destruct (Z_of_byte c =? 0) eqn:Hc.
  { cbn [bytes_of_string list_ascii_of_string map length drop app c_string].
    by rewrite Hc. }
  unfold bytes_of_string in *.
  cbn [list_ascii_of_string map app length drop c_string].
  rewrite byte_of_ascii_of_byte, Hc. by rewrite IH.
Qed.

(** The bytes stored for the value of a field, in front of what the field
    held behind them, give the same value. *)
Lemma field_writeback t l (x bs : list byte) :
  length x = l -> field_ok ((0, 0, l)%nat, t) = true ->
  call_bytes t l (field_value t x) = Ok bs ->
  field_value t (bs ++ drop (length bs) x) = field_value t x.
Proof.
  intros Hx Hok Hbs.
  destruct (field_roundtrip t l x Hx Hok) as (bs' & Hbs' & Hl & Hval).
  rewrite Hbs in Hbs'. apply Ok_inj in Hbs'. subst bs'.
  assert (t = fmt_s \/ t <> fmt_s) as [->|Ht] by (destruct t; auto).
  - unfold call_bytes, field_value in Hbs. cbn [is_unsigned_HI andb] in Hbs.
    apply Ok_inj in Hbs. subst bs.
    pose proof (length_bytes_of_c_string x) as Hc.
    rewrite take_ge by lia. unfold field_value. f_equal.
    apply c_string_writeback.
  - assert (length bs = l) as Hlen.
    { unfold field_ok in Hok. apply andb_true_iff in Hok as [_ Hsize].
      unfold call_bytes in Hbs.
      destruct t; try done; apply length_struct_pack in Hbs;
        apply Nat.eqb_eq in Hsize; by rewrite Hbs. }
    rewrite Hlen, Nat.sub_diag in Hval. cbn [replicate] in Hval.
    rewrite drop_ge by lia. exact Hval.
Qed.

(** X17.  The pages on which [unpack] read a value take that value back: [pack]
    succeeds, and the field reads the same afterwards, whatever the format
    and whatever the bytes were. *)
Theorem pack_what_was_unpacked wb a t :
  pages_ok wb -> field_ok (a, t) = true ->
  exists wb1,
    pack wb a t (field_value t (region wb a)) = Ok wb1
    /\ pages_ok wb1
    /\ unpack (Some <$> wb1) a t = unpack (Some <$> wb) a t.
Proof.
  intros Hwb Hok. destruct a as [[p s] l].
  pose proof Hok as Hok'. unfold field_ok in Hok'.
  apply andb_true_iff in Hok' as [Hok' Hsize].
  apply andb_true_iff in Hok' as [Hp Hend].
  apply Nat.ltb_lt in Hp. apply Nat.leb_le in Hend.
  assert (readable (p, s, l) = true) as Hread.
  { unfold readable. apply andb_true_iff. split; [by apply Nat.ltb_lt|].
    apply Nat.leb_le. lia. }
  assert (field_ok ((0, 0, l)%nat, t) = true) as Hok0.
  { unfold field_ok. rewrite Hsize, andb_true_r. apply andb_true_iff.
    split; [done|]. apply Nat.leb_le. lia. }
  pose proof (length_region wb (p, s, l) Hwb Hread) as Hx. cbn [snd] in Hx.
  destruct (lookup_lt_is_Some_2 wb p) as [buf Hbuf]; [rewrite (proj1 Hwb); lia|].
  pose proof (pages_ok_lookup _ _ _ Hwb Hbuf) as Hlen.
  destruct (field_roundtrip t l (region wb (p, s, l)) Hx Hok0) as (bs & Hbs & Hl & _).
  pose proof (pack_stores _ _ _ _ _ _ _ _ Hbuf Hlen Hend Hbs Hl) as Hpack.
  eexists. split; [exact Hpack|].
  destruct (pack_regions _ _ _ _ _ Hwb Hok Hpack) as (Hwb1 & (bs' & Hbs' & Hreg) & _).
  split; [done|]. rewrite !unpack_pages by done. f_equal.
  cbn [snd] in Hbs'. rewrite Hbs in Hbs'. apply Ok_inj in Hbs'. subst bs'.
  rewrite Hreg. by apply (field_writeback t l).
Qed.

End pack_robust.

(** ** The EEPROM: the pages that [generate_write_buffers] returns *)

(** The fields that [generate_write_buffers] writes for a record; their
    addresses are the same for every record. *)
Definition written_fields (self : EEPROM.EEPROM) : list EEPROM.address :=
  (fun call => fst (fst call))
    <$> (EEPROM.field_calls self
         ++ EEPROM.bad_pixel_calls (EEPROM.bad_pixels self)
         ++ [((5, 30, 16)%nat, EEPROM.fmt_s,
              Py.Ok (EEPROM.product_configuration self))]).

Section write_buffer_facts.

Import Py EEPROM.

Implicit Types (wb : list (list byte)) (b : address).

Lemma calls_leave_revisions self (pixels : list (option Z)) p :
  (p < 6)%nat ->
  forallb (fun g => disjoint (p, 63, 1)%nat (fst g))
    (fst <$> (field_calls self ++ bad_pixel_calls pixels
              ++ [((5, 30, 16)%nat, fmt_s, Ok (product_configuration self))]))
  = true.
Proof.
  intros Hp. do 6 (destruct p as [|p]; [vm_compute; reflexivity|]). lia.
Qed.

Lemma last_byte_of_region wb p r :
  region wb (p, 63, 1)%nat = [r] ->
  exists buf, wb !! p = Some buf /\ buf !! 63%nat = Some r.
Proof.
  cbn [region]. destruct (wb !! p) as [buf|]; [|done].
  intros H. exists buf. split; [done|].
  apply (f_equal (fun l => l !! 0%nat)) in H.
  rewrite lookup_slice in H. rewrite decide_True in H by lia.
  by rewrite Nat.add_0_r in H.
Qed.

(** X18.  Whenever [generate_write_buffers] returns, it returns six pages of 64
    bytes whose last bytes are the revisions 5, 1, 2, 255, 1 and 1: no
    field of the record reaches them. *)
Theorem generate_write_buffers_revisions self wb :
  generate_write_buffers self = Ok wb ->
  pages_ok wb
  /\ (fun buf => buf !! 63%nat) <$> wb
     = Some <$> [x05; x01; x02; xff; x01; x01].
Proof.
  unfold generate_write_buffers. intros Hwb.
  pose proof (calls_layout self (bad_pixels self)) as Hlayout.
  assert (forall p, (p < 6)%nat ->
            region wb (p, 63, 1)%nat = region stamped_buffers (p, 63, 1)%nat)
    as Hrev.
  { intros p Hp.
    by destruct (pack_all_frame _ _ _ (p, 63, 1)%nat pages_ok_stamped Hlayout
                   Hwb (calls_leave_revisions self (bad_pixels self) p Hp)). }
  destruct (pack_all_regions _ _ _ pages_ok_stamped Hlayout Hwb) as [Hok _].
  split; [done|]. destruct Hok as [Hlen _].
  apply list_eq. intros p. rewrite !list_lookup_fmap.
  destruct (decide (p < 6)%nat) as [Hp|Hp].
  - specialize (Hrev p Hp).
    do 6 (destruct p as [|p];
          [vm_compute (region stamped_buffers _) in Hrev;
           destruct (last_byte_of_region wb _ _ Hrev) as (buf & -> & Hbuf);
           cbn; by rewrite Hbuf|]).
    lia.
  - rewrite (lookup_ge_None_2 wb) by lia.
    by rewrite lookup_ge_None_2 by (cbn; lia).
Qed.

(** X19.  The bytes that no field covers are those of the fresh buffers: NUL, or
    the revision in byte 63. *)
Theorem generate_write_buffers_unused self wb b :
  generate_write_buffers self = Ok wb ->
  forallb (fun a => disjoint b a) (written_fields self) = true ->
  region wb b = region stamped_buffers b.
Proof.
  unfold generate_write_buffers, written_fields. intros Hwb Hb.
  pose proof (calls_layout self (bad_pixels self)) as Hlayout.
  destruct (pack_all_frame _ _ _ b pages_ok_stamped Hlayout Hwb) as [_ H];
    [|done].
  rewrite forallb_forall in Hb. apply forallb_forall. intros g Hg.
  apply Hb. apply in_map_iff in Hg as (call & <- & Hcall).
  apply in_map_iff. by exists call.
Qed.

End write_buffer_facts.

(** ** The EEPROM: when coefficients look valid *)

Section coefficient_soundness.

Import Py EEPROM.

(** The value that the default pattern has at index [i]. *)
Definition default_coeff (i : nat) : float := if (i =? 1)%nat then 1%float else 0%float.

Lemma scan_default_departs (coeffs : list float) i :
  scan_default i coeffs = not_default ->
  exists j c,
    coeffs !! j = Some c
    /\ PrimFloat.eqb c (default_coeff (i + j)) = false
    /\ Forall (fun c => PrimFloat.is_nan c = false) (take (S j) coeffs)
    /\ forall k c', (k < j)%nat -> coeffs !! k = Some c' ->
         PrimFloat.eqb c' (default_coeff (i + k)) = true.
Proof.
  revert i. induction coeffs as [|c coeffs IH]; intros i; [done|].
  cbn [scan_default]. destruct (PrimFloat.is_nan c) eqn:Hnan; [done|].
  assert (PrimFloat.eqb c (default_coeff i) = false
          \/ PrimFloat.eqb c (default_coeff i) = true
             /\ (scan_default i (c :: coeffs) = not_default ->
                 scan_default (S i) coeffs = not_default)) as Hcase.
  { unfold default_coeff. cbn [scan_default]. rewrite Hnan.
    destruct (i =? 1)%nat;
      match goal with
      | |- context [PrimFloat.eqb c ?d] => destruct (PrimFloat.eqb c d)
      end; cbn [negb]; auto. }
  destruct Hcase as [Hne | [Heq Hnext]].
  - intros _. exists 0%nat, c. rewrite Nat.add_0_r.
    split_and!; [done|done|by repeat constructor|intros; lia].
  - intros Hscan.
    assert (scan_default (S i) coeffs = not_default) as Hrest.
    { apply Hnext. cbn [scan_default]. by rewrite Hnan. }
    destruct (IH _ Hrest) as (j & c' & Hj & Hdep & Hnans & Hbefore).
    exists (S j), c'. split_and!.
    + done.
    + by replace (i + S j)%nat with (S i + j)%nat by lia.
    + cbn [take]. by constructor.
    + intros [|k] c'' Hk Hc''.
      * injection Hc'' as <-. by rewrite Nat.add_0_r.
      * replace (i + S k)%nat with (S i + k)%nat by lia.
        apply Hbefore; [lia|done].
Qed.

(** X20.  [coeffs_look_valid] returns [True] only for a list of the expected
    length that is neither all -1 nor all 0 and that leaves the default
    pattern 0, 1, 0... at some index, without a NaN up to that index. *)
Theorem coeffs_look_valid_true (coeffs : list float) (count : option nat) :
  coeffs_look_valid (Some coeffs) count = Ok true ->
  (forall n, count = Some n -> length coeffs = n)
  /\ all_equal (-1)%float coeffs = false
  /\ all_equal 0%float coeffs = false
  /\ exists j c,
      coeffs !! j = Some c
      /\ PrimFloat.eqb c (default_coeff j) = false
      /\ Forall (fun c => PrimFloat.is_nan c = false) (take (S j) coeffs)
      /\ forall k c', (k < j)%nat -> coeffs !! k = Some c' ->
           PrimFloat.eqb c' (default_coeff k) = true.
Proof.
  unfold coeffs_look_valid.
  destruct (match count with
            | Some n => negb (length coeffs =? n)%nat
            | None => false
            end) eqn:Hcount; [done|].
  destruct (scan_default 0 coeffs) eqn:Hscan; try done.
  destruct (all_equal (-1) coeffs) eqn:Hminus; [done|].
  destruct (all_equal 0 coeffs) eqn:Hzero; [done|]. intros _.
  split_and!; try done.
  - intros n ->. apply negb_false_iff in Hcount. by apply Nat.eqb_eq.
  - apply (scan_default_departs coeffs 0 Hscan).
Qed.

End coefficient_soundness.

(** ** Examples for the statements above *)

Lemma dedupe_keeps_last_witness :
  Wrapper.dedupe queue_a_b_a
  = Py.Ok [Some (mkControl "b" 2); Some (mkControl "a" 3)]
  /\ [Some (mkControl "b" 2); Some (mkControl "a" 3)] ⊆ queue_a_b_a
  /\ last [Some (mkControl "b" 2); Some (mkControl "a" 3)] = last queue_a_b_a.
Proof.
  assert (Wrapper.dedupe queue_a_b_a
          = Py.Ok [Some (mkControl "b" 2); Some (mkControl "a" 3)]) as H
    by (vm_compute; reflexivity).
  split; [exact H|]. exact (dedupe_keeps_last queue_a_b_a _ H).
Defined.

(** Two settings and the poison pill, each once. *)
Definition queue_a_b_pill : list Wrapper.command :=
  [Some (mkControl "a" 1); Some (mkControl "b" 2); None].

Lemma dedupe_distinct_settings_witness :
  NoDup (Wrapper.key_of <$> queue_a_b_pill)
  /\ Wrapper.dedupe queue_a_b_pill = Py.Ok queue_a_b_pill.
Proof.
  assert (NoDup (Wrapper.key_of <$> queue_a_b_pill)) as H.
  { apply (bool_decide_unpack _). vm_compute. exact I. }
  split; [exact H|]. exact (dedupe_distinct_settings queue_a_b_pill H).
Defined.

(** A wrapper with two partial readings, an averaged one and a partial
    one on its queue. *)
Definition busy_wrapper : Wrapper.WasatchDeviceWrapper :=
  Wrapper.mkWrapper false
    (Some <$> [partial_reading 1; partial_reading 2; averaged_reading 3;
               partial_reading 4]).

Lemma acquire_data_latest_witness :
  Wrapper.closing busy_wrapper = false
  /\ Wrapper.acquire_data (Some Wrapper.ACQUISITION_MODE_LATEST) busy_wrapper
     = (Some (partial_reading 4), Wrapper.mkWrapper false []).
Proof.
  split; [reflexivity|].
  exact (acquire_data_latest busy_wrapper
           [partial_reading 1; partial_reading 2; averaged_reading 3;
            partial_reading 4] eq_refl eq_refl).
Defined.


Lemma acquire_data_poison_pill_witness :
  let w := Wrapper.mkWrapper false
             ((Some <$> [averaged_reading 1; partial_reading 2])
              ++ None :: [Some (partial_reading 3)]) in
  Wrapper.acquire_data (Some Wrapper.ACQUISITION_MODE_LATEST) w
  = (None, Wrapper.mkWrapper false [Some (partial_reading 3)])
  /\ Wrapper.acquire_data None w
     = (Some (averaged_reading 1),
        Wrapper.mkWrapper false [Some (partial_reading 3)]).
Proof.
  exact (acquire_data_poison_pill
           (Wrapper.mkWrapper false
              ((Some <$> [averaged_reading 1; partial_reading 2])
               ++ None :: [Some (partial_reading 3)]))
           [averaged_reading 1; partial_reading 2] [Some (partial_reading 3)]
           eq_refl eq_refl).
Defined.

(** A balancer in the combined mode, at 4000 ms and 80 percent. *)
Definition combined_balancer : Balance.BalanceAcquisition :=
  Balance.mkBalance Balance.LASER_THEN_INTEGRATION 45000 2500 None
    (Some (Balance.mkDevice 4000 80 [])) 0.

(** A reading without light. *)
Definition dark_reading : option Reading :=
  Some (mkReading 0 false (Some [0; 0; 0]) None).

(** The laser pass halves the power and raises it again; the integration
    pass halves the time twice. *)
Lemma balance_applies_clamped_values_witness :
  let rs := [reading_with_peak 60000; reading_with_peak 20000;
             reading_with_peak 44000; reading_with_peak 65000;
             reading_with_peak 10; reading_with_peak 45000; None] in
  exists out self' rest,
    Balance.balance combined_balancer rs = (out, self', rest)
    /\ out = Balance.Returned (Some true) /\ rest = [None]
    /\ Balance.device self'
       = Some (Balance.mkDevice 5000 90
                 [Balance.set_laser_power_perc_call 40;
                  Balance.set_laser_power_perc_call 90;
                  Balance.set_integration_time_ms_call 2000;
                  Balance.set_integration_time_ms_call 5000])
    /\ adjusted combined_balancer self' /\ suffix rest rs.
Proof.
  intros rs.
  destruct (Balance.balance combined_balancer rs) as [[out self'] rest] eqn:H.
  exists out, self', rest. split; [reflexivity|].
  pose proof (balance_applies_clamped_values combined_balancer rs _ out self'
                rest eq_refl H) as Hadjusted.
  vm_compute in H. injection H as <- <- <-.
  split; [reflexivity|]. split; [reflexivity|]. split; [reflexivity|].
  exact Hadjusted.
Defined.

Lemma balance_without_device_witness :
  let self := Balance.mkBalance Balance.LASER_THEN_INTEGRATION 45000 2500
                None None 0 in
  Balance.balance self [reading_with_peak 60000]
  = (Balance.Returned (Some false), self, [reading_with_peak 60000]).
Proof.
  exact (balance_without_device
           (Balance.mkBalance Balance.LASER_THEN_INTEGRATION 45000 2500
              None None 0)
           [reading_with_peak 60000] eq_refl).
Defined.

Lemma balance_pass_zero_peak_witness :
  Balance.balance_pass Balance.adjust_integration default_balancer
    [dark_reading; reading_with_peak 45000]
  = (Balance.Raised Py.ZeroDivisionError, default_balancer,
     [reading_with_peak 45000]).
Proof.
  refine (balance_pass_zero_peak Balance.adjust_integration default_balancer
            dark_reading [reading_with_peak 45000] _ _ eq_refl eq_refl _).
  - by left.
  - cbn. lia.
Defined.

Lemma balance_pass_true_witness :
  let rs := [reading_with_peak 60000; reading_with_peak 46000;
             reading_with_peak 1] in
  exists self' pre r peak,
    Balance.balance_pass Balance.adjust_integration default_balancer rs
    = (Balance.Returned (Some true), self', [reading_with_peak 1])
    /\ rs = pre ++ r :: [reading_with_peak 1]
    /\ Balance.reading_peak default_balancer r = Some peak
    /\ Z.abs (Balance.intensity default_balancer - peak)
       <= Balance.threshold default_balancer.
Proof.
  intros rs.
  eassert (Balance.balance_pass Balance.adjust_integration default_balancer rs
           = (Balance.Returned (Some true), _, [reading_with_peak 1])) as H
    by (vm_compute; reflexivity).
  destruct (balance_pass_true Balance.adjust_integration default_balancer rs
              _ _ (or_introl eq_refl) H) as (pre & r & peak & H1 & H2 & H3).
  eexists _, pre, r, peak. split; [exact H|]. done.
Defined.

Lemma unpack_in_range_witness :
  EEPROM.unpack pages_without_page_4 (4, 0, 2)%nat EEPROM.fmt_H
  = Py.Ok EEPROM.VNone
  /\ EEPROM.unpack pages_without_page_4 (0, 0, 2)%nat EEPROM.fmt_H
     = Py.Ok EEPROM.VNone
  /\ EEPROM.unpack pages_without_page_4 (1, 0, 3)%nat EEPROM.fmt_H
     = Py.Ok (EEPROM.VInt 0).
Proof.
  split_and!.
  - refine (proj1 (proj2 (unpack_in_range pages_without_page_4 4 0 2
                            EEPROM.fmt_H _)) eq_refl). cbn. lia.
  - refine (proj1 (proj2 (proj2 (unpack_in_range pages_without_page_4 0 0 2
                                   EEPROM.fmt_H _))) [x00] eq_refl _);
      cbn; lia.
  - refine (proj2 (proj2 (proj2 (unpack_in_range pages_without_page_4 1 0 3
                                   EEPROM.fmt_H _))) (repeat x00 64) eq_refl
              _ _ _); cbn; (lia || discriminate).
Defined.

(** Six pages of one byte each. *)
Definition short_pages : list (option (list byte)) := replicate 6 (Some [x41]).

Lemma parse_returns_witness :
  exists e,
    EEPROM.parse (sample_record 0 0 0 1024) short_pages = Py.Ok e
    /\ EEPROM.buffers e = short_pages
    /\ EEPROM.user_data e = Some [x41]
    /\ EEPROM.user_text e = EEPROM.VStr "A"
    /\ EEPROM.write_buffers e = [].
Proof.
  refine (parse_returns (sample_record 0 0 0 1024) short_pages [x41] _ eq_refl).
  cbn. lia.
Defined.

Lemma pack_writes_its_field_only_witness :
  exists wb1,
    EEPROM.pack EEPROM.stamped_buffers (2, 16, 2)%nat EEPROM.fmt_H (EEPROM.VInt 1024)
    = Py.Ok wb1
    /\ EEPROM.pages_ok wb1
    /\ EEPROM.region wb1 (2, 18, 1)%nat = [x00]
    /\ EEPROM.region wb1 (2, 63, 1)%nat = [x02].
Proof.
  eassert (EEPROM.pack EEPROM.stamped_buffers (2, 16, 2)%nat EEPROM.fmt_H
             (EEPROM.VInt 1024) = Py.Ok _) as H by (vm_compute; reflexivity).
  destruct (pack_writes_its_field_only EEPROM.stamped_buffers (2, 16, 2)%nat
              EEPROM.fmt_H (EEPROM.VInt 1024) _ pages_ok_stamped eq_refl H)
    as [Hok Hframe].
  eexists. split; [exact H|]. split; [exact Hok|]. split.
  - exact (Hframe (2, 18, 1)%nat eq_refl).
  - exact (Hframe (2, 63, 1)%nat eq_refl).
Defined.

Lemma pack_string_field_witness :
  (exists wb1,
      EEPROM.pack EEPROM.stamped_buffers (1, 60, 3)%nat EEPROM.fmt_s
        (EEPROM.VStr "MZ42") = Py.Ok wb1
      /\ EEPROM.region wb1 (1, 60, 3)%nat = [x4d; x5a; x34])
  /\ EEPROM.pack EEPROM.stamped_buffers (1, 60, 3)%nat EEPROM.fmt_s EEPROM.VNone
     = Py.Raise Py.TypeError.
Proof.
  split.
  - destruct (pack_string_field EEPROM.stamped_buffers 1 60 3
                (EEPROM.VStr "MZ42") pages_ok_stamped eq_refl)
      as (wb1 & Hpack & Hreg).
    exists wb1. split; [exact Hpack|]. rewrite Hreg. reflexivity.
  - exact (pack_string_field EEPROM.stamped_buffers 1 60 3 EEPROM.VNone
             pages_ok_stamped eq_refl).
Defined.

Lemma pack_what_was_unpacked_witness :
  EEPROM.pages_ok format_4_pages
  /\ exists wb1,
      EEPROM.pack format_4_pages (0, 0, 16)%nat EEPROM.fmt_s
        (EEPROM.VStr "WP-785") = Py.Ok wb1
      /\ EEPROM.pages_ok wb1
      /\ EEPROM.unpack (Some <$> wb1) (0, 0, 16)%nat EEPROM.fmt_s
         = Py.Ok (EEPROM.VStr "WP-785").
Proof.
  assert (EEPROM.pages_ok format_4_pages) as H
    by (split; [reflexivity|repeat constructor]).
  split; [exact H|].
  destruct (pack_what_was_unpacked format_4_pages (0, 0, 16)%nat EEPROM.fmt_s
              H eq_refl) as (wb1 & Hpack & Hok & Hsame).
  exists wb1. split; [exact Hpack|]. split; [exact Hok|].
  rewrite Hsame. reflexivity.
Defined.

Lemma generate_write_buffers_revisions_witness :
  exists wb,
    EEPROM.generate_write_buffers (sample_record 0 10 1024 1024) = Py.Ok wb
    /\ EEPROM.pages_ok wb
    /\ (fun buf => buf !! 63%nat) <$> wb
       = Some <$> [x05; x01; x02; xff; x01; x01].
Proof.
  eassert (EEPROM.generate_write_buffers (sample_record 0 10 1024 1024)
           = Py.Ok _) as H by (vm_compute; reflexivity).
  eexists. split; [exact H|].
  exact (generate_write_buffers_revisions _ _ H).
Defined.

(** Byte 18 of page 2 lies between two fields. *)
Lemma generate_write_buffers_unused_witness :
  exists wb,
    EEPROM.generate_write_buffers (sample_record 0 10 1024 1024) = Py.Ok wb
    /\ EEPROM.region wb (2, 18, 1)%nat = [x00].
Proof.
  eassert (EEPROM.generate_write_buffers (sample_record 0 10 1024 1024)
           = Py.Ok _) as H by (vm_compute; reflexivity).
  eexists. split; [exact H|].
  refine (generate_write_buffers_unused _ _ (2, 18, 1)%nat H _).
  vm_compute. reflexivity.
Defined.

Lemma coeffs_look_valid_true_witness :
  EEPROM.coeffs_look_valid (Some [0.5; 0.25; 0; 0]%float) (Some 4%nat)
  = Py.Ok true
  /\ EEPROM.all_equal 0%float [0.5; 0.25; 0; 0]%float = false
  /\ exists j c,
      [0.5; 0.25; 0; 0]%float !! j = Some c
      /\ PrimFloat.eqb c (default_coeff j) = false.
Proof.
  assert (EEPROM.coeffs_look_valid (Some [0.5; 0.25; 0; 0]%float) (Some 4%nat)
          = Py.Ok true) as H by (vm_compute; reflexivity).
  split; [exact H|].
  destruct (coeffs_look_valid_true _ _ H)
    as (_ & _ & Hzero & j & c & Hj & Hc & _).
  split; [exact Hzero|]. by exists j, c.
Defined.

(** ** The EEPROM: writing a record and reading it *)

(** A text of printable ASCII characters. *)
Definition printable_text (s : string) : Prop :=
  Forall printable_char (list_ascii_of_string s).

(** A value that a field of format [t] and of [l] bytes holds without
    loss: a string without NUL that fits, an integer in the range of the
    format, a Boolean, a binary32 number (one NaN). *)
Definition storable (t : EEPROM.data_type) (l : nat) (v : EEPROM.value) : Prop :=
  match t, v with
  | EEPROM.fmt_s, EEPROM.VStr s =>
      (String.length s <= l)%nat
      /\ Forall (fun c => c <> "000"%char) (list_ascii_of_string s)
  | EEPROM.fmt_B, EEPROM.VInt z => 0 <= z <= 255
  | EEPROM.fmt_bool, EEPROM.VBool _ => True
  | EEPROM.fmt_h, EEPROM.VInt z => - 2 ^ 15 <= z <= 2 ^ 15 - 1
  | EEPROM.fmt_H, EEPROM.VInt z => 0 <= z <= 2 ^ 16 - 1
  | EEPROM.fmt_I, EEPROM.VInt z => 0 <= z <= 2 ^ 32 - 1
  | EEPROM.fmt_f, EEPROM.VFloat x =>
      0 <= EEPROM.f32_bits x < 2 ^ 32
      /\ (EEPROM.f32_is_nan (EEPROM.f32_bits x) = true -> x = EEPROM.f32_nan)
  | _, _ => False
  end.

(** [n] coefficients, each a binary32 number. *)
Definition coefficients (n : nat) (coeffs : list EEPROM.value) : Prop :=
  length coeffs = n /\ Forall (storable EEPROM.fmt_f 4) coeffs.

(** A record whose every field holds a value that its place on the pages
    holds without loss. *)
Definition well_formed (e : EEPROM.EEPROM) : Prop :=
  storable EEPROM.fmt_s 16 (EEPROM.model e)
  /\ storable EEPROM.fmt_s 16 (EEPROM.serial_number e)
  /\ storable EEPROM.fmt_I 4 (EEPROM.baud_rate e)
  /\ storable EEPROM.fmt_bool 1 (EEPROM.has_cooling e)
  /\ storable EEPROM.fmt_bool 1 (EEPROM.has_battery e)
  /\ storable EEPROM.fmt_bool 1 (EEPROM.has_laser e)
  /\ storable EEPROM.fmt_H 2 (EEPROM.excitation_nm e)
  /\ storable EEPROM.fmt_f 4 (EEPROM.excitation_nm_float e)
  /\ storable EEPROM.fmt_H 2 (EEPROM.slit_size_um e)
  /\ storable EEPROM.fmt_H 2 (EEPROM.startup_integration_time_ms e)
  /\ storable EEPROM.fmt_h 2 (EEPROM.startup_temp_degC e)
  /\ storable EEPROM.fmt_B 1 (EEPROM.startup_triggering_scheme e)
  /\ storable EEPROM.fmt_f 4 (EEPROM.detector_gain e)
  /\ storable EEPROM.fmt_h 2 (EEPROM.detector_offset e)
  /\ storable EEPROM.fmt_f 4 (EEPROM.detector_gain_odd e)
  /\ storable EEPROM.fmt_h 2 (EEPROM.detector_offset_odd e)
  /\ coefficients 4 (EEPROM.wavelength_coeffs e)
  /\ coefficients 3 (EEPROM.degC_to_dac_coeffs e)
  /\ coefficients 3 (EEPROM.adc_to_degC_coeffs e)
  /\ storable EEPROM.fmt_h 2 (EEPROM.max_temp_degC e)
  /\ storable EEPROM.fmt_h 2 (EEPROM.min_temp_degC e)
  /\ storable EEPROM.fmt_h 2 (EEPROM.tec_r298 e)
  /\ storable EEPROM.fmt_h 2 (EEPROM.tec_beta e)
  /\ storable EEPROM.fmt_s 12 (EEPROM.calibration_date e)
  /\ storable EEPROM.fmt_s 3 (EEPROM.calibrated_by e)
  /\ storable EEPROM.fmt_s 16 (EEPROM.detector e)
  /\ storable EEPROM.fmt_H 2 (EEPROM.active_pixels_horizontal e)
  /\ storable EEPROM.fmt_H 2 (EEPROM.active_pixels_vertical e)
  (* the limits are written twice, as 16 and as 32 bits *)
  /\ storable EEPROM.fmt_H 2 (EEPROM.min_integration_time_ms e)
  /\ storable EEPROM.fmt_H 2 (EEPROM.max_integration_time_ms e)
  /\ storable EEPROM.fmt_H 2 (EEPROM.actual_horizontal e)
  (* not written: read as the active vertical pixels *)
  /\ EEPROM.actual_vertical e = EEPROM.active_pixels_vertical e
  /\ storable EEPROM.fmt_H 2 (EEPROM.roi_horizontal_start e)
  /\ storable EEPROM.fmt_H 2 (EEPROM.roi_horizontal_end e)
  /\ storable EEPROM.fmt_H 2 (EEPROM.roi_vertical_region_1_start e)
  /\ storable EEPROM.fmt_H 2 (EEPROM.roi_vertical_region_1_end e)
  /\ storable EEPROM.fmt_H 2 (EEPROM.roi_vertical_region_2_start e)
  /\ storable EEPROM.fmt_H 2 (EEPROM.roi_vertical_region_2_end e)
  /\ storable EEPROM.fmt_H 2 (EEPROM.roi_vertical_region_3_start e)
  /\ storable EEPROM.fmt_H 2 (EEPROM.roi_vertical_region_3_end e)
  /\ coefficients 5 (EEPROM.linearity_coeffs e)
  /\ storable EEPROM.fmt_f 4 (EEPROM.max_laser_power_mW e)
  /\ storable EEPROM.fmt_f 4 (EEPROM.min_laser_power_mW e)
  /\ coefficients 4 (EEPROM.laser_power_coeffs e)
  /\ (exists text, EEPROM.user_text e = EEPROM.VStr text
                   /\ printable_text text /\ (String.length text <= 63)%nat)
  /\ (exists pixels, EEPROM.bad_pixels e = Some <$> pixels
                     /\ StronglySorted Z.lt pixels
                     /\ Forall (fun z => 0 <= z <= 32767) pixels
                     /\ (length pixels <= 15)%nat)
  /\ storable EEPROM.fmt_s 16 (EEPROM.product_configuration e).

Section encode_decode.

Import Py EEPROM.

Implicit Types (w wb : list (list byte)) (a : address) (t : data_type)
         (x bs : list byte).

Lemma length_bytes_of_string (s : string) :
  length (bytes_of_string s) = String.length s.
Proof.
  unfold bytes_of_string. rewrite length_map.
  induction s as [|c s IH]; [done|]. cbn. by rewrite IH.
Qed.

Lemma code_byte_of_ascii (c : ascii) :
  Z_of_byte (byte_of_ascii c) = Z.of_N (N_of_ascii c).
Proof.
  rewrite <- (code_ascii_of_byte (byte_of_ascii c)).
  by rewrite ascii_of_byte_of_ascii.
Qed.

Lemma c_string_bytes_of_string (s : string) n :
  Forall (fun c => c <> "000"%char) (list_ascii_of_string s) ->
  c_string (bytes_of_string s ++ replicate n x00) = s.
Proof.
  unfold bytes_of_string. induction s as [|c s IH]; intros Hs.
  { apply c_string_zeros. }
  cbn [list_ascii_of_string] in Hs. apply Forall_cons in Hs as [Hc Hs].
  cbn [list_ascii_of_string map app c_string].
  replace (Z_of_byte (byte_of_ascii c) =? 0) with false.
  - by rewrite ascii_of_byte_of_ascii, IH.
  - symmetry. apply Z.eqb_neq. rewrite code_byte_of_ascii. intros H0.
    apply Hc. rewrite <- (ascii_N_embedding c).
    assert (N_of_ascii c = 0%N) as -> by lia. done.
Qed.

Lemma printable_bytes_of_string (s : string) :
  printable_text s -> printable (bytes_of_string s) = s.
Proof.
  unfold printable_text, bytes_of_string. induction s as [|c s IH]; intros Hs.
  { done. }
  cbn [list_ascii_of_string] in Hs. apply Forall_cons in Hs as [Hc Hs].
  cbn [list_ascii_of_string map printable]. unfold printable_char in Hc.
  rewrite code_byte_of_ascii.
  replace (31 <? Z.of_N (N_of_ascii c)) with true by (symmetry; apply Z.ltb_lt; lia).
  replace (Z.of_N (N_of_ascii c) <? 127) with true by (symmetry; apply Z.ltb_lt; lia).
  cbn [andb]. by rewrite ascii_of_byte_of_ascii, IH.
Qed.

(** A storable value is what [unpack] reads from some bytes of the
    field. *)
Lemma storable_decoded t l v :
  field_ok ((0, 0, l)%nat, t) = true -> storable t l v ->
  exists x, length x = l /\ v = field_value t x.
Proof.
  intros Hok Hv. unfold field_ok in Hok.
  apply andb_true_iff in Hok as [_ Hsize].
  destruct t, v as [|b|z|f|s]; try done; cbn [storable] in Hv;
    try (apply Nat.eqb_eq in Hsize; cbn [calcsize] in Hsize; subst l).
  - (* s *)
    destruct Hv as [Hlen Hnul].
    exists (bytes_of_string s ++ replicate (l - String.length s) x00). split.
    + rewrite length_app, length_bytes_of_string, length_replicate. lia.
    + unfold field_value. by rewrite c_string_bytes_of_string.
  - (* B *)
    exists (le_encode 1 z). split; [done|].
    rewrite field_value_int by done. rewrite le_decode_encode.
    by rewrite Z.mod_small by (cbn; lia).
  - (* ? *)
    exists [if b then x01 else x00]. split; [done|]. by destruct b.
  - (* h *)
    exists (le_encode 2 z). split; [done|].
    by rewrite field_value_h_encode.
  - (* H *)
    exists (le_encode 2 z). split; [done|].
    rewrite field_value_int by done. rewrite le_decode_encode.
    by rewrite Z.mod_small by (cbn; lia).
  - (* I *)
    exists (le_encode 4 z). split; [done|].
    rewrite field_value_int by done. rewrite le_decode_encode.
    by rewrite Z.mod_small by (cbn; lia).
  - (* f *)
    destruct Hv as [Hbits Hnan]. exists (le_encode 4 (f32_bits f)).
    split; [done|]. unfold field_value, struct_unpack.
    rewrite length_le_encode. cbn [calcsize Nat.eqb negb]. f_equal.
    rewrite le_decode_encode. rewrite Z.mod_small by (cbn; lia).
    unfold f32_of_bits. destruct (f32_is_nan (f32_bits f)) eqn:Hf.
    + by rewrite Hnan.
    + by destruct f.
Qed.

Ltac fields :=
  cbn [model serial_number baud_rate has_cooling has_battery has_laser
       excitation_nm excitation_nm_float slit_size_um
       startup_integration_time_ms startup_temp_degC
       startup_triggering_scheme detector_gain detector_offset
       detector_gain_odd detector_offset_odd wavelength_coeffs
       degC_to_dac_coeffs adc_to_degC_coeffs max_temp_degC min_temp_degC
       tec_r298 tec_beta calibration_date calibrated_by detector
       active_pixels_horizontal active_pixels_vertical
       min_integration_time_ms max_integration_time_ms actual_horizontal
       actual_vertical roi_horizontal_start roi_horizontal_end
       roi_vertical_region_1_start roi_vertical_region_1_end
       roi_vertical_region_2_start roi_vertical_region_2_end
       roi_vertical_region_3_start roi_vertical_region_3_end
       linearity_coeffs max_laser_power_mW min_laser_power_mW
       laser_power_coeffs user_text bad_pixels product_configuration
       py_getitem lookup list_lookup].

Ltac fields_in H :=
  cbn [model serial_number baud_rate has_cooling has_battery has_laser
       excitation_nm excitation_nm_float slit_size_um
       startup_integration_time_ms startup_temp_degC
       startup_triggering_scheme detector_gain detector_offset
       detector_gain_odd detector_offset_odd wavelength_coeffs
       degC_to_dac_coeffs adc_to_degC_coeffs max_temp_degC min_temp_degC
       tec_r298 tec_beta calibration_date calibrated_by detector
       active_pixels_horizontal active_pixels_vertical
       min_integration_time_ms max_integration_time_ms actual_horizontal
       actual_vertical roi_horizontal_start roi_horizontal_end
       roi_vertical_region_1_start roi_vertical_region_1_end
       roi_vertical_region_2_start roi_vertical_region_2_end
       roi_vertical_region_3_start roi_vertical_region_3_end
       linearity_coeffs max_laser_power_mW min_laser_power_mW
       laser_power_coeffs user_text bad_pixels product_configuration
       py_getitem lookup list_lookup] in H.

(** Every storable field of the context becomes the value of some
    bytes. *)
Ltac decode_storable :=
  repeat match goal with
         | H : storable ?t ?l ?v |- _ =>
             let x := fresh "x" in
             let Hx := fresh "Hx" in
             destruct (storable_decoded t l v eq_refl H) as (x & Hx & ->);
             clear H
         end.

(** A list of [n] coefficients, element by element. *)
Ltac split_coefficients H :=
  let Hlen := fresh "Hlen" in
  let Hall := fresh "Hall" in
  destruct H as [Hlen Hall];
  repeat match type of Hlen with
         | length ?l = _ =>
             is_var l;
             let c := fresh "c" in
             destruct l as [|c l]; [discriminate Hlen|];
             cbn [length] in Hlen; apply Nat.succ_inj in Hlen;
             let Hc := fresh "Hc" in
             apply Forall_cons in Hall as [Hc Hall]
         end;
  match type of Hlen with
  | length ?l = _ => destruct l; [|discriminate Hlen]
  end;
  clear Hlen Hall.

Ltac parse_written Hw Hfmt Hp4 :=
  unfold parse;
  rewrite length_fmap, (proj1 Hw); cbn [Nat.ltb Nat.leb];
  unfold read_eeprom; cbn [buffers with_buffers];
  rewrite (unpack_pages _ (0, 63, 1)%nat fmt_B Hw eq_refl), Hfmt;
  cbn [mbind result_bind Py.bind];
  rewrite !ge_format_int, !py_lt_int;
  cbn [Z.leb Z.ltb Z.compare Pos.compare Pos.compare_cont];
  rewrite !(unpack_pages _ _ _ Hw) by reflexivity;
  rewrite (unpack_bad_pixel_slots_pages _ Hw);
  rewrite list_lookup_fmap, Hp4;
  cbn [fmap option_fmap option_map mbind result_bind Py.bind].

Ltac in_calls :=
  solve [repeat first [apply list_elem_of_here | apply list_elem_of_further]].

Ltac reread wb Hr :=
  lazymatch goal with
  | |- field_value ?t ?x = field_value ?t (region wb ?a) =>
      symmetry; apply (redecode _ wb a t x Hr);
      [in_calls | assumption | reflexivity]
  end.

(** X21.  Writing a well-formed record and reading the pages gives the record
    back: [generate_write_buffers] succeeds, and [parse] on its six pages
    returns a record with the same fields, at format 5. *)
Theorem generate_write_buffers_then_parse e :
  well_formed e ->
  exists wb,
    generate_write_buffers e = Ok wb /\ pages_ok wb
    /\ forall self', exists e2,
         parse self' (Some <$> wb) = Ok e2
         /\ reproduced e e2 /\ format e2 = VInt 5.
Proof.
  destruct e. unfold well_formed. fields.
  intros (? & ? & ? & ? & ? & ? & ? & ? & ? & ? & ? & ? & ? & ? & ? & ?
          & Hwave & Hdac & Hadc & ? & ? & ? & ? & ? & ? & ? & ? & ?
          & Hmin & Hmax & ? & -> & ? & ? & ? & ? & ? & ? & ? & ?
          & Hlin & ? & ? & Hlaser & (text & -> & Htext & Htextlen)
          & (pixels & -> & Hsorted & Hrange & Hcount) & ?).
  split_coefficients Hwave. split_coefficients Hdac. split_coefficients Hadc.
  split_coefficients Hlin. split_coefficients Hlaser.
  (* the limits: the 16-bit value, read as 32 bits *)
  destruct (storable_decoded fmt_H 2 _ eq_refl Hmin) as (xmin0 & Hxmin0 & ->).
  destruct (storable_decoded fmt_H 2 _ eq_refl Hmax) as (xmax0 & Hxmax0 & ->).
  clear Hmin Hmax.
  assert (py_le (field_value fmt_H xmin0) (VInt 65535) = true) as Hmin.
  { rewrite field_value_int by done. rewrite py_le_int. apply Z.leb_le.
    pose proof (le_decode_range xmin0) as Hr. rewrite Hxmin0 in Hr.
    change (256 ^ Z.of_nat 2) with 65536 in Hr. lia. }
  assert (py_le (field_value fmt_H xmax0) (VInt 65535) = true) as Hmax.
  { rewrite field_value_int by done. rewrite py_le_int. apply Z.leb_le.
    pose proof (le_decode_range xmax0) as Hr. rewrite Hxmax0 in Hr.
    change (256 ^ Z.of_nat 2) with 65536 in Hr. lia. }
  rewrite (field_value_H_as_I xmin0) in * by done.
  rewrite (field_value_H_as_I xmax0) in * by done.
  set (xmin := xmin0 ++ replicate 2 x00) in *.
  set (xmax := xmax0 ++ replicate 2 x00) in *.
  assert (length xmin = 4%nat) as Hxmin by (subst xmin; by rewrite length_app, Hxmin0).
  assert (length xmax = 4%nat) as Hxmax by (subst xmax; by rewrite length_app, Hxmax0).
  clearbody xmin xmax. clear xmin0 xmax0 Hxmin0 Hxmax0.
  decode_storable.
  (* the user text, as the printable text of its bytes *)
  rewrite <- (printable_bytes_of_string text Htext).
  assert (length (bytes_of_string text) <= 63)%nat as Hu
    by (by rewrite length_bytes_of_string).
  set (u := bytes_of_string text) in *. clearbody u. clear Htext Htextlen text.
  match goal with
  | |- exists wb, generate_write_buffers ?r = _ /\ _ => set (e1 := r)
  end.
  pose proof (calls_layout e1 (bad_pixels e1)) as Hlayout.
  unfold generate_write_buffers.
  destruct (pack_all_succeeds _ stamped_buffers pages_ok_stamped Hlayout)
    as [wb Hwb].
  { apply Forall_app. split; [|apply Forall_app; split].
    - subst e1. unfold field_calls. fields.
      rewrite py_int_round_field by assumption.
      repeat (apply Forall_cons; split); try apply Forall_nil.
      all: first
             [ exact I
             | apply call_stores_string
             | by apply call_stores_limit
             | apply call_stores_decoded; [assumption|reflexivity] ].
    - subst e1. fields. apply bad_pixel_calls_store.
      eapply Forall_impl; [exact Hrange|]. intros z Hz. cbn beta in *. lia.
    - apply Forall_singleton. subst e1. fields.
      apply call_stores_decoded; [assumption|reflexivity]. }
  destruct (pack_all_regions _ _ _ pages_ok_stamped Hlayout Hwb)
    as [Hwbok Hfields].
  destruct (pack_all_frame _ _ _ (0, 63, 1)%nat pages_ok_stamped Hlayout Hwb
              (calls_leave_format e1 (bad_pixels e1))) as [_ Hframe].
  assert (field_value fmt_B (region wb (0, 63, 1)%nat) = VInt 5) as Hfmt
    by (by rewrite Hframe).
  destruct (lookup_lt_is_Some_2 wb 4) as [p4 Hp4];
    [rewrite (proj1 Hwbok); lia|].
  exists wb. split; [exact Hwb|]. split; [exact Hwbok|]. intros self'.
  eexists. split; [parse_written Hwbok Hfmt Hp4; reflexivity|].
  split; [|reflexivity].
  apply Forall_app in Hfields as [Hfields Hpixels].
  apply Forall_app in Hpixels as [Hpixels Hconfig].
  subst e1. unfold field_calls in Hfields.
  fields_in Hfields. fields_in Hpixels. fields_in Hconfig.
  rewrite py_int_round_field in Hfields by assumption.
  unfold reproduced. fields.
  split_and!.
  all: first
         [ reflexivity
         | reread wb Hfields
         | reread wb Hconfig
         | repeat (apply (f_equal2 cons)); try reflexivity; reread wb Hfields
         | f_equal; symmetry;
           apply (user_text_redecode _ wb u p4 Hfields);
           [in_calls|exact Hu|exact Hp4]
         | symmetry; apply bad_pixels_redecode; assumption ].
Qed.

End encode_decode.

(** The record read at format 4 is well-formed; written and read again it
    comes back at format 5. *)
Lemma generate_write_buffers_then_parse_witness :
  well_formed format_4_record
  /\ exists wb,
      EEPROM.generate_write_buffers format_4_record = Py.Ok wb
      /\ EEPROM.pages_ok wb
      /\ forall self', exists e2,
           EEPROM.parse self' (Some <$> wb) = Py.Ok e2
           /\ EEPROM.reproduced format_4_record e2
           /\ EEPROM.format e2 = EEPROM.VInt 5.
Proof.
  assert (well_formed format_4_record) as H.
  { unfold well_formed, coefficients.
    repeat match goal with
           | |- _ /\ _ => split
           | |- exists text, EEPROM.user_text _ = _ /\ _ => exists "."%string
           | |- exists pixels, EEPROM.bad_pixels _ = _ /\ _ => exists [7]
           end;
      try reflexivity;
      try (cbn; lia);
      try discriminate;
      try (repeat constructor; fail);
      try (repeat constructor; (discriminate || (cbn; lia))). }
  split; [exact H|]. exact (generate_write_buffers_then_parse format_4_record H).
Defined.

(** ** The EEPROM: [update_editable] *)

Module Editable.

Import Py EEPROM.

(** What an editable attribute holds: a value, a list of coefficients or
    the list of bad pixels. *)
Inductive attribute : Type :=
| a_value (v : value)
| a_values (l : list value)
| a_pixels (l : list (option Z)).

(** [self.editable], in the order of the constructor. *)
Definition editable : list string :=
  [ "excitation_nm";
    "excitation_nm_float";
    "detector_gain";
    "detector_offset";
    "detector_gain_odd";
    "detector_offset_odd";
    "calibrated_by";
    "calibration_date";
    "user_text";
    "wavelength_coeffs";
    "linearity_coeffs";
    "max_laser_power_mW";
    "min_laser_power_mW";
    "laser_power_coeffs";
    "bad_pixels";
    "roi_horizontal_end";
    "roi_horizontal_start";
    "roi_vertical_region_1_end";
    "roi_vertical_region_1_start";
    "roi_vertical_region_2_end";
    "roi_vertical_region_2_start";
    "roi_vertical_region_3_end";
    "roi_vertical_region_3_start" ]%string.

(** [getattr(self, field)] for the fields that [update_editable] names;
    the other attributes are not needed here. *)
Definition getattr (self : EEPROM) (field : string) : result attribute :=
  if String.eqb field "excitation_nm" then Ok (a_value (excitation_nm self))
  else if String.eqb field "excitation_nm_float" then Ok (a_value (excitation_nm_float self))
  else if String.eqb field "detector_gain" then Ok (a_value (detector_gain self))
  else if String.eqb field "detector_offset" then Ok (a_value (detector_offset self))
  else if String.eqb field "detector_gain_odd" then Ok (a_value (detector_gain_odd self))
  else if String.eqb field "detector_offset_odd" then Ok (a_value (detector_offset_odd self))
  else if String.eqb field "calibrated_by" then Ok (a_value (calibrated_by self))
  else if String.eqb field "calibration_date" then Ok (a_value (calibration_date self))
  else if String.eqb field "user_text" then Ok (a_value (user_text self))
  else if String.eqb field "wavelength_coeffs" then Ok (a_values (wavelength_coeffs self))
  else if String.eqb field "linearity_coeffs" then Ok (a_values (linearity_coeffs self))
  else if String.eqb field "max_laser_power_mW" then Ok (a_value (max_laser_power_mW self))
  else if String.eqb field "min_laser_power_mW" then Ok (a_value (min_laser_power_mW self))
  else if String.eqb field "laser_power_coeffs" then Ok (a_values (laser_power_coeffs self))
  else if String.eqb field "bad_pixels" then Ok (a_pixels (bad_pixels self))
  else if String.eqb field "roi_horizontal_end" then Ok (a_value (roi_horizontal_end self))
  else if String.eqb field "roi_horizontal_start" then Ok (a_value (roi_horizontal_start self))
  else if String.eqb field "roi_vertical_region_1_end" then Ok (a_value (roi_vertical_region_1_end self))
  else if String.eqb field "roi_vertical_region_1_start" then Ok (a_value (roi_vertical_region_1_start self))
  else if String.eqb field "roi_vertical_region_2_end" then Ok (a_value (roi_vertical_region_2_end self))
  else if String.eqb field "roi_vertical_region_2_start" then Ok (a_value (roi_vertical_region_2_start self))
  else if String.eqb field "roi_vertical_region_3_end" then Ok (a_value (roi_vertical_region_3_end self))
  else if String.eqb field "roi_vertical_region_3_start" then Ok (a_value (roi_vertical_region_3_start self))
  else Raise AttributeError.

(** The new value of an attribute [name] of kind [value] under
    [setattr(self, field, new)]. *)
Definition set_value (field : string) (new : attribute) (name : string)
           (old : value) : value :=
  if String.eqb field name
  then match new with a_value v => v | _ => old end
  else old.

Definition set_values (field : string) (new : attribute) (name : string)
           (old : list value) : list value :=
  if String.eqb field name
  then match new with a_values l => l | _ => old end
  else old.

Definition set_pixels (field : string) (new : attribute) (name : string)
           (old : list (option Z)) : list (option Z) :=
  if String.eqb field name
  then match new with a_pixels l => l | _ => old end
  else old.

(** [setattr(self, field, new)] for an editable field. *)
Definition setattr (self : EEPROM) (field : string) (new : attribute) : EEPROM :=
  {| format := format self;
     model := model self;
     serial_number := serial_number self;
     baud_rate := baud_rate self;
     has_cooling := has_cooling self;
     has_battery := has_battery self;
     has_laser := has_laser self;
     excitation_nm := set_value field new "excitation_nm" (excitation_nm self);
     excitation_nm_float := set_value field new "excitation_nm_float" (excitation_nm_float self);
     slit_size_um := slit_size_um self;
     startup_integration_time_ms := startup_integration_time_ms self;
     startup_temp_degC := startup_temp_degC self;
     startup_triggering_scheme := startup_triggering_scheme self;
     detector_gain := set_value field new "detector_gain" (detector_gain self);
     detector_offset := set_value field new "detector_offset" (detector_offset self);
     detector_gain_odd := set_value field new "detector_gain_odd" (detector_gain_odd self);
     detector_offset_odd := set_value field new "detector_offset_odd" (detector_offset_odd self);
     wavelength_coeffs := set_values field new "wavelength_coeffs" (wavelength_coeffs self);
     degC_to_dac_coeffs := degC_to_dac_coeffs self;
     adc_to_degC_coeffs := adc_to_degC_coeffs self;
     max_temp_degC := max_temp_degC self;
     min_temp_degC := min_temp_degC self;
     tec_r298 := tec_r298 self;
     tec_beta := tec_beta self;
     calibration_date := set_value field new "calibration_date" (calibration_date self);
     calibrated_by := set_value field new "calibrated_by" (calibrated_by self);
     detector := detector self;
     active_pixels_horizontal := active_pixels_horizontal self;
     active_pixels_vertical := active_pixels_vertical self;
     min_integration_time_ms := min_integration_time_ms self;
     max_integration_time_ms := max_integration_time_ms self;
     actual_horizontal := actual_horizontal self;
     actual_vertical := actual_vertical self;
     roi_horizontal_start := set_value field new "roi_horizontal_start" (roi_horizontal_start self);
     roi_horizontal_end := set_value field new "roi_horizontal_end" (roi_horizontal_end self);
     roi_vertical_region_1_start := set_value field new "roi_vertical_region_1_start" (roi_vertical_region_1_start self);
     roi_vertical_region_1_end := set_value field new "roi_vertical_region_1_end" (roi_vertical_region_1_end self);
     roi_vertical_region_2_start := set_value field new "roi_vertical_region_2_start" (roi_vertical_region_2_start self);
     roi_vertical_region_2_end := set_value field new "roi_vertical_region_2_end" (roi_vertical_region_2_end self);
     roi_vertical_region_3_start := set_value field new "roi_vertical_region_3_start" (roi_vertical_region_3_start self);
     roi_vertical_region_3_end := set_value field new "roi_vertical_region_3_end" (roi_vertical_region_3_end self);
     linearity_coeffs := set_values field new "linearity_coeffs" (linearity_coeffs self);
     max_laser_power_mW := set_value field new "max_laser_power_mW" (max_laser_power_mW self);
     min_laser_power_mW := set_value field new "min_laser_power_mW" (min_laser_power_mW self);
     laser_power_coeffs := set_values field new "laser_power_coeffs" (laser_power_coeffs self);
     user_data := user_data self;
     user_text := set_value field new "user_text" (user_text self);
     bad_pixels := set_pixels field new "bad_pixels" (bad_pixels self);
     product_configuration := product_configuration self;
     buffers := buffers self;
     write_buffers := write_buffers self |}.

(** [a == b] *)
Definition py_eq (a b : value) : bool := negb (py_ne a b).

(** [old == new] for two lists: the same length and equal elements.  The
    two records share no float object, so that a NaN equals nothing. *)
Fixpoint py_eq_list (a b : list value) : bool :=
  match a, b with
  | [], [] => true
  | x :: a', y :: b' => py_eq x y && py_eq_list a' b'
  | _, _ => false
  end.

Definition py_eq_pixels (a b : list (option Z)) : bool :=
  bool_decide (a = b).

Definition py_eq_attribute (a b : attribute) : bool :=
  match a, b with
  | a_value x, a_value y => py_eq x y
  | a_values x, a_values y => py_eq_list x y
  | a_pixels x, a_pixels y => py_eq_pixels x y
  | _, _ => false
  end.

(** One turn of the loop of [update_editable]. *)
Definition update_field (new_eeprom : EEPROM) (self : result EEPROM)
           (field : string) : result EEPROM :=
  self ← self;
  old ← getattr self field;
  new ← getattr new_eeprom field;              (* copy.deepcopy *)
  if py_eq_attribute old new then Ok self      (* no change *)
  else Ok (setattr self field new).

(** [update_editable(new_eeprom)]: the record after the call. *)
Definition update_editable (self new_eeprom : EEPROM) : result EEPROM :=
  foldl (update_field new_eeprom) (Ok self) editable.

(** The attributes that are not editable. *)
Definition same_fixed (a b : EEPROM) : Prop :=
  format a = format b
  /\ model a = model b
  /\ serial_number a = serial_number b
  /\ baud_rate a = baud_rate b
  /\ has_cooling a = has_cooling b
  /\ has_battery a = has_battery b
  /\ has_laser a = has_laser b
  /\ slit_size_um a = slit_size_um b
  /\ startup_integration_time_ms a = startup_integration_time_ms b
  /\ startup_temp_degC a = startup_temp_degC b
  /\ startup_triggering_scheme a = startup_triggering_scheme b
  /\ degC_to_dac_coeffs a = degC_to_dac_coeffs b
  /\ adc_to_degC_coeffs a = adc_to_degC_coeffs b
  /\ max_temp_degC a = max_temp_degC b
  /\ min_temp_degC a = min_temp_degC b
  /\ tec_r298 a = tec_r298 b
  /\ tec_beta a = tec_beta b
  /\ detector a = detector b
  /\ active_pixels_horizontal a = active_pixels_horizontal b
  /\ active_pixels_vertical a = active_pixels_vertical b
  /\ min_integration_time_ms a = min_integration_time_ms b
  /\ max_integration_time_ms a = max_integration_time_ms b
  /\ actual_horizontal a = actual_horizontal b
  /\ actual_vertical a = actual_vertical b
  /\ user_data a = user_data b
  /\ product_configuration a = product_configuration b
  /\ buffers a = buffers b
  /\ write_buffers a = write_buffers b.

End Editable.

Section update_editable_facts.

Import Py EEPROM Editable.

Implicit Types (self new_eeprom : EEPROM) (field : string).

Lemma same_fixed_refl self : same_fixed self self.
Proof. unfold same_fixed. done. Qed.

Lemma same_fixed_trans a b c : same_fixed a b -> same_fixed b c -> same_fixed a c.
Proof.
  unfold same_fixed. intros Hab Hbc.
  repeat match goal with
         | H : _ /\ _ |- _ => destruct H as [? H]
         end.
  repeat split; congruence.
Qed.

Lemma setattr_fixed self field new : same_fixed (setattr self field new) self.
Proof. unfold same_fixed. done. Qed.

(** An editable field has a value. *)
Lemma getattr_editable self field :
  field ∈ editable -> exists a, getattr self field = Ok a.
Proof.
  unfold editable. intros Hin.
  repeat (apply elem_of_cons in Hin as [->|Hin]; [by eexists|]).
  by apply elem_of_nil in Hin.
Qed.

(** The value that [setattr] has set is the value that [getattr] gets. *)
Lemma getattr_setattr self new_eeprom field new :
  getattr new_eeprom field = Ok new ->
  getattr (setattr self field new) field = Ok new.
Proof.
  unfold getattr.
  repeat match goal with
         | |- context [if String.eqb field ?name then _ else _] =>
             destruct (String.eqb field name) eqn:?;
             [ match goal with
               | H : String.eqb field _ = true |- _ =>
                   apply String.eqb_eq in H; subst field
               end;
               intros [= <-]; reflexivity
             | ]
         end.
  done.
Qed.

(** [setattr] leaves the other attributes alone. *)
Lemma getattr_setattr_other self field other new :
  field <> other ->
  getattr (setattr self field new) other = getattr self other.
Proof.
  intros Hne. unfold getattr.
  repeat match goal with
         | |- context [if String.eqb other ?name then _ else _] =>
             destruct (String.eqb other name) eqn:?;
             [ match goal with
               | H : String.eqb other _ = true |- _ =>
                   apply String.eqb_eq in H; subst other
               end;
               cbn; unfold set_value, set_values, set_pixels;
               by rewrite (proj2 (String.eqb_neq _ _) Hne)
             | ]
         end.
  done.
Qed.

(** One turn of the loop, on an editable field. *)
Lemma update_field_editable self new_eeprom field :
  field ∈ editable ->
  exists old new,
    getattr self field = Ok old /\ getattr new_eeprom field = Ok new
    /\ update_field new_eeprom (Ok self) field
       = Ok (if py_eq_attribute old new then self else setattr self field new).
Proof.
  intros Hin.
  destruct (getattr_editable self field Hin) as [old Hold].
  destruct (getattr_editable new_eeprom field Hin) as [new Hnew].
  exists old, new. split; [done|]. split; [done|].
  unfold update_field. cbn [mbind result_bind Py.bind]. rewrite Hold, Hnew.
  cbn [mbind result_bind Py.bind]. by destruct (py_eq_attribute old new).
Qed.

(** The loop over some editable fields: it returns, the attributes that
    are not editable are as before, the fields visited hold the new value
    unless the old one compares equal to it, and the others are as
    before. *)
Lemma update_fields new_eeprom (todo : list string) start :
  NoDup todo -> todo ⊆ editable ->
  exists e,
    foldl (update_field new_eeprom) (Ok start) todo = Ok e
    /\ same_fixed e start
    /\ (forall field, field ∉ todo -> getattr e field = getattr start field)
    /\ (forall field, field ∈ todo ->
          exists old new,
            getattr start field = Ok old /\ getattr new_eeprom field = Ok new
            /\ getattr e field
               = Ok (if py_eq_attribute old new then old else new)).
Proof.
  revert start.
  induction todo as [|field todo IH]; intros start Hnodup Hsub.
  { exists start. split; [done|]. split; [apply same_fixed_refl|].
    split; [done|]. intros field Hin. by apply elem_of_nil in Hin. }
  apply NoDup_cons in Hnodup as [Hfield Hnodup].
  assert (field ∈ editable) as Hin by (apply Hsub, list_elem_of_here).
  assert (todo ⊆ editable) as Hsub'
    by (intros f Hf; by apply Hsub, list_elem_of_further).
  destruct (update_field_editable start new_eeprom field Hin)
    as (old & new & Hold & Hnew & Hstep).
  cbn [foldl]. rewrite Hstep.
  set (next := if py_eq_attribute old new then start
               else setattr start field new).
  assert (same_fixed next start) as Hfixed.
  { subst next. destruct (py_eq_attribute old new);
      [apply same_fixed_refl|apply setattr_fixed]. }
  assert (forall other, field <> other -> getattr next other = getattr start other)
    as Hother.
  { intros other Hne. subst next. destruct (py_eq_attribute old new); [done|].
    by apply getattr_setattr_other. }
  assert (getattr next field = Ok (if py_eq_attribute old new then old else new))
    as Hthis.
  { subst next. destruct (py_eq_attribute old new); [done|].
    by apply (getattr_setattr start new_eeprom). }
  destruct (IH next Hnodup Hsub') as (e & Hloop & Hfixed' & Hrest & Hdone).
  exists e. split; [done|]. split; [by eapply same_fixed_trans|]. split.
  - intros other Hout. rewrite Hrest.
    + apply Hother. intros <-. apply Hout, list_elem_of_here.
    + intros Hin'. by apply Hout, list_elem_of_further.
  - intros f Hf. apply elem_of_cons in Hf as [->|Hf].
    + exists old, new. split; [done|]. split; [done|].
      by rewrite Hrest.
    + destruct (Hdone f Hf) as (old' & new' & Hold' & Hnew' & He).
      exists old', new'. split; [|done].
      rewrite <- Hold'. symmetry. apply Hother. by intros <-.
Qed.

Lemma editable_NoDup : NoDup editable.
Proof. apply (bool_decide_unpack _). vm_compute. exact I. Qed.

(** X22.  [update_editable] returns for every pair of records, and changes no
    attribute outside the list of the editable ones: the format, the
    model, the serial number, the limits, the buffers and the others stay
    as they were. *)
Theorem update_editable_fixed self new_eeprom :
  exists e, update_editable self new_eeprom = Ok e /\ same_fixed e self.
Proof.
  destruct (update_fields new_eeprom editable self editable_NoDup)
    as (e & He & Hfixed & _); [done|].
  by exists e.
Qed.

(** X23.  After [update_editable], every editable attribute holds the value of
    the other record, unless the value it held compares equal to it in
    Python: then it holds what it held. *)
Theorem update_editable_fields self new_eeprom e field :
  update_editable self new_eeprom = Ok e -> field ∈ editable ->
  exists old new,
    getattr self field = Ok old /\ getattr new_eeprom field = Ok new
    /\ getattr e field = Ok (if py_eq_attribute old new then old else new).
Proof.
  intros He Hin.
  destruct (update_fields new_eeprom editable self editable_NoDup)
    as (e' & He' & _ & _ & Hfields); [done|].
  unfold update_editable in He. rewrite He' in He. apply Ok_inj in He.
  subst e'. by apply Hfields.
Qed.

(** X24.  When every editable attribute compares equal in the two records,
    [update_editable] changes nothing. *)
Theorem update_editable_no_change self new_eeprom :
  Forall (fun field =>
            exists old new,
              getattr self field = Ok old /\ getattr new_eeprom field = Ok new
              /\ py_eq_attribute old new = true) editable ->
  update_editable self new_eeprom = Ok self.
Proof.
  unfold update_editable. generalize editable as todo.
  induction todo as [|field todo IH]; intros Hall; [done|].
  apply Forall_cons in Hall as [(old & new & Hold & Hnew & Heq) Hall].
  cbn [foldl]. unfold update_field at 2.
  cbn [mbind result_bind Py.bind]. rewrite Hold, Hnew.
  cbn [mbind result_bind Py.bind]. rewrite Heq. by apply IH.
Qed.

End update_editable_facts.

(** The sample record with another user text, and with its excitation as
    the float 785.0 in the place of the integer 785. *)
Definition edited_record : EEPROM.EEPROM :=
  Editable.setattr
    (Editable.setattr (sample_record 0 10 1024 1024) "user_text"
       (Editable.a_value (EEPROM.VStr "lab 3")))
    "excitation_nm"
    (Editable.a_value (EEPROM.VFloat (EEPROM.F32 0x44444000))).

(** The text is taken over; the excitation compares equal and stays the
    integer. *)
Lemma update_editable_fields_witness :
  exists e,
    Editable.update_editable (sample_record 0 10 1024 1024) edited_record
    = Py.Ok e
    /\ Editable.getattr e "user_text"
       = Py.Ok (Editable.a_value (EEPROM.VStr "lab 3"))
    /\ Editable.getattr e "excitation_nm"
       = Py.Ok (Editable.a_value (EEPROM.VInt 785)).
Proof.
  eassert (Editable.update_editable (sample_record 0 10 1024 1024)
             edited_record = Py.Ok _) as H by (vm_compute; reflexivity).
  eexists. split; [exact H|]. split.
  - destruct (update_editable_fields _ _ _ "user_text" H)
      as (old & new & Hold & Hnew & He).
    { apply (bool_decide_unpack _). vm_compute. exact I. }
    vm_compute in Hold, Hnew. injection Hold as <-. injection Hnew as <-.
    exact He.
  - destruct (update_editable_fields _ _ _ "excitation_nm" H)
      as (old & new & Hold & Hnew & He).
    { apply (bool_decide_unpack _). vm_compute. exact I. }
    vm_compute in Hold, Hnew. injection Hold as <-. injection Hnew as <-.
    exact He.
Defined.

(** A record updated from an equal record. *)
Lemma update_editable_no_change_witness :
  Editable.update_editable (sample_record 0 10 1024 1024)
    (sample_record 0 10 1024 1024)
  = Py.Ok (sample_record 0 10 1024 1024).
Proof.
  apply update_editable_no_change.
  unfold Editable.editable.
  repeat (apply Forall_cons; split;
          [eexists _, _; split; [reflexivity|]; split; [reflexivity|];
           vm_compute; reflexivity|]).
  apply Forall_nil. exact I.
Defined.

(** ** The command queue between the wrapper and its subprocess *)

Module Poller.

Import Py Wrapper.

(** [change_setting]: a control object for the setting goes on the command
    queue. *)
Definition change_setting (command_queue : list command)
           (setting : string) (value : Z) : list command :=
  let control_object := mkControl setting value in
  command_queue ++ [Some control_object].

(** [disconnect]: the wrapper is closing and the poison pill goes to the
    subprocess; joining and terminating the process are not modelled.
    Returns [True]. *)
Definition disconnect (w : WasatchDeviceWrapper) (command_queue : list command)
  : bool * WasatchDeviceWrapper * list command :=
  (true, mkWrapper true (response_queue w), command_queue ++ [None]).

(** [for record in dedupped] in [continuous_poll]: the flag [poison_pill]
    and the calls of [wasatch_device.change_setting], in their order.  The
    loop does not stop at the pill. *)
Definition apply_commands (dedupped : list command) : bool * list ControlObject :=
  foldl (fun st record =>
           match record with
           | None => (true, snd st)
           | Some record => (fst st, snd st ++ [record])
           end)
        (false, []) dedupped.

(** One turn of the [while True] loop of [continuous_poll], for the
    commands that are queued and for what [wasatch_device.acquire_data()]
    does when it is called: it returns whether the loop is left, the
    settings applied to the device, and the response queue; when the loop
    is left, the poison pill that follows it is on the queue. *)
Definition poll_turn (command_queue : list command)
           (acquire : result (option Reading))
           (response_queue : list (option Reading))
  : result (bool * list ControlObject * list (option Reading)) :=
  (* only keep the MOST RECENT of any given command *)
  dedupped ← dedupe command_queue;
  (* apply dedupped commands *)
  let '(poison_pill, calls) := apply_commands dedupped in
  let '(leave, response_queue) :=
    if poison_pill then (true, response_queue)
    else match acquire with
         | Raise _ => (true, response_queue)
         | Ok None => (false, response_queue)
         | Ok (Some reading) =>
             (bool_decide (failure reading <> None),
              response_queue ++ [Some reading])
         end in
  (* send poison-pill upstream to Controller, then quit *)
  Ok (leave, calls, if leave then response_queue ++ [None] else response_queue).

End Poller.

Section poller_facts.

Import Py Wrapper Poller.

Implicit Types (q keep : list command) (co : ControlObject).

#[local] Instance ControlObject_eq_dec : EqDecision ControlObject.
Proof. solve_decision. Defined.

Lemma apply_commands_foldl keep b calls :
  foldl (fun st record =>
           match record with
           | None => (true, snd st)
           | Some record => (fst st, snd st ++ [record])
           end)
        (b, calls) keep
  = (b || bool_decide (None ∈ keep), calls ++ omap id keep).
Proof.
  revert b calls. induction keep as [|[co|] keep IH]; intros b calls.
  - cbn. rewrite bool_decide_eq_false_2 by apply not_elem_of_nil.
    by rewrite orb_false_r, app_nil_r.
  - cbn [foldl fst snd]. rewrite IH. cbn [omap id]. rewrite <- app_assoc.
    f_equal. f_equal. apply bool_decide_ext. rewrite elem_of_cons.
    split; [tauto|]. by intros [|].
  - cbn [foldl fst snd]. rewrite IH. cbn [omap id].
    rewrite (bool_decide_eq_true_2 (None ∈ None :: keep))
      by apply list_elem_of_here.
    by rewrite orb_true_r.
Qed.

Lemma apply_commands_spec keep :
  apply_commands keep = (bool_decide (None ∈ keep), omap id keep).
Proof.
  unfold apply_commands. by rewrite apply_commands_foldl.
Qed.

Lemma elem_of_calls keep co : co ∈ omap id keep <-> Some co ∈ keep.
Proof.
  rewrite list_elem_of_omap. split.
  - by intros ([co'|] & Hin & [= ->]).
  - intros Hin. by exists (Some co).
Qed.

Lemma size_list_to_set_Some (ks : list string) :
  size (list_to_set (Some <$> ks) : gset (option string))
  = size (list_to_set ks : gset string).
Proof.
  induction ks as [|k ks IH]; [done|].
  rewrite fmap_cons. cbn [list_to_set].
  destruct (decide (k ∈ ks)) as [Hk|Hk].
  - rewrite !subseteq_union_1_L; [done| |].
    + apply singleton_subseteq_l. by apply elem_of_list_to_set.
    + apply singleton_subseteq_l. apply elem_of_list_to_set.
      apply list_elem_of_fmap. by exists k.
  - rewrite !size_union, !size_singleton, IH; [done| |].
    + apply disjoint_singleton_l. by rewrite elem_of_list_to_set.
    + apply disjoint_singleton_l. rewrite elem_of_list_to_set.
      rewrite list_elem_of_fmap. by intros (k' & [= <-] & Hk').
Qed.

Lemma dedupe_tracked q :
  exists keep,
    dedupe q = Ok keep
    /\ length keep = size (list_to_set (key_of <$> q) : gset (option string))
    /\ keep ⊆ q /\ last keep = last q.
Proof.
  destruct (dedupe_loop_tracked q) as (keep & indices & Hloop & Htr).
  exists keep. unfold dedupe. rewrite Hloop. split; [done|].
  destruct Htr as (Hlen & Hdom & _ & Hsub & Hlast).
  by rewrite <- Hdom, size_dom.
Qed.

(** X25.  Whatever was queued before, [disconnect] stops the subprocess at its
    next turn: the pill is the last command drained, so [dedupe] keeps it;
    the turn applies settings that were queued, asks the device for no
    reading, and sends the pill upstream.  The wrapper hands out no reading
    any more. *)
Theorem disconnect_stops_poller (w : WasatchDeviceWrapper) q acquire
        (responses : list (option Reading)) :
  exists w' calls,
    disconnect w q = (true, w', q ++ [None])
    /\ (forall mode, acquire_data mode w' = (None, w'))
    /\ poll_turn (q ++ [None]) acquire responses
       = Ok (true, calls, responses ++ [None])
    /\ forall co, co ∈ calls -> Some co ∈ q.
Proof.
  destruct (dedupe_tracked (q ++ [None])) as (keep & Hkeep & _ & Hsub & Hlast).
  exists (mkWrapper true (response_queue w)), (omap id keep). split_and!.
  - done.
  - done.
  - unfold poll_turn. rewrite Hkeep. cbn [mbind result_bind Py.bind].
    rewrite apply_commands_spec. rewrite last_snoc in Hlast.
    rewrite bool_decide_eq_true_2; [done|].
    apply last_Some in Hlast as [keep' ->]. apply elem_of_app. right.
    apply list_elem_of_here.
  - intros co Hco. apply elem_of_calls in Hco. apply Hsub in Hco.
    apply elem_of_app in Hco as [Hco|Hco]; [done|].
    apply list_elem_of_singleton in Hco. done.
Qed.

(** X26.  The setting changed last is the one applied last to the device, with
    the value given, whatever the queue held before. *)
Theorem change_setting_applied_last q setting value acquire
        (responses : list (option Reading)) :
  exists leave calls responses',
    poll_turn (change_setting q setting value) acquire responses
    = Ok (leave, calls, responses')
    /\ last calls = Some (mkControl setting value).
Proof.
  unfold change_setting.
  destruct (dedupe_tracked (q ++ [Some (mkControl setting value)]))
    as (keep & Hkeep & _ & _ & Hlast).
  unfold poll_turn. rewrite Hkeep. cbn [mbind result_bind Py.bind].
  rewrite apply_commands_spec. rewrite last_snoc in Hlast.
  apply last_Some in Hlast as [keep' ->].
  rewrite omap_app.
  change (omap id [Some (mkControl setting value)])
    with [mkControl setting value].
  destruct acquire as [[reading|]|exn]; repeat case_bool_decide;
    (eexists _, _, _; split; [reflexivity|apply last_snoc]).
Qed.


(** X28.  A pill that is not the last command can be lost: when two settings are
    queued, then the pill, then the two settings again, [dedupe] deletes
    the pill through a stale index and keeps one setting twice; the
    subprocess applies the three commands and does not see the pill. *)
Theorem poll_turn_loses_pill (x y : string) (v1 v2 v3 v4 : Z) :
  x <> y ->
  dedupe [Some (mkControl x v1); Some (mkControl y v2); None;
          Some (mkControl x v3); Some (mkControl y v4)]
  = Ok [Some (mkControl y v2); Some (mkControl x v3); Some (mkControl y v4)]
  /\ forall responses,
       poll_turn [Some (mkControl x v1); Some (mkControl y v2); None;
                  Some (mkControl x v3); Some (mkControl y v4)]
                 (Ok None) responses
       = Ok (false, [mkControl y v2; mkControl x v3; mkControl y v4], responses).
Proof.
  intros Hxy.
  assert (Some x <> Some y) as Hxy' by congruence.
  assert (Some y <> Some x) as Hyx' by congruence.
  assert (dedupe [Some (mkControl x v1); Some (mkControl y v2); None;
                  Some (mkControl x v3); Some (mkControl y v4)]
          = Ok [Some (mkControl y v2); Some (mkControl x v3);
                Some (mkControl y v4)]) as Hkeep.
  { unfold dedupe, dedupe_loop, dedupe_step, key_of. cbn [setting].
    rewrite lookup_empty. cbn [mbind result_bind Py.bind app length Nat.sub].
    rewrite lookup_insert_ne by done. rewrite lookup_empty.
    cbn [mbind result_bind Py.bind app length Nat.sub].
    rewrite !lookup_insert_ne by done. rewrite lookup_empty.
    cbn [mbind result_bind Py.bind app length Nat.sub].
    rewrite !lookup_insert_ne by done. rewrite lookup_insert_eq.
    cbn [del_index length Nat.ltb Nat.leb delete mbind result_bind Py.bind
         app Nat.sub].
    rewrite lookup_insert_ne by done.
    rewrite lookup_delete_ne by done.
    rewrite lookup_insert_ne by done. rewrite lookup_insert_eq.
    cbn [del_index length Nat.ltb Nat.leb delete mbind result_bind Py.bind
         app Nat.sub fst].
    done. }
  split; [done|]. intros responses. unfold poll_turn. rewrite Hkeep.
  cbn [mbind result_bind Py.bind]. rewrite apply_commands_spec.
  rewrite bool_decide_eq_false_2; [done|].
  intros Hin. repeat (apply elem_of_cons in Hin as [Hin|Hin]; [done|]).
  by apply not_elem_of_nil in Hin.
Qed.

End poller_facts.

(** The pill between two changes of the integration time and the laser. *)
Lemma poll_turn_loses_pill_witness :
  "integration"%string <> "laser_enable"%string
  /\ Poller.poll_turn
       [Some (mkControl "integration" 10); Some (mkControl "laser_enable" 1);
        None;
        Some (mkControl "integration" 20); Some (mkControl "laser_enable" 0)]
       (Py.Ok None) []
     = Py.Ok (false,
              [mkControl "laser_enable" 1; mkControl "integration" 20;
               mkControl "laser_enable" 0], []).
Proof.
  assert ("integration"%string <> "laser_enable"%string) as H by discriminate.
  split; [exact H|].
  apply (proj2 (poll_turn_loses_pill "integration" "laser_enable" 10 1 20 0 H)).
Defined.
